(** * Address book (main.py): a shallow embedding and its properties

    The Python module keeps contacts in an [AddressBook] (a [UserDict] from
    contact name to [Record]), each [Record] owning a [Name], a list of
    [Phone]s and an optional [Birthday].  This file embeds the data model,
    the methods of [Record] and [AddressBook], the commands of the command
    line with their error handler, and the loop of [main], and proves the
    properties the specification states about them, and further properties
    of the code.

    Conventions of the embedding:
    - a Python [str] is the list of its Unicode code points;
    - a [Record] is a mutable object: records live in a store indexed by
      references, and the book's dictionary maps names to references, so
      that a record reached through [find] and the one held by the book are
      the same object;
    - a method is a computation in a state-and-exception monad over that
      store; a raised exception leaves the store as it was at the raise;
    - [datetime.today()] is an input of [get_upcoming_birthdays];
    - the lines [input] returns are the input of the loop of [main], what
      it prints and saves is the list of its events; the [pickle] file
      behind [load_data] and [save_data] is not embedded: the book loaded
      is the first store of the loop, and saving is an event. *)

From Stdlib Require Import ZArith Lia String Ascii.
From stdpp Require Import base decidable option numbers list.

Local Open Scope Z_scope.

(** ** Python strings *)

(** A [str] as the sequence of its code points. *)
Definition pystr := list N.

(** The code points of an ASCII literal. *)
Definition py (s : string) : pystr := map N_of_ascii (list_ascii_of_string s).
Arguments py s%_string.

(** [str.isspace] of one character: the white-space table of the
    interpreter's Unicode database. *)
Definition isspace_cp (c : N) : bool :=
  ((9 <=? c) && (c <=? 13) || (28 <=? c) && (c <=? 32) || (c =? 133) || (c =? 160)
   || (c =? 5760) || (8192 <=? c) && (c <=? 8202) || (c =? 8232) || (c =? 8233)
   || (c =? 8239) || (c =? 8287) || (c =? 12288))%N.

(** [str.lstrip()], [str.rstrip()] and [str.strip()] without argument. *)
Fixpoint lstrip (s : pystr) : pystr :=
  match s with
  | c :: s' => if isspace_cp c then lstrip s' else s
  | [] => []
  end.

Definition rstrip (s : pystr) : pystr := rev (lstrip (rev s)).

Definition strip (s : pystr) : pystr := rstrip (lstrip s).

(** ** Exceptions

    The messages of the exceptions the module and the [datetime] library
    raise; a constructor is named after the text of its message. *)
Inductive message : Type :=
  | Name_cannot_be_empty
  | Phone_number_must_contain_exactly_10_digits
  | Invalid_date_format
  | Phone_already_exists (phone : pystr)
  | Phone_not_found (phone : pystr)
  | Record_not_found (name : pystr)
  | time_data_does_not_match_format
  | unconverted_data_remains
  | invalid_literal_for_int
  | year_is_out_of_range (y : Z)
  | month_must_be_in_1_12
  | day_is_out_of_range_for_month.

Inductive exn : Type :=
  | ValueError (msg : message)
  | OverflowError.

(** The result of a call: a value, or a raised exception. *)
Inductive outcome (A : Type) : Type :=
  | Return (a : A)
  | Raise (e : exn).
Arguments Return {A} a.
Arguments Raise {A} e.

(** ** The [datetime.date] class

    Dates of the proleptic Gregorian calendar, with the arithmetic of the
    standard library's [datetime] module. *)
Module datetime.

Record date : Type := mkdate { year : Z; month : Z; day : Z }.

#[global] Instance date_eq_dec : EqDecision date.
Proof. solve_decision. Defined.

Definition MINYEAR : Z := 1.
Definition MAXYEAR : Z := 9999.
Definition MAXORDINAL : Z := 3652059.

Definition is_leap (y : Z) : bool :=
  (y mod 4 =? 0) && (negb (y mod 100 =? 0) || (y mod 400 =? 0)).

Definition DAYS_IN_MONTH : list Z :=
  [-1; 31; 28; 31; 30; 31; 30; 31; 31; 30; 31; 30; 31].

Definition DAYS_BEFORE_MONTH : list Z :=
  [-1; 0; 31; 59; 90; 120; 151; 181; 212; 243; 273; 304; 334].

Definition table (t : list Z) (m : Z) : Z := nth (Z.to_nat m) t 0.

Definition days_in_month (y m : Z) : Z :=
  if (m =? 2) && is_leap y then 29 else table DAYS_IN_MONTH m.

Definition days_before_year (y : Z) : Z :=
  let y := y - 1 in y * 365 + y / 4 - y / 100 + y / 400.

Definition days_before_month (y m : Z) : Z :=
  table DAYS_BEFORE_MONTH m + (if (2 <? m) && is_leap y then 1 else 0).

Definition ymd2ord (y m d : Z) : Z :=
  days_before_year y + days_before_month y m + d.

Definition DI400Y : Z := 146097.
Definition DI100Y : Z := 36524.
Definition DI4Y : Z := 1461.

Definition ord2ymd (n : Z) : date :=
  let n := n - 1 in
  let n400 := n / DI400Y in
  let n := n mod DI400Y in
  let y := n400 * 400 + 1 in
  let n100 := n / DI100Y in
  let n := n mod DI100Y in
  let n4 := n / DI4Y in
  let n := n mod DI4Y in
  let n1 := n / 365 in
  let n := n mod 365 in
  let y := y + n100 * 100 + n4 * 4 + n1 in
  if (n1 =? 4) || (n100 =? 4) then mkdate (y - 1) 12 31
  else
    let leapyear := (n1 =? 3) && (negb (n4 =? 24) || (n100 =? 3)) in
    let m := Z.shiftr (n + 50) 5 in
    let preceding :=
      table DAYS_BEFORE_MONTH m + (if (2 <? m) && leapyear then 1 else 0) in
    if n <? preceding then
      let m := m - 1 in
      let preceding :=
        preceding
        - (table DAYS_IN_MONTH m + (if (m =? 2) && leapyear then 1 else 0)) in
      mkdate y m (n - preceding + 1)
    else mkdate y m (n - preceding + 1).

(** The fields a [date] constructor accepts. *)
Definition valid_ymd (y m d : Z) : bool :=
  (MINYEAR <=? y) && (y <=? MAXYEAR) && (1 <=? m) && (m <=? 12)
  && (1 <=? d) && (d <=? days_in_month y m).

Definition valid (d : date) : bool := valid_ymd (year d) (month d) (day d).

Definition toordinal (d : date) : Z := ymd2ord (year d) (month d) (day d).

(** [date.weekday()]: Monday is 0, Sunday is 6. *)
Definition weekday (d : date) : Z := (toordinal d + 6) mod 7.

(** [a < b] on dates compares the (year, month, day) triples. *)
Definition lt (a b : date) : bool :=
  (year a <? year b)
  || (year a =? year b)
     && ((month a <? month b) || (month a =? month b) && (day a <? day b)).

(** [(a - b).days] *)
Definition sub_days (a b : date) : Z := toordinal a - toordinal b.

(** [date(y, m, d)]: the constructor checks its fields. *)
Definition new (y m d : Z) : outcome date :=
  if negb ((MINYEAR <=? y) && (y <=? MAXYEAR))
  then Raise (ValueError (year_is_out_of_range y))
  else if negb ((1 <=? m) && (m <=? 12))
  then Raise (ValueError month_must_be_in_1_12)
  else if negb ((1 <=? d) && (d <=? days_in_month y m))
  then Raise (ValueError day_is_out_of_range_for_month)
  else Return (mkdate y m d).

(** [d.replace(year=y)] builds a new date from the changed fields. *)
Definition replace_year (d : date) (y : Z) : outcome date :=
  new y (month d) (day d).

(** [d + timedelta(days=k)] *)
Definition add_days (d : date) (k : Z) : outcome date :=
  let o := toordinal d + k in
  if (0 <? o) && (o <=? MAXORDINAL) then Return (ord2ymd o)
  else Raise OverflowError.

(** Zero-padded decimal fields of [strftime]. *)
Definition digit (n : Z) : N := (48 + Z.to_N (n mod 10))%N.

Definition pad2 (n : Z) : pystr := [digit (n / 10); digit n].

Definition pad4 (n : Z) : pystr :=
  [digit (n / 1000); digit (n / 100); digit (n / 10); digit n].

(** [d.strftime("%d.%m.%Y")]; 46 is the full stop. *)
Definition strftime_dmY (d : date) : pystr :=
  pad2 (day d) ++ [46%N] ++ pad2 (month d) ++ [46%N] ++ pad4 (year d).

End datetime.

(** ** Objects and the store *)

(** [class Field]: the one attribute [value].  [Name], [Phone] and
    [Birthday] only add a validating constructor. *)
Record Field : Type := mkField { value : pystr }.

#[global] Instance Field_eq_dec : EqDecision Field.
Proof. solve_decision. Defined.

(** [class Record]: the attributes set by [__init__]. *)
Record RecordObj : Type := mkRecord {
  name : Field;
  phones : list Field;
  birthday : option Field
}.

(** A reference to a [Record] object. *)
Definition ref := nat.

(** The store: the [Record] objects, the next free reference, and the
    [data] dictionary of the address book.  A [dict] keeps insertion order:
    it is the list of its items, with pairwise distinct keys. *)
Record World : Type := mkWorld {
  heap : ref -> RecordObj;
  next : ref;
  data : list (pystr * ref)
}.

(** [d.get(k)] *)
Fixpoint dict_get {V : Type} (k : pystr) (d : list (pystr * V)) : option V :=
  match d with
  | [] => None
  | (k', v) :: d' => if decide (k' = k) then Some v else dict_get k d'
  end.

(** [d[k] = v]: an existing key keeps its place, a new one goes last. *)
Fixpoint dict_setitem {V : Type} (k : pystr) (v : V) (d : list (pystr * V))
  : list (pystr * V) :=
  match d with
  | [] => [(k, v)]
  | (k', v') :: d' =>
      if decide (k' = k) then (k', v) :: d' else (k', v') :: dict_setitem k v d'
  end.

(** [del d[k]] for a key that is present. *)
Fixpoint dict_delitem {V : Type} (k : pystr) (d : list (pystr * V))
  : list (pystr * V) :=
  match d with
  | [] => []
  | (k', v') :: d' =>
      if decide (k' = k) then d' else (k', v') :: dict_delitem k d'
  end.

Definition dict_keys {V : Type} (d : list (pystr * V)) : list pystr := d.*1.

Definition dict_values {V : Type} (d : list (pystr * V)) : list V := d.*2.

(** ** The monad of methods: state and exceptions *)

Definition M (A : Type) : Type := World -> outcome A * World.

Definition ret {A : Type} (a : A) : M A := fun w => (Return a, w).

Definition raise {A : Type} (e : exn) : M A := fun w => (Raise e, w).

Definition bind {A B : Type} (m : M A) (k : A -> M B) : M B :=
  fun w =>
    match m w with
    | (Return a, w') => k a w'
    | (Raise e, w') => (Raise e, w')
    end.

Notation "x <- m ;; k" := (bind m (fun x => k))
  (at level 100, m at next level, right associativity).

(** The outcome of a library call, taken into the monad. *)
Definition lift {A : Type} (o : outcome A) : M A := fun w => (o, w).

(** [try: m except ValueError: h] *)
Definition try_except_ValueError {A : Type} (m : M A) (h : M A) : M A :=
  fun w =>
    match m w with
    | (Raise (ValueError _), w') => h w'
    | r => r
    end.

(** Reading and writing the attributes of the object behind a reference. *)
Definition getattr {A : Type} (self : ref) (f : RecordObj -> A) : M A :=
  fun w => (Return (f (heap w self)), w).

Definition heap_update (self : ref) (r : RecordObj) (h : ref -> RecordObj)
  : ref -> RecordObj :=
  fun a => if decide (a = self) then r else h a.

Definition set_phones (self : ref) (l : list Field) : M unit :=
  fun w =>
    let r := heap w self in
    (Return tt,
     mkWorld (heap_update self (mkRecord (name r) l (birthday r)) (heap w))
             (next w) (data w)).

Definition set_birthday (self : ref) (b : option Field) : M unit :=
  fun w =>
    let r := heap w self in
    (Return tt,
     mkWorld (heap_update self (mkRecord (name r) (phones r) b) (heap w))
             (next w) (data w)).

(** A new object takes the next free reference. *)
Definition alloc (r : RecordObj) : M ref :=
  fun w =>
    (Return (next w), mkWorld (heap_update (next w) r (heap w)) (S (next w)) (data w)).

Definition get_data : M (list (pystr * ref)) := fun w => (Return (data w), w).

Definition set_data (d : list (pystr * ref)) : M unit :=
  fun w => (Return tt, mkWorld (heap w) (next w) d).

(** A [for] loop over a list, threading the local variables [acc]. *)
Fixpoint for_each {A S : Type} (body : A -> S -> M S) (l : list A) (acc : S)
  : M S :=
  match l with
  | [] => ret acc
  | x :: l' => acc' <- body x acc ;; for_each body l' acc'
  end.

Section AddressBook.

(** ** The Unicode database

    [str.isdigit], the [\d] of [re] and [int] consult the interpreter's
    Unicode database.  Its rows below U+0100 are written out; the rest of
    the table is a parameter of the development: which characters have
    the digit property, and the value of those that are decimal digits. *)
Variable ucd_digit : N -> bool.
Variable ucd_decimal : N -> option Z.

(** 178, 179 and 185 are the superscripts two, three and one. *)
Definition isdigit_cp (c : N) : bool :=
  if (c <? 256)%N
  then ((48 <=? c) && (c <=? 57) || (c =? 178) || (c =? 179) || (c =? 185))%N
  else ucd_digit c.

Definition decimal_cp (c : N) : option Z :=
  if (c <? 256)%N
  then (if ((48 <=? c) && (c <=? 57))%N then Some (Z.of_N c - 48) else None)
  else ucd_decimal c.

(** [s.isdigit()]: at least one character, and all of them digits. *)
Definition isdigit (s : pystr) : bool :=
  match s with
  | [] => false
  | _ => forallb isdigit_cp s
  end.

(** [int(s)] for a string of decimal digits, white space around it
    ignored. *)
Fixpoint int_digits (acc : Z) (s : pystr) : option Z :=
  match s with
  | [] => Some acc
  | c :: s' =>
      match decimal_cp c with
      | Some v => int_digits (10 * acc + v) s'
      | None => None
      end
  end.

Definition int (s : pystr) : option Z :=
  match strip s with
  | [] => None
  | t => int_digits 0 t
  end.

(** ** [datetime.strptime(value, "%d.%m.%Y")]

    The library turns the format into the regular expression
    [(?P<d>3[0-1]|[1-2]\d|0[1-9]|[1-9]| [1-9])\.(?P<m>1[0-2]|0[1-9]|[1-9])\.(?P<Y>\d\d\d\d)]
    and matches it at the start of the string.  A pattern is embedded as
    the function from a string to its matches, in the order a backtracking
    matcher tries them: each is the matched text and the rest. *)
Definition pattern : Type := pystr -> list (pystr * pystr).

Definition one (p : N -> bool) : pattern :=
  fun s =>
    match s with
    | c :: s' => if p c then [([c], s')] else []
    | [] => []
    end.

Definition seq (p q : pattern) : pattern :=
  fun s =>
    flat_map (fun ar => map (fun br => (ar.1 ++ br.1, br.2)) (q ar.2)) (p s).

Definition alt (p q : pattern) : pattern := fun s => p s ++ q s.

Definition in_range (lo hi : N) (c : N) : bool := ((lo <=? c) && (c <=? hi))%N.

Definition chr (a : N) (c : N) : bool := (c =? a)%N.

(** [\d] on a [str] pattern: any decimal digit of the database. *)
Definition re_d (c : N) : bool :=
  match decimal_cp c with Some _ => true | None => false end.

(** 48..57 are the digits 0..9, 32 the space, 46 the full stop. *)
Definition re_day : pattern :=
  alt (seq (one (chr 51)) (one (in_range 48 49)))
 (alt (seq (one (in_range 49 50)) (one re_d))
 (alt (seq (one (chr 48)) (one (in_range 49 57)))
 (alt (one (in_range 49 57))
      (seq (one (chr 32)) (one (in_range 49 57)))))).

Definition re_month : pattern :=
  alt (seq (one (chr 49)) (one (in_range 48 50)))
 (alt (seq (one (chr 48)) (one (in_range 49 57)))
      (one (in_range 49 57))).

Definition re_year : pattern :=
  seq (one re_d) (seq (one re_d) (seq (one re_d) (one re_d))).

Definition re_dot : pattern := one (chr 46).

(** The first match of the whole expression: the three groups and the
    unmatched rest of the string. *)
Definition strptime_match (s : pystr) : option (pystr * pystr * pystr * pystr) :=
  head
    (flat_map (fun d =>
     flat_map (fun p1 =>
     flat_map (fun m =>
     flat_map (fun p2 =>
     map (fun y => (d.1, m.1, y.1, y.2)) (re_year p2.2))
     (re_dot m.2)) (re_month p1.2)) (re_dot d.2)) (re_day s)).

Definition strptime (s : pystr) : outcome datetime.date :=
  match strptime_match s with
  | None => Raise (ValueError time_data_does_not_match_format)
  | Some (d, m, y, rest) =>
      match rest with
      | _ :: _ => Raise (ValueError unconverted_data_remains)
      | [] =>
          match int y, int m, int d with
          | Some y, Some m, Some d => datetime.new y m d
          | _, _, _ => Raise (ValueError invalid_literal_for_int)
          end
      end
  end.

(** ** [class Name], [class Phone], [class Birthday] *)

Definition Name (value : pystr) : M Field :=
  if bool_decide (value = []) || bool_decide (strip value = [])
  then raise (ValueError Name_cannot_be_empty)
  else ret (mkField (strip value)).

Definition _validate_phone (phone : pystr) : bool :=
  isdigit phone && (length phone =? 10)%nat.

Definition Phone (value : pystr) : M Field :=
  if negb (_validate_phone value)
  then raise (ValueError Phone_number_must_contain_exactly_10_digits)
  else ret (mkField value).

Definition Birthday (value : pystr) : M Field :=
  try_except_ValueError
    (_ <- lift (strptime value) ;; ret (mkField value))
    (raise (ValueError Invalid_date_format)).

(** ** [class Record]

    [find_phone] returns the first object of the list with the given
    value.  [list.remove] and [list.index] then look for that very object
    (a [Field] compares by identity), which they first meet at the
    position where [find_phone] found it: the object is returned with its
    position. *)
Definition Record_init (name : pystr) : M ref :=
  n <- Name name ;;
  alloc (mkRecord n [] None).

Definition Record_find_phone (self : ref) (phone : pystr)
  : M (option (nat * Field)) :=
  getattr self (fun r => list_find (fun phone_obj => value phone_obj = phone) (phones r)).

Definition Record_add_phone (self : ref) (phone : pystr) : M unit :=
  found <- Record_find_phone self phone ;;
  match found with
  | Some _ => raise (ValueError (Phone_already_exists phone))
  | None =>
      phone_obj <- Phone phone ;;
      l <- getattr self phones ;;
      set_phones self (l ++ [phone_obj])
  end.

Definition Record_remove_phone (self : ref) (phone : pystr) : M unit :=
  phone_obj <- Record_find_phone self phone ;;
  match phone_obj with
  | Some (index, _) =>
      l <- getattr self phones ;;
      set_phones self (delete index l)
  | None => raise (ValueError (Phone_not_found phone))
  end.

Definition Record_edit_phone (self : ref) (old_phone new_phone : pystr) : M unit :=
  phone_obj <- Record_find_phone self old_phone ;;
  match phone_obj with
  | Some (index, _) =>
      new_phone_obj <- Phone new_phone ;;
      l <- getattr self phones ;;
      set_phones self (<[index := new_phone_obj]> l)
  | None => raise (ValueError (Phone_not_found old_phone))
  end.

Definition Record_add_birthday (self : ref) (birthday : pystr) : M unit :=
  b <- Birthday birthday ;;
  set_birthday self (Some b).

(** ** [class AddressBook] *)

Definition AddressBook_add_record (record : ref) : M unit :=
  n <- getattr record name ;;
  d <- get_data ;;
  set_data (dict_setitem (value n) record d).

Definition AddressBook_find (name : pystr) : M (option ref) :=
  d <- get_data ;;
  ret (dict_get name d).

Definition AddressBook_delete (name : pystr) : M unit :=
  d <- get_data ;;
  match dict_get name d with
  | Some _ => set_data (dict_delitem name d)
  | None => raise (ValueError (Record_not_found name))
  end.

(** An item of the list [get_upcoming_birthdays] returns: the dictionary
    with the keys ["name"] and ["birthday"]. *)
Record upcoming_item : Type := mkItem {
  item_name : pystr;
  item_birthday : pystr
}.

Definition upcoming_body (today : datetime.date) (record : ref)
  (upcoming : list upcoming_item) : M (list upcoming_item) :=
  b <- getattr record birthday ;;
  match b with
  | None => ret upcoming
  | Some b =>
      birthday_date <- lift (strptime (value b)) ;;
      birthday_this_year <-
        lift (datetime.replace_year birthday_date (datetime.year today)) ;;
      birthday_this_year <-
        (if datetime.lt birthday_this_year today
         then lift (datetime.replace_year birthday_date (datetime.year today + 1))
         else ret birthday_this_year) ;;
      let days_until := datetime.sub_days birthday_this_year today in
      if (0 <=? days_until) && (days_until <=? 7)
      then
        congratulation_date <-
          (if datetime.weekday birthday_this_year =? 5
           then lift (datetime.add_days birthday_this_year 2)
           else if datetime.weekday birthday_this_year =? 6
           then lift (datetime.add_days birthday_this_year 1)
           else ret birthday_this_year) ;;
        n <- getattr record name ;;
        ret (upcoming ++ [mkItem (value n) (datetime.strftime_dmY congratulation_date)])
      else ret upcoming
  end.

Definition AddressBook_get_upcoming_birthdays (today : datetime.date)
  : M (list upcoming_item) :=
  d <- get_data ;;
  for_each (upcoming_body today) (dict_values d) [].

(** ** The texts of the objects: [__str__] *)

(** [sep.join(l)] *)
Fixpoint join (sep : pystr) (l : list pystr) : pystr :=
  match l with
  | [] => []
  | [x] => x
  | x :: l' => x ++ sep ++ join sep l'
  end.

(** The line feed. *)
Definition nl : pystr := [10%N].

Definition Record_str (self : ref) : M pystr :=
  ps <- getattr self phones ;;
  let phones_str := join (py "; ") (value <$> ps) in
  b <- getattr self birthday ;;
  let birthday_str :=
    match b with
    | Some b => py ", birthday: " ++ value b
    | None => []
    end in
  n <- getattr self name ;;
  ret (py "Contact name: " ++ value n ++ py ", phones: " ++ phones_str ++ birthday_str).

Definition AddressBook_str : M pystr :=
  d <- get_data ;;
  match d with
  | [] => ret (py "Address book is empty")
  | _ =>
      result <-
        for_each (fun record result =>
                    s <- Record_str record ;; ret (result ++ [s]))
                 (dict_values d) [] ;;
      ret (join nl result)
  end.

(** ** The commands

    The functions of the command line raise, besides the exceptions of the
    classes, the [ValueError] of an unpacking with too few values, the
    [IndexError] of [args[0]] and the [AttributeError] of a method called
    on [None]. *)
Inductive error : Type :=
  | Core (e : exn)
  | Unpack (expected got : nat)
  | IndexError
  | KeyError
  | AttributeError.

Inductive reply (A : Type) : Type :=
  | Value (a : A)
  | Error (e : error).
#[global] Arguments Value {A} a.
#[global] Arguments Error {A} e.

Definition C (A : Type) : Type := World -> reply A * World.

Definition cret {A : Type} (a : A) : C A := fun w => (Value a, w).

Definition craise {A : Type} (e : error) : C A := fun w => (Error e, w).

Definition cbind {A B : Type} (m : C A) (k : A -> C B) : C B :=
  fun w =>
    match m w with
    | (Value a, w') => k a w'
    | (Error e, w') => (Error e, w')
    end.

Notation "x <~ m ;; k" := (cbind m (fun x => k))
  (at level 100, m at next level, right associativity).

(** A call of a method of the classes. *)
Definition core {A : Type} (m : M A) : C A :=
  fun w =>
    match m w with
    | (Return a, w') => (Value a, w')
    | (Raise e, w') => (Error (Core e), w')
    end.

(** A method called on what [find] returned: on [None] the attribute
    lookup raises. *)
Definition on_found {A : Type} (record : option ref) (m : ref -> C A) : C A :=
  match record with
  | Some r => m r
  | None => craise AttributeError
  end.

(** The text of the messages of the [datetime] library and of [int], which
    changes with the version of the interpreter, is a parameter. *)
Variable library_text : message -> pystr.

(** [str(e)] for a [ValueError] of the classes. *)
Definition message_text (m : message) : pystr :=
  match m with
  | Name_cannot_be_empty => py "Name cannot be empty"
  | Phone_number_must_contain_exactly_10_digits =>
      py "Phone number must contain exactly 10 digits"
  | Invalid_date_format => py "Invalid date format. Use DD.MM.YYYY"
  | Phone_already_exists phone => py "Phone " ++ phone ++ py " already exists"
  | Phone_not_found phone => py "Phone " ++ phone ++ py " not found"
  | Record_not_found n => py "Record " ++ n ++ py " not found"
  | m => library_text m
  end.

(** [str(n)] for a natural number. *)
Fixpoint decimal (fuel : nat) (n : Z) (acc : pystr) : pystr :=
  match fuel with
  | O => acc
  | S fuel' =>
      if n <? 10 then datetime.digit n :: acc
      else decimal fuel' (n / 10) (datetime.digit n :: acc)
  end.

Definition str_nat (n : nat) : pystr := decimal (S n) (Z.of_nat n) [].

Definition unpack_text (expected got : nat) : pystr :=
  py "not enough values to unpack (expected at least " ++ str_nat expected
  ++ py ", got " ++ str_nat got ++ py ")".

(** [p in s] for two strings. *)
Fixpoint startswith (p s : pystr) : bool :=
  match p, s with
  | [], _ => true
  | a :: p', b :: s' => (a =? b)%N && startswith p' s'
  | _ :: _, [] => false
  end.

Fixpoint contains (p s : pystr) : bool :=
  startswith p s
  || match s with
     | [] => false
     | _ :: s' => contains p s'
     end.

(** What the handler of [ValueError] returns for an exception of text
    [text]. *)
Definition ValueError_reply (text : pystr) : pystr :=
  if contains (py "not enough values to unpack") text
  then py "Not enough arguments provided."
  else text.

(** The decorator [input_error]: the call of the decorated function. *)
Definition input_error (func : C pystr) : C pystr :=
  fun w =>
    match func w with
    | (Error (Core (ValueError m)), w') =>
        (Value (ValueError_reply (message_text m)), w')
    | (Error (Unpack expected got), w') =>
        (Value (ValueError_reply (unpack_text expected got)), w')
    | (Error IndexError, w') => (Value (py "Not enough arguments provided."), w')
    | (Error KeyError, w') => (Value (py "Contact not found."), w')
    | (Error AttributeError, w') => (Value (py "Contact not found."), w')
    | r => r
    end.

(** [str.split()]: the words between runs of white space. *)
Fixpoint split_from (cur : pystr) (s : pystr) : list pystr :=
  match s with
  | [] => match cur with [] => [] | _ => [rev cur] end
  | c :: s' =>
      if isspace_cp c
      then match cur with
           | [] => split_from [] s'
           | _ => rev cur :: split_from [] s'
           end
      else split_from (c :: cur) s'
  end.

Definition split (s : pystr) : list pystr := split_from [] s.

(** [str.lower()]: written out for ASCII strings; on the others it is the
    lower-casing of the Unicode database, a parameter. *)
Variable ucd_lower : pystr -> pystr.

Definition ascii_lower (c : N) : N :=
  if ((65 <=? c) && (c <=? 90))%N then (c + 32)%N else c.

Definition lower (s : pystr) : pystr :=
  if forallb (fun c => (c <? 128)%N) s then map ascii_lower s else ucd_lower s.

Definition parse_input (user_input : pystr)
  : reply (option pystr * list pystr) :=
  match user_input with
  | [] => Value (None, [])
  | _ =>
      match split user_input with
      | cmd :: args => Value (Some (lower (strip cmd)), args)
      | [] => Error (Unpack 1 0)
      end
  end.

Definition add_contact_func (args : list pystr) : C pystr :=
  match args with
  | name :: phone :: _ =>
      record <~ core (AddressBook_find name) ;;
      match record with
      | None =>
          record <~ core (Record_init name) ;;
          _ <~ core (AddressBook_add_record record) ;;
          _ <~ core (Record_add_phone record phone) ;;
          cret (py "Contact added.")
      | Some record =>
          _ <~ core (Record_add_phone record phone) ;;
          cret (py "Contact updated.")
      end
  | _ => craise (Unpack 2 (length args))
  end.

Definition add_contact (args : list pystr) : C pystr :=
  input_error (add_contact_func args).

Definition change_contact_func (args : list pystr) : C pystr :=
  match args with
  | name :: old_phone :: new_phone :: _ =>
      record <~ core (AddressBook_find name) ;;
      _ <~ on_found record (fun r => core (Record_edit_phone r old_phone new_phone)) ;;
      cret (py "Contact updated.")
  | _ => craise (Unpack 3 (length args))
  end.

Definition change_contact (args : list pystr) : C pystr :=
  input_error (change_contact_func args).

Definition show_phone_func (args : list pystr) : C pystr :=
  match args with
  | name :: _ =>
      record <~ core (AddressBook_find name) ;;
      ps <~ on_found record (fun r => core (getattr r phones)) ;;
      let phones_str := join (py "; ") (value <$> ps) in
      cret (match phones_str with
            | [] => py "No phones available."
            | _ => phones_str
            end)
  | [] => craise IndexError
  end.

Definition show_phone (args : list pystr) : C pystr :=
  input_error (show_phone_func args).

Definition show_all : C pystr := input_error (core AddressBook_str).

Definition add_birthday_func (args : list pystr) : C pystr :=
  match args with
  | name :: birthday :: _ =>
      record <~ core (AddressBook_find name) ;;
      _ <~ on_found record (fun r => core (Record_add_birthday r birthday)) ;;
      cret (py "Birthday added.")
  | _ => craise (Unpack 2 (length args))
  end.

Definition add_birthday (args : list pystr) : C pystr :=
  input_error (add_birthday_func args).

Definition show_birthday_func (args : list pystr) : C pystr :=
  match args with
  | name :: _ =>
      record <~ core (AddressBook_find name) ;;
      b <~ on_found record (fun r => core (getattr r birthday)) ;;
      cret (match b with
            | None => py "No birthday set for '" ++ name ++ py "'."
            | Some b => name ++ py "'s birthday: " ++ value b
            end)
  | [] => craise IndexError
  end.

Definition show_birthday (args : list pystr) : C pystr :=
  input_error (show_birthday_func args).

Definition birthdays_func (today : datetime.date) (args : list pystr) : C pystr :=
  upcoming <~ core (AddressBook_get_upcoming_birthdays today) ;;
  match upcoming with
  | [] => cret (py "No upcoming birthdays in the next 7 days.")
  | _ =>
      cret (join nl
              (py "Upcoming birthdays:"
               :: map (fun item => item_name item ++ py ": " ++ item_birthday item)
                      upcoming))
  end.

Definition birthdays (today : datetime.date) (args : list pystr) : C pystr :=
  input_error (birthdays_func today args).

(** ** The program: [main]

    The loop of [main] reads a line, runs the command the line names and
    prints its reply.  What the program does to its terminal and to the
    file of the book is the list of its events; the lines [input] returns
    and the day each one is read on are the input of the loop, the book
    [load_data] returned its first store. *)
Definition help_text : pystr :=
  py "Available commands:" ++ nl ++
  py "  hello                                 - greet" ++ nl ++
  py "  add <name> <phone>                    - add a contact or phone to existing contact" ++ nl ++
  py "  change <name> <old_phone> <new_phone> - change phone for existing contact" ++ nl ++
  py "  phone <name>                          - show phone by name" ++ nl ++
  py "  all                                   - list all contacts" ++ nl ++
  py "  add-birthday <name> <DD.MM.YYYY>      - add birthday to contact" ++ nl ++
  py "  show-birthday <name>                  - show birthday of contact" ++ nl ++
  py "  birthdays                             - show upcoming birthdays (next 7 days)" ++ nl ++
  py "  help                                  - show this help" ++ nl ++
  py "  exit | close                          - quit".

Inductive event : Type :=
  | input (prompt : pystr) (line : pystr)
  | print (text : pystr)
  | save_data (book : World).

(** How an iteration of the loop ends: with the next iteration, with
    [break], or with an exception nothing catches. *)
Inductive control : Type :=
  | Next
  | Break
  | Uncaught (e : error).

(** [print(command(args, book))] *)
Definition printed (reply : C pystr) : World -> list event * control * World :=
  fun w =>
    match reply w with
    | (Value text, w') => ([print text], Next, w')
    | (Error e, w') => ([], Uncaught e, w')
    end.

(** [command == s], for the [command] of [parse_input]: [None] or a
    string. *)
Definition is_command (command : option pystr) (s : pystr) : bool :=
  bool_decide (command = Some s).

Definition main_body (today : datetime.date) (user_input : pystr)
  : World -> list event * control * World :=
  fun w =>
    match parse_input user_input with
    | Error e => ([], Uncaught e, w)
    | Value (command, args) =>
        if is_command command (py "close") || is_command command (py "exit")
        then ([save_data w; print (py "Good bye!")], Break, w)
        else if is_command command (py "hello")
        then ([print (py "How can I help you?")], Next, w)
        else if is_command command (py "add")
        then printed (add_contact args) w
        else if is_command command (py "change")
        then printed (change_contact args) w
        else if is_command command (py "phone")
        then printed (show_phone args) w
        else if is_command command (py "all")
        then printed show_all w
        else if is_command command (py "add-birthday")
        then printed (add_birthday args) w
        else if is_command command (py "show-birthday")
        then printed (show_birthday args) w
        else if is_command command (py "birthdays")
        then printed (birthdays today args) w
        else if is_command command (py "help")
        then ([print help_text], Next, w)
        else ([print (py "Invalid command.")], Next, w)
    end.

(** The [while True] loop on the lines [inputs]; it is left waiting for a
    line when they are all read. *)
Fixpoint main_loop (inputs : list (datetime.date * pystr)) (w : World)
  : list event * control * World :=
  match inputs with
  | [] => ([], Next, w)
  | (today, user_input) :: inputs' =>
      let read := input (py "Enter a command: ") user_input in
      match main_body today user_input w with
      | (out, Next, w') =>
          let '(out', c, w'') := main_loop inputs' w' in
          (read :: out ++ out', c, w'')
      | (out, c, w') => (read :: out, c, w')
      end
  end.

Definition main (book : World) (inputs : list (datetime.date * pystr))
  : list event * control * World :=
  let '(out, c, w) := main_loop inputs book in
  (print (py "Welcome to the assistant bot!") :: out, c, w).

(** ** Vocabulary of the properties *)

(** The values of the phones of a record, in order. *)
Definition phone_values (r : RecordObj) : list pystr := value <$> phones r.

(** Exactly ten characters, each one of [0] .. [9]. *)
Definition ten_decimal_digits (s : pystr) : Prop :=
  length s = 10%nat /\ Forall (fun c => in_range 48 57 c = true) s.

(** Exactly ten characters, each with the digit property of the Unicode
    database. *)
Definition ten_unicode_digits (s : pystr) : Prop :=
  length s = 10%nat /\ Forall (fun c => isdigit_cp c = true) s.

(** A store that differs from [w] at most in the phones of [self]. *)
Definition with_phones (w : World) (self : ref) (l : list Field) : World :=
  mkWorld (heap_update self (mkRecord (name (heap w self)) l (birthday (heap w self)))
                       (heap w))
          (next w) (data w).

(** The book's invariant: an item of [data] has for key the name of the
    record it refers to. *)
Definition keys_are_names (w : World) : Prop :=
  forall k a, (k, a) ∈ data w -> value (name (heap w a)) = k.

(** What the induction on the calls maintains: the keys are the names,
    the book refers to existing objects, and no key is repeated. *)
Definition book_inv (w : World) : Prop :=
  keys_are_names w
  /\ (forall k a, (k, a) ∈ data w -> (a < next w)%nat)
  /\ NoDup (dict_keys (data w)).

(** [w'] has the book and the names of [w]. *)
Definition keeps_names (w w' : World) : Prop :=
  data w' = data w /\ next w' = next w
  /\ forall a, name (heap w' a) = name (heap w a).

(** A computation that only reads the store. *)
Definition read_only {A : Type} (m : M A) : Prop := forall w, (m w).2 = w.

(** The calls a client makes on the records and on the book. *)
Inductive call : Type :=
  | call_Record (name : pystr)
  | call_add_phone (self : ref) (phone : pystr)
  | call_remove_phone (self : ref) (phone : pystr)
  | call_edit_phone (self : ref) (old_phone new_phone : pystr)
  | call_add_birthday (self : ref) (birthday : pystr)
  | call_add_record (record : ref)
  | call_find (name : pystr)
  | call_delete (name : pystr).

(** A call is made on objects that exist. *)
Definition on_objects (w : World) (c : call) : Prop :=
  match c with
  | call_add_phone self _ | call_remove_phone self _
  | call_edit_phone self _ _ | call_add_birthday self _
  | call_add_record self => (self < next w)%nat
  | call_Record _ | call_find _ | call_delete _ => True
  end.

(** The store after a call, whether it returned or raised. *)
Definition exec (c : call) (w : World) : World :=
  match c with
  | call_Record n => (Record_init n w).2
  | call_add_phone self p => (Record_add_phone self p w).2
  | call_remove_phone self p => (Record_remove_phone self p w).2
  | call_edit_phone self o n => (Record_edit_phone self o n w).2
  | call_add_birthday self b => (Record_add_birthday self b w).2
  | call_add_record r => (AddressBook_add_record r w).2
  | call_find n => (AddressBook_find n w).2
  | call_delete n => (AddressBook_delete n w).2
  end.

(** The stores a program reaches from an empty book and no record. *)
Inductive reachable : World -> Prop :=
  | reachable_start (h : ref -> RecordObj) : reachable (mkWorld h 0%nat [])
  | reachable_call (w : World) (c : call) :
      reachable w -> on_objects w c -> reachable (exec c w).

(** *** Calendar vocabulary *)

(** The day after [d] in the calendar. *)
Definition next_day (d : datetime.date) : datetime.date :=
  if datetime.day d <? datetime.days_in_month (datetime.year d) (datetime.month d)
  then datetime.mkdate (datetime.year d) (datetime.month d) (datetime.day d + 1)
  else if datetime.month d <? 12
  then datetime.mkdate (datetime.year d) (datetime.month d + 1) 1
  else datetime.mkdate (datetime.year d + 1) 1 1.

(** The end of [ord2ymd]: from the year [y], whether it is a leap year,
    and the day [n] of the year counted from 0, the date. *)
Definition ord2ymd_tail (y : Z) (leapyear : bool) (n : Z) : datetime.date :=
  let m := Z.shiftr (n + 50) 5 in
  let preceding :=
    datetime.table datetime.DAYS_BEFORE_MONTH m
    + (if (2 <? m) && leapyear then 1 else 0) in
  if n <? preceding then
    let m := m - 1 in
    let preceding :=
      preceding
      - (datetime.table datetime.DAYS_IN_MONTH m
         + (if (m =? 2) && leapyear then 1 else 0)) in
    datetime.mkdate y m (n - preceding + 1)
  else datetime.mkdate y m (n - preceding + 1).

(** The days before, and in, a month of a leap or of a common year. *)
Definition days_before_month_of (leap : bool) (m : Z) : Z :=
  datetime.table datetime.DAYS_BEFORE_MONTH m + (if (2 <? m) && leap then 1 else 0).

Definition days_in_month_of (leap : bool) (m : Z) : Z :=
  if (m =? 2) && leap then 29 else datetime.table datetime.DAYS_IN_MONTH m.

(** The check of the day [d] of the month [m]: from its number in the
    year, [ord2ymd_tail] finds the month and the day. *)
Definition tail_ok (leap : bool) (m d : Z) : bool :=
  let n := days_before_month_of leap m + d - 1 in
  negb (d <=? days_in_month_of leap m)
  || negb (n <=? 364)
  || ((datetime.month (ord2ymd_tail 0 leap n) =? m)
      && (datetime.day (ord2ymd_tail 0 leap n) =? d)).

Definition tail_ok_all : bool :=
  forallb (fun leap =>
    forallb (fun m => forallb (fun d => tail_ok leap m d) (seqZ 1 31)) (seqZ 1 12))
    [true; false].

(** *** The upcoming birthdays, as the specification words them *)

(** The birthday a record stores, as a date. *)
Definition stored_birthday (r : RecordObj) : option datetime.date :=
  match birthday r with
  | Some b =>
      match strptime (value b) with
      | Return d => Some d
      | Raise _ => None
      end
  | None => None
  end.

(** The next occurrence: the month and day of the birthday in the current
    year, or in the next year when that date is before today. *)
Definition occurrence (today bd : datetime.date) : datetime.date :=
  let this_year :=
    datetime.mkdate (datetime.year today) (datetime.month bd) (datetime.day bd) in
  if datetime.lt this_year today
  then datetime.mkdate (datetime.year today + 1) (datetime.month bd) (datetime.day bd)
  else this_year.

(** The calendar has the dates the method builds for the birthday [bd]:
    its month and day in the current year, and its next occurrence. *)
Definition replaceable (today bd : datetime.date) : Prop :=
  datetime.valid_ymd (datetime.year today) (datetime.month bd) (datetime.day bd) = true
  /\ datetime.valid (occurrence today bd) = true.

(** The window: from today to seven days later, both included. *)
Definition in_window (today occ : datetime.date) : bool :=
  (0 <=? datetime.sub_days occ today) && (datetime.sub_days occ today <=? 7).

(** The congratulation date: two days after a Saturday, one day after a
    Sunday, the date itself otherwise. *)
Definition congratulation_date (occ : datetime.date) : datetime.date :=
  if datetime.weekday occ =? 5 then next_day (next_day occ)
  else if datetime.weekday occ =? 6 then next_day occ
  else occ.

(** The item a record contributes, if any. *)
Definition expected_item (today : datetime.date) (r : RecordObj)
  : option upcoming_item :=
  match stored_birthday r with
  | Some bd =>
      if in_window today (occurrence today bd)
      then Some (mkItem (value (name r))
                        (datetime.strftime_dmY
                           (congratulation_date (occurrence today bd))))
      else None
  | None => None
  end.

(** One item per qualifying record, in the order of the book. *)
Definition expected_upcoming (today : datetime.date) (w : World)
  : list upcoming_item :=
  omap (fun a => expected_item today (heap w a)) (dict_values (data w)).

(** The year for which the method builds the date of a birthday is the
    current year, then the next year when the date of the current year is
    before today.  For 29 February that year is not a leap year when the
    current year is not one, or when its 29 February is before today (the
    year after a leap year is not a leap year). *)
Definition feb29_year_not_leap (today : datetime.date) : Prop :=
  datetime.is_leap (datetime.year today) = false
  \/ datetime.lt (datetime.mkdate (datetime.year today) 2 29) today = true.

(** Every birthday the book stores went through the [Birthday]
    constructor: [strptime] parses it. *)
Definition birthdays_parse (w : World) : Prop :=
  forall a b,
    a ∈ dict_values (data w) -> birthday (heap w a) = Some b ->
    exists bd, strptime (value b) = Return bd.

(** *** Stores of the examples *)

Definition blank : RecordObj := mkRecord (mkField []) [] None.

(** The store of the records [l], referred to by their positions, with
    the book [d]. *)
Definition store (l : list RecordObj) (d : list (pystr * ref)) : World :=
  mkWorld (fun a => nth a l blank) (length l) d.

Definition contact (n : pystr) (ps : list pystr) (b : option pystr)
  : RecordObj :=
  mkRecord (mkField n) (mkField <$> ps) (mkField <$> b).

Definition ann_two_phones : World :=
  store [contact (py "Ann") [py "1111111111"; py "2222222222"] None]
        [(py "Ann", 0%nat)].

(** Ann, born on 12.03.2020, and Bob, born on 29.02.2020. *)
Definition ann_and_bob : World :=
  store [contact (py "Ann") [] (Some (py "12.03.2020"));
         contact (py "Bob") [] (Some (py "29.02.2020"))]
        [(py "Ann", 0%nat); (py "Bob", 1%nat)].

(** The three records of the scenario of the specification. *)
Definition scenario : World :=
  store [contact (py "Ann") [py "1234567890"] (Some (py "12.03.2020"));
         contact (py "Bob") [] (Some (py "16.03.1990"));
         contact (py "Cy") [] (Some (py "09.03.1995"))]
        [(py "Ann", 0%nat); (py "Bob", 1%nat); (py "Cy", 2%nat)].

Definition friday_10_march_2023 : datetime.date := datetime.mkdate 2023 3 10.

Definition sunday_10_march_2024 : datetime.date := datetime.mkdate 2024 3 10.

(** A database with no digit above U+00FF, for the examples, whose
    strings are ASCII. *)
Definition no_digit : N -> bool := fun _ => false.

Definition no_decimal : N -> option Z := fun _ => None.

(** The store after [Record(" Ann ")] and [add_record] of the new
    record, from no record and an empty book. *)
Definition ann_added : World :=
  exec (call_add_record 0%nat)
    (exec (call_Record (py " Ann ")) (mkWorld (fun _ => blank) 0%nat [])).

(** Two records named Ann, the first one in the book. *)
Definition two_anns : World :=
  store [contact (py "Ann") [py "1111111111"] None; contact (py "Ann") [] None]
        [(py "Ann", 0%nat)].

(** Ten times the superscript two. *)
Definition superscripts : pystr := replicate 10 178%N.

(** *** The fields of the objects *)

(** The constraints of the constructors: a name is not empty and has no
    white space at its ends, a phone passes the validation of [Phone], a
    birthday is a text [strptime] parses. *)
Definition fields_valid (r : RecordObj) : Prop :=
  value (name r) <> []
  /\ strip (value (name r)) = value (name r)
  /\ Forall (fun p => _validate_phone (value p) = true) (phones r)
  /\ (forall b, birthday r = Some b -> exists d, strptime (value b) = Return d).

Definition objects_valid (w : World) : Prop :=
  forall a, (a < next w)%nat -> fields_valid (heap w a).

(** *** The command line *)

(** A word of [str.split()]: not empty, and without white space. *)
Definition word (s : pystr) : Prop :=
  s <> [] /\ Forall (fun c => isspace_cp c = false) s.

(** The phrase the handler of [input_error] looks for. *)
Definition unpack_phrase : pystr := py "not enough values to unpack".

(** The number of spaces of a string. *)
Definition spaces (s : pystr) : nat := length (filter (fun c => c = 32%N) s).

(** The messages of the classes, with an argument that has no space. *)
Definition own_message (m : message) : Prop :=
  match m with
  | Name_cannot_be_empty | Phone_number_must_contain_exactly_10_digits
  | Invalid_date_format => True
  | Phone_already_exists v | Phone_not_found v | Record_not_found v => 32%N ∉ v
  | _ => False
  end.

(** The names of the commands of [main]. *)
Definition commands : list pystr :=
  [py "close"; py "exit"; py "hello"; py "add"; py "change"; py "phone";
   py "all"; py "add-birthday"; py "show-birthday"; py "birthdays"; py "help"].

(** The line of a record in the reply of [show_all]. *)
Definition Record_text (r : RecordObj) : pystr :=
  py "Contact name: " ++ value (name r) ++ py ", phones: "
  ++ join (py "; ") (phone_values r)
  ++ match birthday r with
     | Some b => py ", birthday: " ++ value b
     | None => []
     end.

(** The line of an item in the reply of [birthdays]. *)
Definition item_text (item : upcoming_item) : pystr :=
  item_name item ++ py ": " ++ item_birthday item.

(** The events that write the file of the book. *)
Definition is_save (e : event) : Prop :=
  match e with save_data _ => True | _ => False end.

(** For the examples: strings of ASCII characters, and the text of the
    message of [date.replace] in the interpreter of the examples. *)
Definition ascii_text : pystr -> pystr := fun s => s.

Definition example_text (m : message) : pystr :=
  match m with
  | day_is_out_of_range_for_month => py "day is out of range for month"
  | _ => []
  end.

(** The store of a program that has just started, without a file. *)
Definition new_book : World := mkWorld (fun _ => blank) 0%nat [].

(** ** Properties of [Phone] *)

Lemma isdigit_forallb (s : pystr) :
  s <> [] -> isdigit s = forallb isdigit_cp s.
Proof. destruct s; [congruence | reflexivity]. Qed.

Lemma _validate_phone_spec (s : pystr) :
  _validate_phone s = true <-> ten_unicode_digits s.
Proof.
  unfold _validate_phone, ten_unicode_digits.
  rewrite andb_true_iff, Nat.eqb_eq, List.Forall_forall.
  split.
  - intros [Hd Hl]. split; [exact Hl|].
    destruct s as [|c s]; [discriminate|].
    rewrite isdigit_forallb in Hd by discriminate.
    rewrite forallb_forall in Hd.
    intros x Hx. exact (Hd x Hx).
  - intros [Hl Hd]. split; [|exact Hl].
    destruct s as [|c s]; [discriminate|].
    rewrite isdigit_forallb by discriminate.
    apply forallb_forall. intros x Hx. exact (Hd x Hx).
Qed.

Lemma in_range_digit_isdigit (c : N) :
  in_range 48 57 c = true -> isdigit_cp c = true.
Proof.
  unfold in_range, isdigit_cp. intros H.
  apply andb_true_iff in H as [H1 H2].
  apply N.leb_le in H1, H2.
  replace (c <? 256)%N with true by (symmetry; apply N.ltb_lt; lia).
  rewrite (proj2 (N.leb_le 48 c)), (proj2 (N.leb_le c 57)) by lia.
  reflexivity.
Qed.

Lemma ten_decimal_unicode (s : pystr) :
  ten_decimal_digits s -> ten_unicode_digits s.
Proof.
  intros [Hl Hd]. split; [exact Hl|].
  eapply Forall_impl; [exact Hd|]. apply in_range_digit_isdigit.
Qed.

(** C3 (as the code has it).  Constructing a [Phone] from [s] returns a
    phone whose value is [s] exactly when [s] has ten characters that all
    have the Unicode digit property ([str.isdigit]), which the ten-character
    strings over [0] .. [9] do; every other string raises the
    [ValueError] "Phone number must contain exactly 10 digits".  Either way
    the store is left as it was. *)
Theorem Phone_accepts_unicode_digits (s : pystr) (w : World) :
  (Phone s w = (Return (mkField s), w) <-> ten_unicode_digits s)
  /\ (~ ten_unicode_digits s ->
      Phone s w = (Raise (ValueError Phone_number_must_contain_exactly_10_digits), w))
  /\ (ten_decimal_digits s -> Phone s w = (Return (mkField s), w)).
Proof.
  assert (Hok : ten_unicode_digits s -> Phone s w = (Return (mkField s), w)).
  { intros H. unfold Phone.
    rewrite (proj2 (_validate_phone_spec s) H). reflexivity. }
  assert (Hko : ~ ten_unicode_digits s ->
    Phone s w = (Raise (ValueError Phone_number_must_contain_exactly_10_digits), w)).
  { intros H. unfold Phone.
    destruct (_validate_phone s) eqn:E; [|reflexivity].
    apply (proj1 (_validate_phone_spec s)) in E. contradiction. }
  split; [split; [|exact Hok] | split; [exact Hko|]].
  - intros H. destruct (_validate_phone s) eqn:E.
    + by apply _validate_phone_spec.
    + unfold Phone in H. rewrite E in H. discriminate.
  - intros H. by apply Hok, ten_decimal_unicode.
Qed.

(** ** Properties of the [Record] methods *)

Lemma find_phone_run (self : ref) (phone : pystr) (w : World) :
  Record_find_phone self phone w
  = (Return (list_find (fun p => value p = phone) (phones (heap w self))), w).
Proof. reflexivity. Qed.

Lemma list_find_value_Some (l : list Field) (v : pystr) :
  v ∈ value <$> l -> is_Some (list_find (fun p => value p = v) l).
Proof.
  intros H. apply list_elem_of_fmap in H as (p & -> & Hp).
  destruct (list_find (fun q => value q = value p) l) eqn:E; [eauto|].
  apply list_find_None in E.
  rewrite Forall_forall in E. exfalso. by apply (E p Hp).
Qed.

Lemma list_find_value_None (l : list Field) (v : pystr) :
  v ∉ value <$> l -> list_find (fun p => value p = v) l = None.
Proof.
  intros H. apply list_find_None.
  apply Forall_forall. intros p Hp Hv. apply H.
  apply list_elem_of_fmap. by exists p.
Qed.

(** The first position of a value in the phone list is where
    [find_phone] finds it. *)
Lemma list_find_value_first (l : list Field) (v : pystr) (i : nat) :
  (value <$> l) !! i = Some v ->
  (forall j, (j < i)%nat -> (value <$> l) !! j <> Some v) ->
  exists p, list_find (fun q => value q = v) l = Some (i, p) /\ l !! i = Some p.
Proof.
  intros Hi Hfirst.
  rewrite list_lookup_fmap in Hi.
  destruct (l !! i) as [p|] eqn:Ep; [|discriminate].
  injection Hi as Hv.
  exists p. split; [|reflexivity].
  apply list_find_Some. split; [exact Ep|]. split; [exact Hv|].
  intros j y Hj Hlt Hy. apply (Hfirst j Hlt).
  by rewrite list_lookup_fmap, Hj, <- Hy.
Qed.

(** C5.  On a record that already has a phone with the value [v],
    [add_phone(v)] raises the [ValueError] "Phone v already exists" and
    leaves the store, hence the phone list of the record, as it was. *)
Theorem add_phone_existing_value (w : World) (self : ref) (v : pystr) :
  v ∈ phone_values (heap w self) ->
  Record_add_phone self v w = (Raise (ValueError (Phone_already_exists v)), w).
Proof.
  intros H. apply list_find_value_Some in H as [x Hx].
  unfold Record_add_phone, bind. rewrite find_phone_run, Hx. reflexivity.
Qed.

(** C6.  [edit_phone(old, new)] on a record with no phone of value [old]
    raises the [ValueError] "Phone old not found" and leaves the store as
    it was.  When [old] is a value of the list, first at position [i], and
    [new] passes the validation of [Phone], the call returns and the phone
    at [i] has the value [new], every other position holds the phone it
    held, the list has the length it had, and nothing else in the store
    changes. *)
Theorem edit_phone_replaces_in_place (w : World) (self : ref) (old new : pystr) :
  (old ∉ phone_values (heap w self) ->
   Record_edit_phone self old new w = (Raise (ValueError (Phone_not_found old)), w))
  /\ (forall i : nat,
        phone_values (heap w self) !! i = Some old ->
        (forall j, (j < i)%nat -> phone_values (heap w self) !! j <> Some old) ->
        _validate_phone new = true ->
        exists w',
          Record_edit_phone self old new w = (Return tt, w')
          /\ phones (heap w' self) !! i = Some (mkField new)
          /\ (forall j, j <> i ->
                phones (heap w' self) !! j = phones (heap w self) !! j)
          /\ length (phones (heap w' self)) = length (phones (heap w self))
          /\ name (heap w' self) = name (heap w self)
          /\ birthday (heap w' self) = birthday (heap w self)
          /\ (forall a, a <> self -> heap w' a = heap w a)
          /\ data w' = data w).
Proof.
  split.
  - intros H. apply list_find_value_None in H.
    unfold Record_edit_phone, bind. rewrite find_phone_run, H. reflexivity.
  - intros i Hi Hfirst Hnew.
    destruct (list_find_value_first _ _ _ Hi Hfirst) as (p & Hfind & Hp).
    exists (with_phones w self (<[i := mkField new]> (phones (heap w self)))).
    assert (Hlt : (i < length (phones (heap w self)))%nat)
      by (eapply lookup_lt_Some; exact Hp).
    split.
    { unfold Record_edit_phone, bind. rewrite find_phone_run, Hfind.
      unfold Phone. rewrite Hnew. reflexivity. }
    unfold with_phones, heap_update; simpl.
    destruct (decide (self = self)) as [_|]; [simpl|congruence].
    split; [by apply list_lookup_insert_eq|].
    split; [intros j Hj; by apply list_lookup_insert_ne|].
    split; [apply length_insert|].
    split; [reflexivity|]. split; [reflexivity|]. split; [|reflexivity].
    intros a Ha. by destruct (decide (a = self)).
Qed.

Lemma new_raises_ValueError (y m d : Z) (e : exn) :
  datetime.new y m d = Raise e -> exists msg, e = ValueError msg.
Proof.
  unfold datetime.new. intros H.
  repeat match type of H with
         | (if ?b then _ else _) = _ => destruct b
         end; inversion H; eauto.
Qed.

Lemma strptime_raises_ValueError (s : pystr) (e : exn) :
  strptime s = Raise e -> exists msg, e = ValueError msg.
Proof.
  unfold strptime. intros H.
  destruct (strptime_match s) as [[[[d m] y] rest]|]; [|inversion H; eauto].
  destruct rest; [|inversion H; eauto].
  destruct (int y); [|inversion H; eauto].
  destruct (int m); [|inversion H; eauto].
  destruct (int d); [|inversion H; eauto].
  by eapply new_raises_ValueError.
Qed.

(** C9.  For a string that [datetime.strptime] does not parse with the
    format [%d.%m.%Y], [add_birthday] raises the [ValueError] "Invalid date
    format. Use DD.MM.YYYY" and leaves the store as it was: the birthday of
    the record, set or not, is the one it had. *)
Theorem add_birthday_unparsed_keeps_birthday (w : World) (self : ref) (s : pystr) :
  (forall d, strptime s <> Return d) ->
  Record_add_birthday self s w = (Raise (ValueError Invalid_date_format), w)
  /\ birthday (heap (Record_add_birthday self s w).2 self) = birthday (heap w self).
Proof.
  intros Hs.
  assert (E : Record_add_birthday self s w
              = (Raise (ValueError Invalid_date_format), w)).
  { unfold Record_add_birthday, Birthday, bind, try_except_ValueError, lift.
    destruct (strptime s) as [d|e] eqn:Es; [by destruct (Hs d)|].
    apply strptime_raises_ValueError in Es as [msg ->]. reflexivity. }
  by rewrite E.
Qed.

(** *** The phone list without repeated values *)

Lemma add_phone_run_new (w : World) (self : ref) (v : pystr) :
  v ∉ phone_values (heap w self) ->
  _validate_phone v = true ->
  Record_add_phone self v w
  = (Return tt, with_phones w self (phones (heap w self) ++ [mkField v])).
Proof.
  intros H Hv. apply list_find_value_None in H.
  unfold Record_add_phone, bind. rewrite find_phone_run, H.
  unfold Phone. rewrite Hv. reflexivity.
Qed.

Lemma with_phones_values (w : World) (self : ref) (l : list Field) :
  phone_values (heap (with_phones w self l) self) = value <$> l.
Proof.
  unfold with_phones, heap_update, phone_values; simpl.
  destruct (decide (self = self)); [reflexivity|congruence].
Qed.

(** A returning [add_phone] keeps the values of the list distinct. *)
Lemma add_phone_NoDup (w w' : World) (self : ref) (v : pystr) :
  NoDup (phone_values (heap w self)) ->
  Record_add_phone self v w = (Return tt, w') ->
  NoDup (phone_values (heap w' self)).
Proof.
  intros Hnd Hrun.
  destruct (decide (v ∈ phone_values (heap w self))) as [Hin|Hin].
  - apply list_find_value_Some in Hin as [x Hx].
    unfold Record_add_phone, bind in Hrun.
    rewrite find_phone_run, Hx in Hrun. discriminate.
  - destruct (_validate_phone v) eqn:Hv.
    + rewrite (add_phone_run_new _ _ _ Hin Hv) in Hrun.
      injection Hrun as <-. rewrite with_phones_values, fmap_app. simpl.
      apply list.NoDup_app. split; [exact Hnd|]. split; [|apply NoDup_singleton].
      intros x Hx Hx'. apply list_elem_of_singleton in Hx'. by subst.
    + apply list_find_value_None in Hin.
      unfold Record_add_phone, bind in Hrun.
      rewrite find_phone_run, Hin in Hrun. unfold Phone in Hrun.
      rewrite Hv in Hrun. discriminate.
Qed.

(** A returning [remove_phone] keeps them distinct too. *)
Lemma remove_phone_NoDup (w w' : World) (self : ref) (v : pystr) :
  NoDup (phone_values (heap w self)) ->
  Record_remove_phone self v w = (Return tt, w') ->
  NoDup (phone_values (heap w' self)).
Proof.
  intros Hnd Hrun.
  unfold Record_remove_phone, bind in Hrun. rewrite find_phone_run in Hrun.
  destruct (list_find _ _) as [[i p]|]; [|discriminate].
  injection Hrun as <-.
  change (NoDup (phone_values
    (heap (with_phones w self (delete i (phones (heap w self)))) self))).
  rewrite with_phones_values.
  eapply sublist_NoDup; [exact Hnd|].
  apply fmap_sublist, sublist_delete.
Qed.

(** [add_birthday] does not touch the phone list. *)
Lemma add_birthday_phones (w : World) (self : ref) (s : pystr) :
  phones (heap (Record_add_birthday self s w).2 self) = phones (heap w self).
Proof.
  unfold Record_add_birthday, Birthday, bind, try_except_ValueError, lift.
  destruct (strptime s) as [d|[msg|]]; simpl; try reflexivity.
  unfold heap_update. destruct (decide (self = self)); [reflexivity|congruence].
Qed.

Lemma NoDup_list_insert {A : Type} (l : list A) (i : nat) (x : A) :
  NoDup l -> x ∉ l -> NoDup (<[i := x]> l).
Proof.
  intros Hnd Hx.
  destruct (decide (i < length l)%nat) as [Hi|Hi].
  2: { rewrite list_insert_ge by lia. exact Hnd. }
  rewrite insert_take_drop by exact Hi.
  assert (Hsub : take i l ++ drop (S i) l `sublist_of` l).
  { rewrite <- (take_drop i l) at 3.
    apply sublist_app; [reflexivity|].
    replace (S i) with (i + 1)%nat by lia.
    rewrite <- drop_drop. apply sublist_drop. }
  pose proof (sublist_NoDup _ _ Hnd Hsub) as Hnd'.
  apply NoDup_app in Hnd' as (Ht & Htd & Hd).
  apply NoDup_app. split; [exact Ht|]. split.
  - intros y Hy Hy'. apply elem_of_cons in Hy' as [->|Hy'].
    + apply Hx. eapply elem_of_sublist; [exact Hy|apply sublist_take].
    + by apply (Htd y).
  - apply NoDup_cons. split; [|exact Hd].
    intros Hin. apply Hx. eapply elem_of_sublist; [exact Hin|apply sublist_drop].
Qed.

(** A returning [edit_phone] keeps the values distinct when the new value
    is the old one or the value of no phone of the record. *)
Lemma edit_phone_NoDup (w w' : World) (self : ref) (old new : pystr) :
  NoDup (phone_values (heap w self)) ->
  new = old \/ new ∉ phone_values (heap w self) ->
  Record_edit_phone self old new w = (Return tt, w') ->
  NoDup (phone_values (heap w' self)).
Proof.
  intros Hnd Hnew Hrun.
  unfold Record_edit_phone, bind in Hrun. rewrite find_phone_run in Hrun.
  destruct (list_find _ _) as [[i p]|] eqn:Hfind; [|discriminate].
  apply list_find_Some in Hfind as (Hp & Hv & _).
  unfold Phone in Hrun. destruct (_validate_phone new); [|discriminate].
  injection Hrun as <-.
  change (NoDup (phone_values
    (heap (with_phones w self (<[i := mkField new]> (phones (heap w self)))) self))).
  rewrite with_phones_values, list_fmap_insert. simpl.
  destruct Hnew as [->|Hnew].
  - rewrite list_insert_id; [exact Hnd|].
    by rewrite list_lookup_fmap, Hp, <- Hv.
  - by apply NoDup_list_insert.
Qed.

(** C2 (the defect).  [edit_phone] does not look for the new value among
    the phones of the record, as [add_phone] does: on the record with the
    phones 1111111111 and 2222222222, whose values are distinct,
    [edit_phone("1111111111", "2222222222")] returns and leaves the list
    2222222222, 2222222222, in which a value is repeated. *)
Theorem edit_phone_repeats_value :
  NoDup (phone_values (heap ann_two_phones 0%nat))
  /\ exists w',
       Record_edit_phone 0%nat (py "1111111111") (py "2222222222") ann_two_phones
       = (Return tt, w')
       /\ phone_values (heap w' 0%nat) = [py "2222222222"; py "2222222222"]
       /\ ~ NoDup (phone_values (heap w' 0%nat)).
Proof.
  split.
  - apply (bool_decide_unpack _). vm_compute. reflexivity.
  - eexists. split; [reflexivity|]. split; [reflexivity|].
    apply (bool_decide_unpack _). vm_compute. reflexivity.
Qed.

(** ** The dictionary *)

Lemma dict_get_setitem_eq {V : Type} (k : pystr) (v : V) (d : list (pystr * V)) :
  dict_get k (dict_setitem k v d) = Some v.
Proof.
  induction d as [|[k' v'] d IH]; simpl.
  - by destruct (decide (k = k)).
  - destruct (decide (k' = k)) as [->|Hne]; simpl.
    + by destruct (decide (k = k)).
    + by destruct (decide (k' = k)).
Qed.

Lemma dict_get_setitem_ne {V : Type} (k k0 : pystr) (v : V) (d : list (pystr * V)) :
  k <> k0 -> dict_get k (dict_setitem k0 v d) = dict_get k d.
Proof.
  intros Hne. induction d as [|[k' v'] d IH]; simpl.
  - destruct (decide (k0 = k)); [congruence|reflexivity].
  - destruct (decide (k' = k0)) as [->|Hne']; simpl.
    + destruct (decide (k0 = k)); [congruence|reflexivity].
    + destruct (decide (k' = k)); [reflexivity|exact IH].
Qed.

Lemma dict_keys_setitem {V : Type} (k : pystr) (v : V) (d : list (pystr * V)) :
  dict_keys (dict_setitem k v d)
  = if decide (k ∈ dict_keys d) then dict_keys d else dict_keys d ++ [k].
Proof.
  unfold dict_keys. induction d as [|[k' v'] d IH].
  - reflexivity.
  - cbn [dict_setitem]. destruct (decide (k' = k)) as [->|Hne].
    + rewrite !fmap_cons. cbn [fst].
      destruct (decide (k ∈ k :: d.*1)) as [_|H]; [reflexivity|].
      exfalso. apply H. left.
    + rewrite !fmap_cons, IH. cbn [fst].
      destruct (decide (k ∈ d.*1)) as [Hin|Hin];
        destruct (decide (k ∈ k' :: d.*1)) as [Hin'|Hin']; try reflexivity.
      * exfalso. apply Hin'. by right.
      * apply elem_of_cons in Hin' as [->|Hin']; [congruence|contradiction].
Qed.

Lemma dict_get_elem_of {V : Type} (k : pystr) (v : V) (d : list (pystr * V)) :
  dict_get k d = Some v -> (k, v) ∈ d.
Proof.
  induction d as [|[k' v'] d IH]; simpl; [discriminate|].
  destruct (decide (k' = k)) as [->|Hne].
  - intros [= ->]. left.
  - intros H. right. by apply IH.
Qed.

(** With distinct keys, the items after [d[k] = v] are the new item and
    the items of [d] under the other keys. *)
Lemma elem_of_dict_setitem {V : Type} (k k0 : pystr) (a v : V) (d : list (pystr * V)) :
  NoDup (dict_keys d) ->
  (k, a) ∈ dict_setitem k0 v d ->
  (k = k0 /\ a = v) \/ (k <> k0 /\ (k, a) ∈ d).
Proof.
  unfold dict_keys. induction d as [|[k' v'] d IH]; simpl; intros Hnd Hin.
  - apply list_elem_of_singleton in Hin as [= -> ->]. by left.
  - apply NoDup_cons in Hnd as [Hk' Hnd].
    destruct (decide (k' = k0)) as [->|Hne].
    + apply elem_of_cons in Hin as [[= -> ->]|Hin]; [by left|].
      right. split; [|by right].
      intros ->. apply Hk'. apply list_elem_of_fmap. by exists (k0, a).
    + apply elem_of_cons in Hin as [[= -> ->]|Hin].
      * right. split; [exact Hne|left].
      * destruct (IH Hnd Hin) as [?|[? ?]]; [by left|].
        right. split; [done|by right].
Qed.

Lemma elem_of_dict_delitem {V : Type} (k k0 : pystr) (a : V) (d : list (pystr * V)) :
  (k, a) ∈ dict_delitem k0 d -> (k, a) ∈ d.
Proof.
  induction d as [|[k' v'] d IH]; simpl; [done|].
  destruct (decide (k' = k0)) as [->|Hne]; intros Hin.
  - by right.
  - apply elem_of_cons in Hin as [->|Hin]; [left|right; by apply IH].
Qed.

Lemma dict_keys_delitem_sublist {V : Type} (k : pystr) (d : list (pystr * V)) :
  dict_keys (dict_delitem k d) `sublist_of` dict_keys d.
Proof.
  unfold dict_keys. induction d as [|[k' v'] d IH]; simpl; [done|].
  destruct (decide (k' = k)).
  - by apply sublist_cons.
  - by apply sublist_skip.
Qed.

(** ** Properties of [AddressBook.add_record] *)

Lemma add_record_run (w : World) (record : ref) :
  AddressBook_add_record record w
  = (Return tt,
     mkWorld (heap w) (next w)
             (dict_setitem (value (name (heap w record))) record (data w))).
Proof. reflexivity. Qed.

(** C7.  [add_record(r)] always returns; afterwards [find] gives [r] for
    the value of [r]'s name, the other keys hold what they held, the keys
    are in the order they had (a new name comes last), and no record
    changed.  When the name was already a key of a book with keys that are
    the names of its records, the record [old] it referred to is no
    longer a value of the book. *)
Theorem add_record_replaces_by_name (w : World) (record : ref) :
  exists w',
    AddressBook_add_record record w = (Return tt, w')
    /\ heap w' = heap w
    /\ AddressBook_find (value (name (heap w record))) w' = (Return (Some record), w')
    /\ (forall k, k <> value (name (heap w record)) ->
          dict_get k (data w') = dict_get k (data w))
    /\ dict_keys (data w')
       = (if decide (value (name (heap w record)) ∈ dict_keys (data w))
          then dict_keys (data w)
          else dict_keys (data w) ++ [value (name (heap w record))])
    /\ (forall old,
          NoDup (dict_keys (data w)) -> keys_are_names w ->
          dict_get (value (name (heap w record))) (data w) = Some old ->
          old <> record ->
          old ∉ dict_values (data w')).
Proof.
  eexists. split; [apply add_record_run|]. simpl.
  split; [reflexivity|].
  split.
  { unfold AddressBook_find, bind, get_data, ret; simpl.
    by rewrite dict_get_setitem_eq. }
  split; [intros k Hk; by apply dict_get_setitem_ne|].
  split; [apply dict_keys_setitem|].
  intros old Hnd Hinv Hold Hne Hin.
  apply list_elem_of_fmap in Hin as ([k a] & -> & Hin); simpl in *.
  apply elem_of_dict_setitem in Hin as [[_ ->]|[Hk Hin]]; [done| |done].
  apply dict_get_elem_of in Hold.
  apply Hinv in Hold, Hin. congruence.
Qed.

(** ** The keys of the book are the names of its records *)

Lemma keeps_names_refl (w : World) : keeps_names w w.
Proof. by repeat split. Qed.

Lemma keeps_names_inv (w w' : World) :
  keeps_names w w' -> book_inv w -> book_inv w'.
Proof.
  intros (Hd & Hn & Hnames) (Hk & Hlt & Hnd).
  unfold book_inv, keys_are_names. rewrite Hd, Hn.
  split; [|by split].
  intros k a Hin. rewrite Hnames. by apply Hk.
Qed.

Lemma set_phones_keeps_names (w : World) (self : ref) (l : list Field) :
  keeps_names w (set_phones self l w).2.
Proof.
  split; [reflexivity|]. split; [reflexivity|].
  intros a. simpl. unfold heap_update.
  by destruct (decide (a = self)) as [->|].
Qed.

Lemma set_birthday_keeps_names (w : World) (self : ref) (b : option Field) :
  keeps_names w (set_birthday self b w).2.
Proof.
  split; [reflexivity|]. split; [reflexivity|].
  intros a. simpl. unfold heap_update.
  by destruct (decide (a = self)) as [->|].
Qed.

Lemma add_phone_keeps_names (w : World) (self : ref) (p : pystr) :
  keeps_names w (Record_add_phone self p w).2.
Proof.
  unfold Record_add_phone, bind. rewrite find_phone_run.
  destruct (list_find _ _); [apply keeps_names_refl|].
  unfold Phone. destruct (_validate_phone p); [|apply keeps_names_refl].
  apply set_phones_keeps_names.
Qed.

Lemma remove_phone_keeps_names (w : World) (self : ref) (p : pystr) :
  keeps_names w (Record_remove_phone self p w).2.
Proof.
  unfold Record_remove_phone, bind. rewrite find_phone_run.
  destruct (list_find _ _) as [[i x]|]; [|apply keeps_names_refl].
  apply set_phones_keeps_names.
Qed.

Lemma edit_phone_keeps_names (w : World) (self : ref) (o n : pystr) :
  keeps_names w (Record_edit_phone self o n w).2.
Proof.
  unfold Record_edit_phone, bind. rewrite find_phone_run.
  destruct (list_find _ _) as [[i x]|]; [|apply keeps_names_refl].
  unfold Phone. destruct (_validate_phone n); [|apply keeps_names_refl].
  apply set_phones_keeps_names.
Qed.

Lemma add_birthday_keeps_names (w : World) (self : ref) (b : pystr) :
  keeps_names w (Record_add_birthday self b w).2.
Proof.
  unfold Record_add_birthday, Birthday, bind, try_except_ValueError, lift.
  destruct (strptime b) as [d|[msg|]]; try apply keeps_names_refl.
  apply set_birthday_keeps_names.
Qed.

(** A new record takes a reference the book does not hold. *)
Lemma Record_init_inv (w : World) (n : pystr) :
  book_inv w -> book_inv (Record_init n w).2.
Proof.
  intros (Hk & Hlt & Hnd).
  unfold Record_init, bind, Name.
  destruct (_ || _); [by repeat split|].
  simpl. split; [|split; [|exact Hnd]].
  - intros k a Hin. simpl in *. unfold heap_update.
    destruct (decide (a = next w)) as [->|]; [|by apply Hk].
    apply Hlt in Hin. lia.
  - intros k a Hin. simpl in *. apply Hlt in Hin. lia.
Qed.

Lemma add_record_inv (w : World) (record : ref) :
  (record < next w)%nat -> book_inv w -> book_inv (AddressBook_add_record record w).2.
Proof.
  intros Hr (Hk & Hlt & Hnd). rewrite add_record_run. simpl.
  split; [|split]; simpl.
  - intros k a Hin. simpl in *.
    apply elem_of_dict_setitem in Hin as [[-> ->]|[_ Hin]]; [done| |done].
    by apply Hk.
  - intros k a Hin. simpl in *.
    apply elem_of_dict_setitem in Hin as [[-> ->]|[_ Hin]]; [done| |done].
    by eapply Hlt.
  - rewrite dict_keys_setitem. case_decide; [done|].
    apply NoDup_app. split; [done|]. split; [|apply NoDup_singleton].
    intros x Hx Hx'. apply list_elem_of_singleton in Hx'. by subst.
Qed.

Lemma delete_inv (w : World) (n : pystr) :
  book_inv w -> book_inv (AddressBook_delete n w).2.
Proof.
  intros (Hk & Hlt & Hnd). unfold AddressBook_delete, bind, get_data.
  destruct (dict_get n (data w)); [|by repeat split].
  simpl. split; [|split]; simpl.
  - intros k a Hin. simpl in *. apply elem_of_dict_delitem in Hin. by apply Hk.
  - intros k a Hin. simpl in *. apply elem_of_dict_delitem in Hin. by eapply Hlt.
  - eapply sublist_NoDup; [exact Hnd|apply dict_keys_delitem_sublist].
Qed.

Lemma exec_inv (w : World) (c : call) :
  on_objects w c -> book_inv w -> book_inv (exec c w).
Proof.
  destruct c; simpl; intros Hc Hinv.
  - by apply Record_init_inv.
  - eapply keeps_names_inv; [apply add_phone_keeps_names|done].
  - eapply keeps_names_inv; [apply remove_phone_keeps_names|done].
  - eapply keeps_names_inv; [apply edit_phone_keeps_names|done].
  - eapply keeps_names_inv; [apply add_birthday_keeps_names|done].
  - by apply add_record_inv.
  - exact Hinv.
  - by apply delete_inv.
Qed.

Lemma reachable_inv (w : World) : reachable w -> book_inv w.
Proof.
  induction 1 as [h|w c Hw IH Hc].
  - split; [|split]; simpl.
    + intros k a Hin. by apply elem_of_nil in Hin.
    + intros k a Hin. by apply elem_of_nil in Hin.
    + apply NoDup_nil_2.
  - by apply exec_inv.
Qed.

(** C8.  In every store reached from an empty book by calls of
    [Record(...)], [add_phone], [remove_phone], [edit_phone],
    [add_birthday], [add_record], [find] and [delete], returning or
    raising, each key of the book is the value of the name of the record
    stored under it. *)
Theorem reachable_keys_are_names (w : World) (k : pystr) (a : ref) :
  reachable w -> (k, a) ∈ data w -> value (name (heap w a)) = k.
Proof. intros Hw. apply (reachable_inv w Hw). Qed.

(** ** [get_upcoming_birthdays] only reads the store *)

Lemma read_only_ret {A : Type} (a : A) : read_only (ret a).
Proof. by intros w. Qed.

Lemma read_only_lift {A : Type} (o : outcome A) : read_only (lift o).
Proof. by intros w. Qed.

Lemma read_only_getattr {A : Type} (self : ref) (f : RecordObj -> A) :
  read_only (getattr self f).
Proof. by intros w. Qed.

Lemma read_only_get_data : read_only get_data.
Proof. by intros w. Qed.

Lemma read_only_bind {A B : Type} (m : M A) (k : A -> M B) :
  read_only m -> (forall a, read_only (k a)) -> read_only (bind m k).
Proof.
  intros Hm Hk w. unfold bind. specialize (Hm w).
  destruct (m w) as [[a|e] w1]; simpl in Hm; subst w1; [apply Hk|reflexivity].
Qed.

Lemma read_only_for_each {A S : Type} (body : A -> S -> M S) (l : list A) :
  (forall x acc, read_only (body x acc)) ->
  forall acc, read_only (for_each body l acc).
Proof.
  intros Hbody. induction l as [|x l IH]; intros acc; simpl.
  - apply read_only_ret.
  - apply read_only_bind; [apply Hbody|exact IH].
Qed.

Ltac read_only_step :=
  first
    [ apply read_only_ret | apply read_only_lift | apply read_only_getattr
    | apply read_only_get_data
    | apply read_only_bind; [|intros ?]
    | match goal with
      | |- read_only (match ?x with _ => _ end) => destruct x
      end ].

Lemma read_only_upcoming_body (today : datetime.date) (record : ref)
  (upcoming : list upcoming_item) :
  read_only (upcoming_body today record upcoming).
Proof. unfold upcoming_body. repeat read_only_step. Qed.

Lemma read_only_get_upcoming_birthdays (today : datetime.date) :
  read_only (AddressBook_get_upcoming_birthdays today).
Proof.
  unfold AddressBook_get_upcoming_birthdays.
  apply read_only_bind; [apply read_only_get_data|intros d].
  apply read_only_for_each. intros x acc. apply read_only_upcoming_body.
Qed.

(** C10.  When [get_upcoming_birthdays] returns, the store after the call
    is the store before it: the book has the same items in the same
    order, and every record its name, its phone list and its birthday. *)
Theorem get_upcoming_birthdays_keeps_store (today : datetime.date)
  (w w' : World) (upcoming : list upcoming_item) :
  AddressBook_get_upcoming_birthdays today w = (Return upcoming, w') ->
  w' = w
  /\ dict_keys (data w') = dict_keys (data w)
  /\ forall a, name (heap w' a) = name (heap w a)
               /\ phones (heap w' a) = phones (heap w a)
               /\ birthday (heap w' a) = birthday (heap w a).
Proof.
  intros H.
  pose proof (read_only_get_upcoming_birthdays today w) as Hro.
  rewrite H in Hro. simpl in Hro. subst w'. by repeat split.
Qed.

(** ** The calendar *)

Import datetime.

Lemma month_cases (m : Z) :
  1 <= m <= 12 ->
  m = 1 \/ m = 2 \/ m = 3 \/ m = 4 \/ m = 5 \/ m = 6 \/ m = 7
  \/ m = 8 \/ m = 9 \/ m = 10 \/ m = 11 \/ m = 12.
Proof. lia. Qed.

Ltac each_month Hm :=
  apply month_cases in Hm;
  repeat (destruct Hm as [Hm|Hm]); subst.

Lemma days_in_month_of_leap (y m : Z) :
  days_in_month y m = days_in_month_of (is_leap y) m.
Proof. reflexivity. Qed.

Lemma days_before_month_of_leap (y m : Z) :
  days_before_month y m = days_before_month_of (is_leap y) m.
Proof. reflexivity. Qed.

Lemma days_in_month_of_bounds (leap : bool) (m : Z) :
  1 <= m <= 12 -> 28 <= days_in_month_of leap m <= 31.
Proof.
  intros Hm. each_month Hm; destruct leap; vm_compute; split; discriminate.
Qed.

(** A month starts where the month before it ends. *)
Lemma days_before_month_of_succ (leap : bool) (m : Z) :
  1 <= m < 12 ->
  days_before_month_of leap (m + 1)
  = days_before_month_of leap m + days_in_month_of leap m.
Proof.
  intros Hm. assert (Hm' : 1 <= m <= 12) by lia.
  each_month Hm'; try lia; destruct leap; reflexivity.
Qed.

Lemma days_before_month_of_bounds (leap : bool) (m : Z) :
  1 <= m <= 12 ->
  0 <= days_before_month_of leap m
  /\ days_before_month_of leap m + days_in_month_of leap m
     <= 365 + (if leap then 1 else 0).
Proof.
  intros Hm. each_month Hm; destruct leap; vm_compute; split; discriminate.
Qed.

Lemma december (leap : bool) :
  days_before_month_of leap 12 = 334 + (if leap then 1 else 0)
  /\ days_in_month_of leap 12 = 31.
Proof. by destruct leap. Qed.

(** *** A year in its 400-year, 100-year and 4-year cycles *)

Lemma divmod_block (x D hi lo : Z) :
  0 <= lo < D -> x = D * hi + lo -> x / D = hi /\ x mod D = lo.
Proof.
  intros Hlo ->. split.
  - symmetry. by apply (Z.div_unique _ _ hi lo); [left|].
  - symmetry. by apply (Z.mod_unique _ _ hi lo); [left|].
Qed.

Lemma year_cycles (y : Z) :
  1 <= y ->
  exists q a b c,
    0 <= q /\ 0 <= a <= 3 /\ 0 <= b <= 24 /\ 0 <= c <= 3
    /\ y = 400 * q + 100 * a + 4 * b + c + 1
    /\ days_before_year y = 146097 * q + 36524 * a + 1461 * b + 365 * c
    /\ is_leap y = (c =? 3) && (negb (b =? 24) || (a =? 3)).
Proof.
  intros Hy.
  exists ((y - 1) / 400), ((y - 1) mod 400 / 100),
         ((y - 1) mod 100 / 4), ((y - 1) mod 4).
  split; [Z.div_mod_to_equations; lia|].
  split; [Z.div_mod_to_equations; lia|].
  split; [Z.div_mod_to_equations; lia|].
  split; [Z.div_mod_to_equations; lia|].
  split; [Z.div_mod_to_equations; lia|].
  split; [unfold days_before_year; Z.div_mod_to_equations; lia|].
  unfold is_leap.
  destruct (Z.eqb_spec (y mod 4) 0), (Z.eqb_spec (y mod 100) 0),
           (Z.eqb_spec (y mod 400) 0), (Z.eqb_spec ((y - 1) mod 4) 3),
           (Z.eqb_spec ((y - 1) mod 100 / 4) 24),
           (Z.eqb_spec ((y - 1) mod 400 / 100) 3);
    simpl; try reflexivity; exfalso; Z.div_mod_to_equations; lia.
Qed.

(** *** From the ordinal back to the date *)

Lemma ord2ymd_regular (q a b c k : Z) :
  0 <= a <= 3 -> 0 <= b <= 24 -> 0 <= c <= 3 -> 0 <= k <= 364 ->
  ord2ymd (146097 * q + 36524 * a + 1461 * b + 365 * c + k + 1)
  = ord2ymd_tail (400 * q + 100 * a + 4 * b + c + 1)
                 ((c =? 3) && (negb (b =? 24) || (a =? 3))) k.
Proof.
  intros Ha Hb Hc Hk.
  unfold ord2ymd, DI400Y, DI100Y, DI4Y. cbv zeta.
  replace (146097 * q + 36524 * a + 1461 * b + 365 * c + k + 1 - 1)
    with (146097 * q + (36524 * a + (1461 * b + (365 * c + k)))) by lia.
  destruct (divmod_block (146097 * q + (36524 * a + (1461 * b + (365 * c + k))))
              146097 q (36524 * a + (1461 * b + (365 * c + k))))
    as [E0 R0]; [lia|reflexivity|]. rewrite E0, R0.
  destruct (divmod_block (36524 * a + (1461 * b + (365 * c + k)))
              36524 a (1461 * b + (365 * c + k)))
    as [E1 R1]; [lia|reflexivity|]. rewrite E1, R1.
  destruct (divmod_block (1461 * b + (365 * c + k)) 1461 b (365 * c + k))
    as [E2 R2]; [lia|reflexivity|]. rewrite E2, R2.
  destruct (divmod_block (365 * c + k) 365 c k)
    as [E3 R3]; [lia|reflexivity|]. rewrite E3, R3.
  replace (c =? 4) with false by (symmetry; apply Z.eqb_neq; lia).
  replace (a =? 4) with false by (symmetry; apply Z.eqb_neq; lia).
  replace (q * 400 + 1 + a * 100 + b * 4 + c)
    with (400 * q + 100 * a + 4 * b + c + 1) by lia.
  reflexivity.
Qed.

(** The last day of a leap year is where [ord2ymd] meets the end of a
    4-year or of a 400-year cycle. *)
Lemma ord2ymd_last_leap_day (q a b : Z) :
  0 <= a <= 3 -> 0 <= b <= 24 -> b <> 24 \/ a = 3 ->
  ord2ymd (146097 * q + 36524 * a + 1461 * b + 365 * 3 + 365 + 1)
  = mkdate (400 * q + 100 * a + 4 * b + 3 + 1) 12 31.
Proof.
  intros Ha Hb Hleap.
  unfold ord2ymd, DI400Y, DI100Y, DI4Y. cbv zeta.
  destruct (decide (b = 24)) as [->|Hb24].
  - assert (a = 3) as -> by lia.
    replace (146097 * q + 36524 * 3 + 1461 * 24 + 365 * 3 + 365 + 1 - 1)
      with (146097 * q + 146096) by lia.
    destruct (divmod_block (146097 * q + 146096) 146097 q 146096)
      as [E0 R0]; [lia|reflexivity|]. rewrite E0, R0.
    simpl. f_equal. Z.div_mod_to_equations. lia.
  - replace (146097 * q + 36524 * a + 1461 * b + 365 * 3 + 365 + 1 - 1)
      with (146097 * q + (36524 * a + (1461 * b + 1460))) by lia.
    destruct (divmod_block (146097 * q + (36524 * a + (1461 * b + 1460)))
                146097 q (36524 * a + (1461 * b + 1460)))
      as [E0 R0]; [lia|reflexivity|]. rewrite E0, R0.
    destruct (divmod_block (36524 * a + (1461 * b + 1460)) 36524 a
                (1461 * b + 1460))
      as [E1 R1]; [lia|reflexivity|]. rewrite E1, R1.
    destruct (divmod_block (1461 * b + 1460) 1461 b 1460)
      as [E2 R2]; [lia|reflexivity|]. rewrite E2, R2.
    simpl. f_equal. Z.div_mod_to_equations. lia.
Qed.

Lemma ord2ymd_tail_year (y : Z) (leap : bool) (n : Z) :
  ord2ymd_tail y leap n
  = mkdate y (month (ord2ymd_tail 0 leap n)) (day (ord2ymd_tail 0 leap n)).
Proof. unfold ord2ymd_tail. cbv zeta. by destruct (n <? _). Qed.

Lemma tail_ok_all_true : tail_ok_all = true.
Proof. vm_compute. reflexivity. Qed.

Lemma forallb_seqZ (f : Z -> bool) (lo len : Z) :
  forallb f (seqZ lo len) = true -> forall x, lo <= x < lo + len -> f x = true.
Proof.
  intros H x Hx. rewrite forallb_forall in H. apply H.
  apply list_elem_of_In, elem_of_seqZ. exact Hx.
Qed.

Lemma ord2ymd_tail_correct (y : Z) (leap : bool) (m d : Z) :
  1 <= m <= 12 -> 1 <= d <= days_in_month_of leap m ->
  days_before_month_of leap m + d - 1 <= 364 ->
  ord2ymd_tail y leap (days_before_month_of leap m + d - 1) = mkdate y m d.
Proof.
  intros Hm Hd Hk.
  pose proof (days_in_month_of_bounds leap m Hm) as Hdim.
  pose proof tail_ok_all_true as H. unfold tail_ok_all in H.
  rewrite forallb_forall in H.
  assert (Hleap : In leap [true; false]) by (destruct leap; simpl; auto).
  apply H in Hleap.
  apply forallb_seqZ with (x := m) in Hleap; [|lia].
  apply forallb_seqZ with (x := d) in Hleap; [|lia].
  unfold tail_ok in Hleap. cbv zeta in Hleap.
  apply orb_true_iff in Hleap as [Hleap|Hleap].
  { apply orb_true_iff in Hleap as [Hleap|Hleap];
      apply negb_true_iff, Z.leb_gt in Hleap; lia. }
  apply andb_true_iff in Hleap as [H1 H2]. apply Z.eqb_eq in H1, H2.
  rewrite ord2ymd_tail_year. by rewrite H1, H2.
Qed.

Lemma valid_ymd_bounds (y m d : Z) :
  valid_ymd y m d = true ->
  1 <= y <= 9999 /\ 1 <= m <= 12 /\ 1 <= d <= days_in_month y m.
Proof.
  unfold valid_ymd, MINYEAR, MAXYEAR. intros H.
  repeat (apply andb_true_iff in H as [H ?]).
  repeat match goal with
         | H : (_ <=? _) = true |- _ => apply Z.leb_le in H
         end.
  lia.
Qed.

Lemma valid_ymd_intro (y m d : Z) :
  1 <= y <= 9999 -> 1 <= m <= 12 -> 1 <= d <= days_in_month y m ->
  valid_ymd y m d = true.
Proof.
  intros Hy Hm Hd. unfold valid_ymd, MINYEAR, MAXYEAR.
  repeat (apply andb_true_iff; split); apply Z.leb_le; lia.
Qed.

(** [date.fromordinal(d.toordinal())] is [d], whatever the year. *)
Lemma ord2ymd_ymd2ord (y m d : Z) :
  1 <= y -> 1 <= m <= 12 -> 1 <= d <= days_in_month y m ->
  ord2ymd (ymd2ord y m d) = mkdate y m d.
Proof.
  intros Hy Hm Hd.
  destruct (year_cycles y Hy) as (q & a & b & c & Hq & Ha & Hb & Hc & Ey & Edby & Eleap).
  rewrite days_in_month_of_leap in Hd.
  pose proof (days_before_month_of_bounds (is_leap y) m Hm) as [Hlo Hhi].
  unfold ymd2ord. rewrite Edby, days_before_month_of_leap.
  destruct (decide (days_before_month_of (is_leap y) m + d - 1 <= 364)) as [Hk|Hk].
  - replace (146097 * q + 36524 * a + 1461 * b + 365 * c
             + days_before_month_of (is_leap y) m + d)
      with (146097 * q + 36524 * a + 1461 * b + 365 * c
            + (days_before_month_of (is_leap y) m + d - 1) + 1) by lia.
    rewrite ord2ymd_regular by lia.
    rewrite <- Eleap, <- Ey. by apply ord2ymd_tail_correct.
  - destruct (is_leap y) eqn:El; [|simpl in Hhi; lia].
    assert (m = 12).
    { destruct (decide (m = 12)) as [|Hne]; [done|exfalso].
      pose proof (days_before_month_of_succ true m ltac:(lia)) as Hs.
      pose proof (days_before_month_of_bounds true (m + 1) ltac:(lia)) as [_ Hn].
      pose proof (days_in_month_of_bounds true (m + 1) ltac:(lia)).
      simpl in Hn. lia. }
    subst m. destruct (december true) as [E1 E2]. simpl in E1.
    assert (d = 31) as -> by lia.
    symmetry in Eleap. apply andb_true_iff in Eleap as [Hc3 Hba].
    apply Z.eqb_eq in Hc3. subst c.
    assert (b <> 24 \/ a = 3).
    { apply orb_true_iff in Hba as [Hba|Hba].
      - left. by apply negb_true_iff, Z.eqb_neq in Hba.
      - right. by apply Z.eqb_eq. }
    rewrite E1.
    replace (146097 * q + 36524 * a + 1461 * b + 365 * 3 + (334 + 1) + 31)
      with (146097 * q + 36524 * a + 1461 * b + 365 * 3 + 365 + 1) by lia.
    rewrite ord2ymd_last_leap_day by done. f_equal. lia.
Qed.

(** A year is 365 days, and one more when it is a leap year. *)
Lemma days_before_year_succ (y : Z) :
  1 <= y ->
  days_before_year (y + 1) = days_before_year y + 365 + (if is_leap y then 1 else 0).
Proof.
  intros Hy. unfold days_before_year, is_leap.
  destruct (Z.eqb_spec (y mod 4) 0), (Z.eqb_spec (y mod 100) 0),
           (Z.eqb_spec (y mod 400) 0);
    simpl; Z.div_mod_to_equations; lia.
Qed.

Lemma days_before_year_mono (y y' : Z) :
  y <= y' -> days_before_year y <= days_before_year y'.
Proof. unfold days_before_year. intros H. Z.div_mod_to_equations. lia. Qed.

Lemma ymd2ord_bounds (y m d : Z) :
  valid_ymd y m d = true -> 1 <= ymd2ord y m d <= MAXORDINAL.
Proof.
  intros H. apply valid_ymd_bounds in H as (Hy & Hm & Hd).
  rewrite days_in_month_of_leap in Hd.
  pose proof (days_before_month_of_bounds (is_leap y) m Hm) as [Hlo Hhi].
  pose proof (days_before_year_succ y ltac:(lia)) as Hs.
  pose proof (days_before_year_mono 1 y ltac:(lia)) as H1.
  pose proof (days_before_year_mono (y + 1) 10000 ltac:(lia)) as H2.
  change (days_before_year 1) with 0 in H1.
  change (days_before_year 10000) with MAXORDINAL in H2.
  unfold ymd2ord, MAXORDINAL in *. rewrite days_before_month_of_leap.
  destruct (is_leap y); lia.
Qed.

Lemma ord2ymd_toordinal (d : date) :
  valid d = true -> ord2ymd (toordinal d) = d.
Proof.
  intros H. destruct d as [y m dd]. unfold valid in H. simpl in H.
  apply valid_ymd_bounds in H as (Hy & Hm & Hd).
  apply ord2ymd_ymd2ord; lia.
Qed.

Lemma toordinal_bounds (d : date) :
  valid d = true -> 1 <= toordinal d <= MAXORDINAL.
Proof. intros H. destruct d as [y m dd]. by apply ymd2ord_bounds. Qed.

(** *** The next day *)

Lemma toordinal_next_day (d : date) :
  valid d = true -> toordinal (next_day d) = toordinal d + 1.
Proof.
  destruct d as [y m dd]. unfold valid; simpl. intros H.
  apply valid_ymd_bounds in H as (Hy & Hm & Hd).
  unfold next_day, toordinal; simpl.
  destruct (Z.ltb_spec dd (days_in_month y m)) as [Hlt|Hge]; simpl.
  { unfold ymd2ord. lia. }
  assert (dd = days_in_month y m) as -> by lia.
  destruct (Z.ltb_spec m 12) as [Hm12|Hm12]; simpl; unfold ymd2ord.
  - rewrite !days_before_month_of_leap, days_in_month_of_leap.
    rewrite days_before_month_of_succ by lia. lia.
  - assert (m = 12) as -> by lia.
    rewrite days_before_year_succ by lia.
    rewrite !days_before_month_of_leap, days_in_month_of_leap.
    destruct (december (is_leap y)) as [-> ->].
    change (days_before_month_of (is_leap (y + 1)) 1) with 0. lia.
Qed.

Lemma valid_next_day (d : date) :
  valid d = true -> toordinal d < MAXORDINAL -> valid (next_day d) = true.
Proof.
  destruct d as [y m dd]. unfold valid, toordinal; simpl. intros H Hlt.
  apply valid_ymd_bounds in H as (Hy & Hm & Hd).
  unfold next_day; simpl.
  destruct (Z.ltb_spec dd (days_in_month y m)) as [Hd'|Hd']; simpl.
  { apply valid_ymd_intro; lia. }
  destruct (Z.ltb_spec m 12) as [Hm12|Hm12]; simpl.
  - apply valid_ymd_intro; [lia|lia|].
    rewrite days_in_month_of_leap.
    pose proof (days_in_month_of_bounds (is_leap y) (m + 1) ltac:(lia)). lia.
  - assert (m = 12) as -> by lia. assert (dd = days_in_month y 12) as -> by lia.
    apply valid_ymd_intro; [|lia|by vm_compute].
    destruct (decide (y = 9999)) as [->|]; [|lia].
    vm_compute in Hlt. discriminate.
Qed.

Lemma add_days_1 (d : date) :
  valid d = true -> toordinal d + 1 <= MAXORDINAL ->
  add_days d 1 = Return (next_day d).
Proof.
  intros Hv Hlt. pose proof (toordinal_bounds d Hv) as Hb.
  unfold add_days.
  replace ((0 <? toordinal d + 1) && (toordinal d + 1 <=? MAXORDINAL)) with true
    by (symmetry; apply andb_true_iff; split;
        [apply Z.ltb_lt|apply Z.leb_le]; lia).
  rewrite <- toordinal_next_day by done.
  rewrite ord2ymd_toordinal; [reflexivity|].
  apply valid_next_day; [done|lia].
Qed.

Lemma add_days_2 (d : date) :
  valid d = true -> toordinal d + 2 <= MAXORDINAL ->
  add_days d 2 = Return (next_day (next_day d)).
Proof.
  intros Hv Hlt. pose proof (toordinal_bounds d Hv) as Hb.
  assert (Hv1 : valid (next_day d) = true) by (apply valid_next_day; [done|lia]).
  pose proof (toordinal_next_day d Hv) as E1.
  pose proof (toordinal_next_day (next_day d) Hv1) as E2.
  unfold add_days.
  replace ((0 <? toordinal d + 2) && (toordinal d + 2 <=? MAXORDINAL)) with true
    by (symmetry; apply andb_true_iff; split;
        [apply Z.ltb_lt|apply Z.leb_le]; lia).
  replace (toordinal d + 2) with (toordinal (next_day (next_day d))) by lia.
  rewrite ord2ymd_toordinal; [reflexivity|].
  apply valid_next_day; [done|lia].
Qed.

(** The last day of the calendar is a Friday: a Saturday or a Sunday
    has its Monday in the calendar. *)
Lemma saturday_has_monday (d : date) :
  valid d = true -> weekday d = 5 -> toordinal d + 2 <= MAXORDINAL.
Proof.
  intros Hv Hw. pose proof (toordinal_bounds d Hv) as Hb.
  unfold weekday, MAXORDINAL in *. Z.div_mod_to_equations. lia.
Qed.

Lemma sunday_has_monday (d : date) :
  valid d = true -> weekday d = 6 -> toordinal d + 1 <= MAXORDINAL.
Proof.
  intros Hv Hw. pose proof (toordinal_bounds d Hv) as Hb.
  unfold weekday, MAXORDINAL in *. Z.div_mod_to_equations. lia.
Qed.

(** The congratulation date of a Saturday or Sunday is a Monday, the
    first one after it. *)
Lemma congratulation_date_monday (occ : date) :
  valid occ = true -> 5 <= weekday occ ->
  weekday (congratulation_date occ) = 0
  /\ toordinal (congratulation_date occ) = toordinal occ + (7 - weekday occ).
Proof.
  intros Hv Hw. pose proof (toordinal_bounds occ Hv) as Hb.
  assert (Hw7 : weekday occ < 7)
    by (unfold weekday; Z.div_mod_to_equations; lia).
  unfold congratulation_date.
  destruct (Z.eqb_spec (weekday occ) 5) as [E5|N5].
  - pose proof (saturday_has_monday occ Hv E5) as Hs.
    assert (Hv1 : valid (next_day occ) = true)
      by (apply valid_next_day; [done|lia]).
    pose proof (toordinal_next_day occ Hv) as E1.
    pose proof (toordinal_next_day (next_day occ) Hv1) as E2.
    split; [|lia].
    unfold weekday in *. rewrite E2, E1. Z.div_mod_to_equations. lia.
  - destruct (Z.eqb_spec (weekday occ) 6) as [E6|N6]; [|lia].
    pose proof (toordinal_next_day occ Hv) as E1.
    split; [|lia].
    unfold weekday in *. rewrite E1. Z.div_mod_to_equations. lia.
Qed.

(** *** Dates the constructors accept *)

Lemma new_valid (y m d : Z) :
  valid_ymd y m d = true -> new y m d = Return (mkdate y m d).
Proof.
  intros H. apply valid_ymd_bounds in H as (Hy & Hm & Hd).
  unfold new, MINYEAR, MAXYEAR.
  replace ((1 <=? y) && (y <=? 9999)) with true
    by (symmetry; apply andb_true_iff; split; apply Z.leb_le; lia).
  replace ((1 <=? m) && (m <=? 12)) with true
    by (symmetry; apply andb_true_iff; split; apply Z.leb_le; lia).
  replace ((1 <=? d) && (d <=? days_in_month y m)) with true
    by (symmetry; apply andb_true_iff; split; apply Z.leb_le; lia).
  reflexivity.
Qed.

Lemma new_Return (y m d : Z) (r : date) :
  new y m d = Return r -> r = mkdate y m d /\ valid_ymd y m d = true.
Proof.
  unfold new, MINYEAR, MAXYEAR. intros H.
  destruct ((1 <=? y) && (y <=? 9999)) eqn:E1; [|discriminate].
  destruct ((1 <=? m) && (m <=? 12)) eqn:E2; [|discriminate].
  destruct ((1 <=? d) && (d <=? days_in_month y m)) eqn:E3; [|discriminate].
  simpl in H. injection H as <-. split; [reflexivity|].
  apply andb_true_iff in E1 as [H1 H2]. apply andb_true_iff in E2 as [H3 H4].
  apply andb_true_iff in E3 as [H5 H6].
  apply Z.leb_le in H1, H2, H3, H4, H5, H6.
  apply valid_ymd_intro; lia.
Qed.

Lemma strptime_valid (s : pystr) (bd : date) :
  strptime s = Return bd -> valid bd = true.
Proof.
  unfold strptime. intros H.
  destruct (strptime_match s) as [[[[d m] y] rest]|]; [|discriminate].
  destruct rest; [|discriminate].
  destruct (int y); [|discriminate].
  destruct (int m); [|discriminate].
  destruct (int d); [|discriminate].
  apply new_Return in H as [-> H]. exact H.
Qed.

(** ** Properties of [get_upcoming_birthdays] *)

Lemma upcoming_body_expected (today : date) (w : World) (a : ref)
  (acc : list upcoming_item) :
  (forall b, birthday (heap w a) = Some b ->
     exists bd, strptime (value b) = Return bd /\ replaceable today bd) ->
  upcoming_body today a acc w
  = (Return (acc ++ option_list (expected_item today (heap w a))), w).
Proof.
  intros Hb.
  unfold upcoming_body, expected_item, stored_birthday, bind, getattr.
  destruct (birthday (heap w a)) as [b|] eqn:Eb.
  2: { unfold ret. by rewrite app_nil_r. }
  destruct (Hb b eq_refl) as (bd & Hparse & Hthis & Hocc).
  unfold lift. rewrite Hparse.
  unfold replace_year. rewrite (new_valid _ _ _ Hthis).
  unfold occurrence in *. cbv zeta in *.
  assert (Hbty :
    (if lt (mkdate (year today) (month bd) (day bd)) today
     then lift (new (year today + 1) (month bd) (day bd))
     else ret (mkdate (year today) (month bd) (day bd))) w
    = (Return (if lt (mkdate (year today) (month bd) (day bd)) today
               then mkdate (year today + 1) (month bd) (day bd)
               else mkdate (year today) (month bd) (day bd)), w)).
  { revert Hocc. destruct (lt _ today); intros Hocc; [|reflexivity].
    unfold lift.
    by rewrite (new_valid (year today + 1) (month bd) (day bd) Hocc). }
  unfold lift in Hbty. rewrite Hbty. clear Hbty.
  set (occ := if lt (mkdate (year today) (month bd) (day bd)) today
              then mkdate (year today + 1) (month bd) (day bd)
              else mkdate (year today) (month bd) (day bd)) in *.
  unfold in_window.
  destruct ((0 <=? sub_days occ today) && (sub_days occ today <=? 7));
    [|unfold ret; by rewrite app_nil_r].
  unfold congratulation_date.
  destruct (Z.eqb_spec (weekday occ) 5) as [E5|N5].
  { unfold lift.
    rewrite (add_days_2 occ Hocc (saturday_has_monday occ Hocc E5)).
    reflexivity. }
  destruct (Z.eqb_spec (weekday occ) 6) as [E6|N6].
  { unfold lift.
    rewrite (add_days_1 occ Hocc (sunday_has_monday occ Hocc E6)).
    reflexivity. }
  reflexivity.
Qed.

Lemma for_each_upcoming_expected (today : date) (w : World) (l : list ref) :
  (forall a b, a ∈ l -> birthday (heap w a) = Some b ->
     exists bd, strptime (value b) = Return bd /\ replaceable today bd) ->
  forall acc,
    for_each (upcoming_body today) l acc w
    = (Return (acc ++ omap (fun a => expected_item today (heap w a)) l), w).
Proof.
  induction l as [|a l IH]; intros Hl acc; simpl.
  - unfold ret. by rewrite app_nil_r.
  - unfold bind. rewrite upcoming_body_expected.
    2: { intros b Hb. apply (Hl a b); [left|exact Hb]. }
    rewrite IH.
    2: { intros x b Hx Hb. apply (Hl x b); [by right|exact Hb]. }
    destruct (expected_item today (heap w a)); simpl.
    + by rewrite <- app_assoc.
    + by rewrite app_nil_r.
Qed.

(** C1 (as the code has it).  When the calendar has, for every birthday
    the book stores, its month and day in the current year and its next
    occurrence, [get_upcoming_birthdays] returns, in the order of the
    book, one item for each record with a birthday whose next occurrence
    is at most seven days after today: the name, and the occurrence in
    the form DD.MM.YYYY, moved two days on from a Saturday and one day on
    from a Sunday.  The store is left as it was. *)
Theorem get_upcoming_birthdays_expected (today : date) (w : World) :
  (forall a b, a ∈ dict_values (data w) -> birthday (heap w a) = Some b ->
     exists bd, strptime (value b) = Return bd /\ replaceable today bd) ->
  AddressBook_get_upcoming_birthdays today w
  = (Return (expected_upcoming today w), w).
Proof.
  intros H. unfold AddressBook_get_upcoming_birthdays, bind, get_data.
  by rewrite (for_each_upcoming_expected today w _ H).
Qed.

(** *** A birthday on 29 February *)

(** The errors of a date construction. *)
Lemma new_outcome (y m d : Z) :
  1 <= m <= 12 ->
  (new y m d = Return (mkdate y m d) /\ valid_ymd y m d = true)
  \/ (new y m d = Raise (ValueError (year_is_out_of_range y))
      /\ ~ 1 <= y <= 9999)
  \/ new y m d = Raise (ValueError day_is_out_of_range_for_month).
Proof.
  intros Hm. unfold new, MINYEAR, MAXYEAR.
  destruct ((1 <=? y) && (y <=? 9999)) eqn:E1; simpl.
  2: { right. left. split; [reflexivity|]. intros [H1 H2].
       apply Z.leb_le in H1, H2. rewrite H1, H2 in E1. discriminate. }
  replace ((1 <=? m) && (m <=? 12)) with true
    by (symmetry; apply andb_true_iff; split; apply Z.leb_le; lia).
  simpl.
  destruct ((1 <=? d) && (d <=? days_in_month y m)) eqn:E3; simpl.
  2: { right. by right. }
  left. split; [reflexivity|].
  apply andb_true_iff in E1 as [H1 H2]. apply andb_true_iff in E3 as [H5 H6].
  apply Z.leb_le in H1, H2, H5, H6. apply valid_ymd_intro; lia.
Qed.

(** The end of a turn of the loop, for an occurrence [occ] the calendar
    has. *)
Ltac window_tail occ Hocc :=
  match goal with
  | |- context [if ?c then _ else ret _] => destruct c
  end; [|left; by eexists];
  destruct (Z.eqb_spec (weekday occ) 5) as [E5|N5];
  [rewrite (add_days_2 occ Hocc (saturday_has_monday occ Hocc E5));
   left; by eexists|];
  destruct (Z.eqb_spec (weekday occ) 6) as [E6|N6];
  [rewrite (add_days_1 occ Hocc (sunday_has_monday occ Hocc E6));
   left; by eexists|];
  left; by eexists.

(** One turn of the loop returns or raises a [ValueError], and leaves
    the store; the error on a birthday that parses comes from the
    construction of a date. *)
Lemma upcoming_body_outcome (today : date) (w : World) (a : ref)
  (acc : list upcoming_item) :
  valid today = true ->
  (exists acc', upcoming_body today a acc w = (Return acc', w))
  \/ (exists msg,
        upcoming_body today a acc w = (Raise (ValueError msg), w)
        /\ ((forall b, birthday (heap w a) = Some b ->
               exists bd, strptime (value b) = Return bd) ->
            msg = day_is_out_of_range_for_month
            \/ msg = year_is_out_of_range (year today + 1))).
Proof.
  intros Htoday.
  apply valid_ymd_bounds in Htoday as (Hy & _ & _).
  unfold upcoming_body, bind, getattr.
  destruct (birthday (heap w a)) as [b|] eqn:Eb; [|left; by eexists].
  unfold lift. destruct (strptime (value b)) as [bd|e] eqn:Es.
  2: { destruct (strptime_raises_ValueError _ _ Es) as [msg ->].
       right. exists msg. split; [reflexivity|].
       intros Hp. destruct (Hp b eq_refl) as [bd Hbd]. congruence. }
  pose proof (strptime_valid _ _ Es) as Hbd.
  apply valid_ymd_bounds in Hbd as (_ & Hm & _).
  unfold replace_year.
  destruct (new_outcome (year today) (month bd) (day bd) Hm)
    as [[-> Hv]|[[_ Hbad]| ->]]; [|lia|right; eexists; split; [reflexivity|auto]].
  assert (Hv0 : valid (mkdate (year today) (month bd) (day bd)) = true)
    by exact Hv.
  cbv beta iota.
  destruct (lt _ today).
  2: { unfold ret at 1. cbv beta iota.
       window_tail (mkdate (year today) (month bd) (day bd)) Hv0. }
  destruct (new_outcome (year today + 1) (month bd) (day bd) Hm)
    as [[-> Hv']|[[-> _]| ->]]; cbv beta iota.
  - assert (Hv1 : valid (mkdate (year today + 1) (month bd) (day bd)) = true)
      by exact Hv'.
    window_tail (mkdate (year today + 1) (month bd) (day bd)) Hv1.
  - right. eexists. split; [reflexivity|]. by right.
  - right. eexists. split; [reflexivity|]. by left.
Qed.

(** The year after a leap year is not a leap year. *)
Lemma is_leap_succ (y : Z) : is_leap y = true -> is_leap (y + 1) = false.
Proof.
  unfold is_leap. intros H. apply andb_true_iff in H as [H _].
  apply Z.eqb_eq in H.
  replace ((y + 1) mod 4 =? 0) with false; [reflexivity|].
  symmetry. apply Z.eqb_neq. Z.div_mod_to_equations. lia.
Qed.

Lemma february_29 (y : Z) :
  is_leap y = false -> days_in_month y 2 = 28.
Proof. unfold days_in_month. by intros ->. Qed.

Lemma upcoming_body_feb29 (today : date) (w : World) (a : ref)
  (acc : list upcoming_item) (b : Field) (bd : date) :
  valid today = true ->
  birthday (heap w a) = Some b -> strptime (value b) = Return bd ->
  month bd = 2 -> day bd = 29 ->
  feb29_year_not_leap today ->
  exists msg,
    upcoming_body today a acc w = (Raise (ValueError msg), w)
    /\ (msg = day_is_out_of_range_for_month
        \/ msg = year_is_out_of_range (year today + 1)).
Proof.
  intros Htoday Eb Es Em Ed Htarget.
  apply valid_ymd_bounds in Htoday as (Hy & _ & _).
  unfold upcoming_body, bind, getattr. rewrite Eb. unfold lift. rewrite Es.
  unfold replace_year. rewrite Em, Ed.
  destruct (new_outcome (year today) 2 29 ltac:(lia))
    as [[-> Hv]|[[_ Hbad]| ->]]; [|lia|eexists; split; [reflexivity|by left]].
  apply valid_ymd_bounds in Hv as (_ & _ & Hd).
  destruct (is_leap (year today)) eqn:El.
  2: { rewrite (february_29 _ El) in Hd. lia. }
  destruct Htarget as [Htarget|Htarget]; [congruence|].
  cbv beta iota. rewrite Htarget.
  destruct (new_outcome (year today + 1) 2 29 ltac:(lia))
    as [[_ Hv]|[[-> _]| ->]].
  - apply valid_ymd_bounds in Hv as (_ & _ & Hd').
    rewrite (february_29 _ (is_leap_succ _ El)) in Hd'. lia.
  - eexists. split; [reflexivity|by right].
  - eexists. split; [reflexivity|by left].
Qed.

Lemma for_each_feb29 (today : date) (w : World) (a : ref) (b : Field)
  (bd : date) (l : list ref) :
  valid today = true ->
  birthday (heap w a) = Some b -> strptime (value b) = Return bd ->
  month bd = 2 -> day bd = 29 ->
  feb29_year_not_leap today ->
  a ∈ l ->
  forall acc,
  exists msg,
    for_each (upcoming_body today) l acc w = (Raise (ValueError msg), w)
    /\ ((forall x c, x ∈ l -> birthday (heap w x) = Some c ->
           exists d, strptime (value c) = Return d) ->
        msg = day_is_out_of_range_for_month
        \/ msg = year_is_out_of_range (year today + 1)).
Proof.
  intros Htoday Eb Es Em Ed Htarget.
  induction l as [|x l IH]; intros Hin acc.
  { by apply elem_of_nil in Hin. }
  simpl. unfold bind.
  destruct (decide (x = a)) as [->|Hne].
  { destruct (upcoming_body_feb29 today w a acc b bd
                Htoday Eb Es Em Ed Htarget) as (msg & -> & Hmsg).
    exists msg. by split. }
  apply elem_of_cons in Hin as [->|Hin]; [done|].
  destruct (upcoming_body_outcome today w x acc Htoday)
    as [[acc' ->]|(msg & -> & Hmsg)].
  - destruct (IH Hin acc') as (msg & -> & Hmsg).
    exists msg. split; [reflexivity|].
    intros Hp. apply Hmsg. intros y c Hy. apply Hp. by right.
  - exists msg. split; [reflexivity|].
    intros Hp. apply Hmsg. intros c. apply Hp. left.
Qed.

(** C4.  When the book holds a record whose birthday is a 29 February and
    the year for which its date is built (the current year, or the next
    one when 29 February of the current year is before today) is not a
    leap year, [get_upcoming_birthdays] raises a [ValueError] instead of
    returning; in a book whose birthdays all parse it is the error of the
    construction of a date, "day is out of range for month" (or "year
    10000 is out of range"). *)
Theorem get_upcoming_birthdays_feb29_raises (today : date) (w : World)
  (a : ref) (b : Field) (bd : date) :
  valid today = true ->
  a ∈ dict_values (data w) ->
  birthday (heap w a) = Some b -> strptime (value b) = Return bd ->
  month bd = 2 -> day bd = 29 ->
  feb29_year_not_leap today ->
  exists msg,
    AddressBook_get_upcoming_birthdays today w = (Raise (ValueError msg), w)
    /\ (birthdays_parse w ->
        msg = day_is_out_of_range_for_month
        \/ msg = year_is_out_of_range (year today + 1)).
Proof.
  intros Htoday Hin Eb Es Em Ed Htarget.
  unfold AddressBook_get_upcoming_birthdays, bind, get_data.
  destruct (for_each_feb29 today w a b bd (dict_values (data w))
              Htoday Eb Es Em Ed Htarget Hin []) as (msg & -> & Hmsg).
  exists msg. split; [reflexivity|]. exact Hmsg.
Qed.

(** ** White space at the ends of a string *)

Lemma lstrip_head (s : pystr) (c : N) :
  head (lstrip s) = Some c -> isspace_cp c = false.
Proof.
  induction s as [|x s IH]; simpl; [discriminate|].
  destruct (isspace_cp x) eqn:Ex; [exact IH|].
  simpl. by intros [= <-].
Qed.

Lemma lstrip_suffix (s : pystr) :
  exists p, s = p ++ lstrip s /\ Forall (fun c => isspace_cp c = true) p.
Proof.
  induction s as [|x s (p & Hs & Hp)]; simpl.
  - by exists [].
  - destruct (isspace_cp x) eqn:Ex.
    + exists (x :: p). split; [simpl; by f_equal|by constructor].
    + by exists [].
Qed.

Lemma lstrip_id (s : pystr) :
  (forall c, head s = Some c -> isspace_cp c = false) -> lstrip s = s.
Proof.
  destruct s as [|x s]; [reflexivity|]. simpl. intros H.
  by rewrite (H x eq_refl).
Qed.

Lemma rev_reverse {A : Type} (l : list A) : rev l = reverse l.
Proof. unfold reverse. apply rev_alt. Qed.

Lemma rstrip_last (s : pystr) (c : N) :
  last (rstrip s) = Some c -> isspace_cp c = false.
Proof.
  unfold rstrip. rewrite rev_reverse, last_reverse. apply lstrip_head.
Qed.

Lemma rstrip_prefix (s : pystr) :
  exists q, s = rstrip s ++ q /\ Forall (fun c => isspace_cp c = true) q.
Proof.
  unfold rstrip. destruct (lstrip_suffix (rev s)) as (p & Hs & Hp).
  exists (rev p). split.
  - rewrite <- rev_app_distr, <- Hs. by rewrite rev_involutive.
  - rewrite rev_reverse. by apply Forall_reverse.
Qed.

Lemma rstrip_id (s : pystr) :
  (forall c, last s = Some c -> isspace_cp c = false) -> rstrip s = s.
Proof.
  intros H. unfold rstrip. rewrite lstrip_id; [apply rev_involutive|].
  intros c Hc. apply H. by rewrite <- head_reverse, <- rev_reverse.
Qed.

Lemma rstrip_head (s : pystr) (c : N) :
  head (rstrip s) = Some c -> head s = Some c.
Proof.
  destruct (rstrip_prefix s) as (q & Hs & _). intros Hc.
  rewrite Hs. destruct (rstrip s); [discriminate|exact Hc].
Qed.

(** A stripped string has no white space at either end, and stripping it
    again gives it back. *)
Lemma strip_ends (s : pystr) :
  (forall c, head (strip s) = Some c -> isspace_cp c = false)
  /\ (forall c, last (strip s) = Some c -> isspace_cp c = false)
  /\ strip (strip s) = strip s.
Proof.
  assert (H1 : forall c, head (strip s) = Some c -> isspace_cp c = false).
  { intros c Hc. apply rstrip_head in Hc. by apply lstrip_head in Hc. }
  assert (H2 : forall c, last (strip s) = Some c -> isspace_cp c = false).
  { intros c. apply rstrip_last. }
  split; [exact H1|]. split; [exact H2|].
  unfold strip at 1. rewrite (lstrip_id _ H1). by apply rstrip_id.
Qed.

Lemma Name_run_blank (value : pystr) (w : World) :
  strip value = [] ->
  Name value w = (Raise (ValueError Name_cannot_be_empty), w).
Proof.
  intros H. unfold Name.
  rewrite (bool_decide_eq_true_2 _ H). by rewrite orb_true_r.
Qed.

Lemma Name_run_stripped (value : pystr) (w : World) :
  strip value <> [] -> Name value w = (Return (mkField (strip value)), w).
Proof.
  intros H. unfold Name.
  rewrite (bool_decide_eq_false_2 _ H).
  destruct value as [|c v]; [done|reflexivity].
Qed.

(** X1.  [Name(value)] raises the [ValueError] "Name cannot be empty" when
    [value] is empty or made of white space only; otherwise it returns a
    name whose value is [value] stripped, which is not empty, neither
    starts nor ends with white space, and is left as it is by a second
    [strip].  The store is not touched. *)
Theorem Name_is_stripped_value (value : pystr) (w : World) :
  (strip value = [] ->
   Name value w = (Raise (ValueError Name_cannot_be_empty), w))
  /\ (strip value <> [] ->
      Name value w = (Return (mkField (strip value)), w)
      /\ (forall c, head (strip value) = Some c -> isspace_cp c = false)
      /\ (forall c, last (strip value) = Some c -> isspace_cp c = false)
      /\ strip (strip value) = strip value).
Proof.
  split; [apply Name_run_blank|].
  intros H. split; [by apply Name_run_stripped|apply strip_ends].
Qed.

(** X2.  [Record(name)] with a name that is not blank returns a new
    object, different from every existing one, with the stripped name, no
    phone and no birthday; the existing objects and the book are as they
    were.  With a blank name it raises and the store is as it was. *)
Theorem Record_init_new_object (name0 : pystr) (w : World) :
  (strip name0 = [] ->
   Record_init name0 w = (Raise (ValueError Name_cannot_be_empty), w))
  /\ (strip name0 <> [] ->
      exists w',
        Record_init name0 w = (Return (next w), w')
        /\ heap w' (next w) = mkRecord (mkField (strip name0)) [] None
        /\ next w' = S (next w)
        /\ (forall a, (a < next w)%nat -> heap w' a = heap w a)
        /\ data w' = data w).
Proof.
  split.
  - intros H. unfold Record_init, bind. by rewrite (Name_run_blank _ _ H).
  - intros H. eexists. split.
    { unfold Record_init, bind. rewrite (Name_run_stripped _ _ H). reflexivity. }
    simpl. unfold heap_update.
    split; [by case_decide|].
    split; [reflexivity|]. split; [|reflexivity].
    intros a Ha. case_decide; [lia|reflexivity].
Qed.

(** ** More on the [Record] methods *)

(** What a write to the phones of [self] leaves as it was. *)
Lemma with_phones_frame (w : World) (self : ref) (l : list Field) :
  phones (heap (with_phones w self l) self) = l
  /\ name (heap (with_phones w self l) self) = name (heap w self)
  /\ birthday (heap (with_phones w self l) self) = birthday (heap w self)
  /\ (forall a, a <> self -> heap (with_phones w self l) a = heap w a)
  /\ next (with_phones w self l) = next w
  /\ data (with_phones w self l) = data w.
Proof.
  unfold with_phones, heap_update; simpl.
  destruct (decide (self = self)) as [_|]; [simpl|congruence].
  repeat split. intros a Ha. by destruct (decide (a = self)).
Qed.

Lemma add_phone_run_invalid (w : World) (self : ref) (v : pystr) :
  v ∉ phone_values (heap w self) ->
  _validate_phone v = false ->
  Record_add_phone self v w
  = (Raise (ValueError Phone_number_must_contain_exactly_10_digits), w).
Proof.
  intros H Hv. apply list_find_value_None in H.
  unfold Record_add_phone, bind. rewrite find_phone_run, H.
  unfold Phone. rewrite Hv. reflexivity.
Qed.

(** X3.  [add_phone(v)] on a record without a phone of value [v]: when [v]
    fails the validation of [Phone] it raises "Phone number must contain
    exactly 10 digits" and the store is as it was; otherwise it returns,
    the new phone is the last of the list, after the phones the record
    had, and nothing else in the store changes. *)
Theorem add_phone_appends (w : World) (self : ref) (v : pystr) :
  v ∉ phone_values (heap w self) ->
  (_validate_phone v = false ->
   Record_add_phone self v w
   = (Raise (ValueError Phone_number_must_contain_exactly_10_digits), w))
  /\ (_validate_phone v = true ->
      exists w',
        Record_add_phone self v w = (Return tt, w')
        /\ phones (heap w' self) = phones (heap w self) ++ [mkField v]
        /\ name (heap w' self) = name (heap w self)
        /\ birthday (heap w' self) = birthday (heap w self)
        /\ (forall a, a <> self -> heap w' a = heap w a)
        /\ next w' = next w
        /\ data w' = data w).
Proof.
  intros Hin. split; [by apply add_phone_run_invalid|].
  intros Hv. eexists. split; [by apply add_phone_run_new|].
  apply with_phones_frame.
Qed.

Lemma remove_phone_run_absent (w : World) (self : ref) (v : pystr) :
  v ∉ phone_values (heap w self) ->
  Record_remove_phone self v w = (Raise (ValueError (Phone_not_found v)), w).
Proof.
  intros H. apply list_find_value_None in H.
  unfold Record_remove_phone, bind. by rewrite find_phone_run, H.
Qed.

Lemma remove_phone_run_at (w : World) (self : ref) (v : pystr) (i : nat) :
  phone_values (heap w self) !! i = Some v ->
  (forall j, (j < i)%nat -> phone_values (heap w self) !! j <> Some v) ->
  Record_remove_phone self v w
  = (Return tt, with_phones w self (delete i (phones (heap w self)))).
Proof.
  intros Hi Hfirst.
  destruct (list_find_value_first _ _ _ Hi Hfirst) as (p & Hfind & _).
  unfold Record_remove_phone, bind. by rewrite find_phone_run, Hfind.
Qed.

Lemma NoDup_delete_lookup {A : Type} (l : list A) (i : nat) (x : A) :
  NoDup l -> l !! i = Some x ->
  (x ∉ delete i l) /\ forall y, y <> x -> y ∈ delete i l <-> y ∈ l.
Proof.
  intros Hnd Hi.
  pose proof (take_drop_middle l i x Hi) as Hl.
  rewrite delete_take_drop.
  rewrite <- Hl in Hnd.
  apply NoDup_app in Hnd as (_ & Htake & Hdrop).
  apply NoDup_cons in Hdrop as [Hx _].
  split.
  - intros Hin. apply elem_of_app in Hin as [Hin|Hin]; [|done].
    apply (Htake x Hin). left.
  - intros y Hy.
    assert (Hy' : y ∈ l <-> y ∈ take i l ++ x :: drop (S i) l) by (by rewrite Hl).
    rewrite Hy', !elem_of_app, elem_of_cons.
    split; [intros [?|?]; auto|intros [?|[?|?]]; auto; congruence].
Qed.

(** X4.  [remove_phone(v)] on a record without a phone of value [v] raises
    "Phone v not found" and the store is as it was.  When [v] is a value of
    the list, first at position [i], it returns, the phone at [i] is taken
    out, the others keep their order, and nothing else changes; when the
    values of the list were distinct, [v] is no longer one of them and
    every other value still is. *)
Theorem remove_phone_takes_out (w : World) (self : ref) (v : pystr) :
  (v ∉ phone_values (heap w self) ->
   Record_remove_phone self v w = (Raise (ValueError (Phone_not_found v)), w))
  /\ (forall i : nat,
        phone_values (heap w self) !! i = Some v ->
        (forall j, (j < i)%nat -> phone_values (heap w self) !! j <> Some v) ->
        exists w',
          Record_remove_phone self v w = (Return tt, w')
          /\ phones (heap w' self) = delete i (phones (heap w self))
          /\ name (heap w' self) = name (heap w self)
          /\ birthday (heap w' self) = birthday (heap w self)
          /\ (forall a, a <> self -> heap w' a = heap w a)
          /\ data w' = data w
          /\ (NoDup (phone_values (heap w self)) ->
              (v ∉ phone_values (heap w' self))
              /\ forall u, u <> v ->
                   u ∈ phone_values (heap w' self)
                   <-> u ∈ phone_values (heap w self))).
Proof.
  split; [apply remove_phone_run_absent|].
  intros i Hi Hfirst. eexists. split; [by apply remove_phone_run_at|].
  destruct (with_phones_frame w self (delete i (phones (heap w self))))
    as (Hp & Hn & Hb & Ho & _ & Hd).
  split; [exact Hp|]. split; [exact Hn|]. split; [exact Hb|].
  split; [exact Ho|]. split; [exact Hd|].
  intros Hnd. unfold phone_values in *. rewrite Hp, list_fmap_delete.
  by apply NoDup_delete_lookup.
Qed.

Lemma RecordObj_eq (r r' : RecordObj) :
  name r = name r' -> phones r = phones r' -> birthday r = birthday r' ->
  r = r'.
Proof. destruct r, r'. simpl. congruence. Qed.

(** X5.  Adding a phone the record does not have and removing it again
    gives back the record, and the store, that were there. *)
Theorem add_then_remove_phone (w : World) (self : ref) (v : pystr) :
  v ∉ phone_values (heap w self) ->
  _validate_phone v = true ->
  exists w1 w2,
    Record_add_phone self v w = (Return tt, w1)
    /\ Record_remove_phone self v w1 = (Return tt, w2)
    /\ (forall a, heap w2 a = heap w a)
    /\ next w2 = next w
    /\ data w2 = data w.
Proof.
  intros Hin Hv.
  set (l := phones (heap w self)).
  set (w1 := with_phones w self (l ++ [mkField v])).
  destruct (with_phones_frame w self (l ++ [mkField v]))
    as (Hp1 & Hn1 & Hb1 & Ho1 & Hx1 & Hd1). fold w1 in Hp1, Hn1, Hb1, Ho1, Hx1, Hd1.
  assert (Hi : phone_values (heap w1 self) !! length l = Some v).
  { unfold phone_values. rewrite Hp1, fmap_app, lookup_app_r; rewrite length_fmap;
      [|done]. by rewrite Nat.sub_diag. }
  assert (Hfirst : forall j, (j < length l)%nat ->
                     phone_values (heap w1 self) !! j <> Some v).
  { intros j Hj Hjv. unfold phone_values in Hjv.
    rewrite Hp1, fmap_app, lookup_app_l in Hjv by (by rewrite length_fmap).
    apply Hin. eapply list_elem_of_lookup_2. exact Hjv. }
  exists w1, (with_phones w1 self (delete (length l) (phones (heap w1 self)))).
  split; [by apply add_phone_run_new|].
  split; [by apply remove_phone_run_at|].
  destruct (with_phones_frame w1 self (delete (length l) (phones (heap w1 self))))
    as (Hp2 & Hn2 & Hb2 & Ho2 & Hx2 & Hd2).
  split; [|split; congruence].
  intros a. destruct (decide (a = self)) as [->|Ha].
  - assert (Hl : delete (length l) (phones (heap w1 self)) = l).
    { rewrite Hp1, delete_take_drop, take_app_length.
      rewrite drop_ge by (rewrite length_app; simpl; lia). apply app_nil_r. }
    apply RecordObj_eq; [by rewrite Hn2, Hn1|by rewrite Hp2, Hl|by rewrite Hb2, Hb1].
  - by rewrite Ho2, Ho1.
Qed.

(** X6.  [add_birthday(s)] with a text that [strptime] parses returns and
    sets the birthday of the record to the text as it was given, in place
    of the birthday it had; the name and the phones of the record, the
    other records and the book are as they were. *)
Theorem add_birthday_stores_text (w : World) (self : ref) (s : pystr)
  (d : datetime.date) :
  strptime s = Return d ->
  exists w',
    Record_add_birthday self s w = (Return tt, w')
    /\ birthday (heap w' self) = Some (mkField s)
    /\ stored_birthday (heap w' self) = Some d
    /\ name (heap w' self) = name (heap w self)
    /\ phones (heap w' self) = phones (heap w self)
    /\ (forall a, a <> self -> heap w' a = heap w a)
    /\ data w' = data w.
Proof.
  intros Hs. eexists. split.
  { unfold Record_add_birthday, Birthday, bind, try_except_ValueError, lift.
    rewrite Hs. reflexivity. }
  unfold stored_birthday. simpl. unfold heap_update.
  destruct (decide (self = self)) as [_|]; [simpl|congruence].
  rewrite Hs. repeat split. intros a Ha. by destruct (decide (a = self)).
Qed.

(** ** The fields of the objects a program builds *)

Lemma objects_valid_update (w : World) (self : ref) (r : RecordObj) :
  objects_valid w -> fields_valid r ->
  objects_valid (mkWorld (heap_update self r (heap w)) (next w) (data w)).
Proof.
  intros Hw Hr a Ha. simpl in *. unfold heap_update.
  case_decide; [exact Hr|by apply Hw].
Qed.

Lemma Forall_list_insert {A : Type} (P : A -> Prop) (l : list A) (i : nat) (x : A) :
  Forall P l -> P x -> Forall P (<[i := x]> l).
Proof.
  intros Hl Hx. destruct (decide (i < length l)%nat) as [Hi|Hi].
  2: { by rewrite list_insert_ge by lia. }
  rewrite insert_take_drop by exact Hi.
  apply Forall_app. split; [by apply Forall_take|].
  constructor; [exact Hx|by apply Forall_drop].
Qed.

Lemma Record_init_valid (w : World) (n : pystr) :
  objects_valid w -> objects_valid (Record_init n w).2.
Proof.
  intros Hw. destruct (decide (strip n = [])) as [Hn|Hn].
  { unfold Record_init, bind. by rewrite (Name_run_blank _ _ Hn). }
  unfold Record_init, bind. rewrite (Name_run_stripped _ _ Hn). simpl.
  intros a Ha. simpl in *. unfold heap_update.
  case_decide as Hd; [subst a|apply Hw; lia].
  split; [exact Hn|]. split; [apply strip_ends|]. split; [constructor|done].
Qed.

Lemma add_phone_valid (w : World) (self : ref) (p : pystr) :
  (self < next w)%nat -> objects_valid w ->
  objects_valid (Record_add_phone self p w).2.
Proof.
  intros Hself Hw. unfold Record_add_phone, bind. rewrite find_phone_run.
  destruct (list_find _ _); [exact Hw|].
  unfold Phone. destruct (_validate_phone p) eqn:Hp; [|exact Hw].
  apply objects_valid_update; [exact Hw|].
  destruct (Hw self Hself) as (H1 & H2 & H3 & H4).
  split; [exact H1|]. split; [exact H2|]. split; [|exact H4].
  simpl. apply Forall_app. split; [exact H3|]. by constructor.
Qed.

Lemma remove_phone_valid (w : World) (self : ref) (p : pystr) :
  (self < next w)%nat -> objects_valid w ->
  objects_valid (Record_remove_phone self p w).2.
Proof.
  intros Hself Hw. unfold Record_remove_phone, bind. rewrite find_phone_run.
  destruct (list_find _ _) as [[i x]|]; [|exact Hw].
  apply objects_valid_update; [exact Hw|].
  destruct (Hw self Hself) as (H1 & H2 & H3 & H4).
  split; [exact H1|]. split; [exact H2|]. split; [|exact H4].
  simpl. apply Forall_forall. intros q Hq.
  apply (proj1 (Forall_forall _ _) H3).
  eapply elem_of_sublist; [exact Hq|apply sublist_delete].
Qed.

Lemma edit_phone_valid (w : World) (self : ref) (o n : pystr) :
  (self < next w)%nat -> objects_valid w ->
  objects_valid (Record_edit_phone self o n w).2.
Proof.
  intros Hself Hw. unfold Record_edit_phone, bind. rewrite find_phone_run.
  destruct (list_find _ _) as [[i x]|]; [|exact Hw].
  unfold Phone. destruct (_validate_phone n) eqn:Hn; [|exact Hw].
  apply objects_valid_update; [exact Hw|].
  destruct (Hw self Hself) as (H1 & H2 & H3 & H4).
  split; [exact H1|]. split; [exact H2|]. split; [|exact H4].
  simpl. by apply Forall_list_insert.
Qed.

Lemma add_birthday_valid (w : World) (self : ref) (s : pystr) :
  (self < next w)%nat -> objects_valid w ->
  objects_valid (Record_add_birthday self s w).2.
Proof.
  intros Hself Hw.
  unfold Record_add_birthday, Birthday, bind, try_except_ValueError, lift.
  destruct (strptime s) as [d|[msg|]] eqn:Hs; try exact Hw.
  apply objects_valid_update; [exact Hw|].
  destruct (Hw self Hself) as (H1 & H2 & H3 & H4).
  split; [exact H1|]. split; [exact H2|]. split; [exact H3|].
  simpl. intros b [= <-]. by exists d.
Qed.

Lemma exec_valid (w : World) (c : call) :
  on_objects w c -> objects_valid w -> objects_valid (exec c w).
Proof.
  destruct c; simpl; intros Hc Hw.
  - by apply Record_init_valid.
  - by apply add_phone_valid.
  - by apply remove_phone_valid.
  - by apply edit_phone_valid.
  - by apply add_birthday_valid.
  - exact Hw.
  - exact Hw.
  - unfold AddressBook_delete, bind, get_data.
    by destruct (dict_get name0 (data w)).
Qed.

Lemma reachable_objects_valid (w : World) : reachable w -> objects_valid w.
Proof.
  induction 1 as [h|w c Hw IH Hc].
  - intros a Ha. simpl in Ha. lia.
  - by apply exec_valid.
Qed.

(** X7.  In every store a program reaches from an empty book by the calls
    of [Record(...)], the [Record] methods and the book's methods, each
    object has a name that is not empty and has no white space at its
    ends, phones that all pass the validation of [Phone], and, when it has
    one, a birthday that [strptime] parses. *)
Theorem reachable_fields_valid (w : World) (a : ref) :
  reachable w -> (a < next w)%nat ->
  value (name (heap w a)) <> []
  /\ strip (value (name (heap w a))) = value (name (heap w a))
  /\ Forall (fun p => _validate_phone (value p) = true) (phones (heap w a))
  /\ (forall b, birthday (heap w a) = Some b ->
        exists d, strptime (value b) = Return d).
Proof. intros Hw Ha. exact (reachable_objects_valid w Hw a Ha). Qed.

Lemma reachable_birthdays_parse (w : World) : reachable w -> birthdays_parse w.
Proof.
  intros Hw a b Ha Hb.
  destruct (reachable_inv w Hw) as (_ & Hlt & _).
  apply list_elem_of_fmap in Ha as ([k a'] & -> & Hin). simpl in *.
  destruct (reachable_objects_valid w Hw a' (Hlt k a' Hin)) as (_ & _ & _ & H).
  by apply H.
Qed.

(** ** Every outcome of [get_upcoming_birthdays] *)

Lemma replaceable_dec (today bd : date) :
  replaceable today bd \/ ~ replaceable today bd.
Proof.
  unfold replaceable.
  destruct (valid_ymd (year today) (month bd) (day bd));
    destruct (valid (occurrence today bd)); auto;
    right; intros [? ?]; discriminate.
Qed.

Lemma upcoming_body_not_replaceable (today : date) (w : World) (a : ref)
  (acc : list upcoming_item) (b : Field) (bd : date) :
  valid today = true ->
  birthday (heap w a) = Some b -> strptime (value b) = Return bd ->
  ~ replaceable today bd ->
  exists msg,
    upcoming_body today a acc w = (Raise (ValueError msg), w)
    /\ (msg = day_is_out_of_range_for_month
        \/ msg = year_is_out_of_range (year today + 1)).
Proof.
  intros Htoday Eb Es Hnot.
  apply valid_ymd_bounds in Htoday as (Hy & _ & _).
  pose proof (strptime_valid _ _ Es) as Hbd.
  apply valid_ymd_bounds in Hbd as (_ & Hm & _).
  unfold upcoming_body, bind, getattr. rewrite Eb. unfold lift. rewrite Es.
  unfold replace_year.
  destruct (new_outcome (year today) (month bd) (day bd) Hm)
    as [[-> Hv]|[[_ Hbad]| ->]]; [|lia|eexists; split; [reflexivity|by left]].
  cbv beta iota.
  destruct (lt (mkdate (year today) (month bd) (day bd)) today) eqn:Hlt.
  - destruct (new_outcome (year today + 1) (month bd) (day bd) Hm)
      as [[_ Hv']|[[-> _]| ->]].
    + exfalso. apply Hnot. split; [exact Hv|].
      unfold occurrence. cbv zeta. rewrite Hlt. exact Hv'.
    + eexists. split; [reflexivity|by right].
    + eexists. split; [reflexivity|by left].
  - exfalso. apply Hnot. split; [exact Hv|].
    unfold occurrence. cbv zeta. rewrite Hlt. exact Hv.
Qed.

Lemma record_dichotomy (today : date) (w : World) (a : ref) :
  (forall b, birthday (heap w a) = Some b ->
     exists bd, strptime (value b) = Return bd) ->
  (forall b, birthday (heap w a) = Some b ->
     exists bd, strptime (value b) = Return bd /\ replaceable today bd)
  \/ (exists b bd, birthday (heap w a) = Some b
                   /\ strptime (value b) = Return bd
                   /\ ~ replaceable today bd).
Proof.
  intros Hp. destruct (birthday (heap w a)) as [b|]; [|left; discriminate].
  destruct (Hp b eq_refl) as [bd Hbd].
  destruct (replaceable_dec today bd) as [Hr|Hr].
  - left. intros b' [= <-]. by exists bd.
  - right. by exists b, bd.
Qed.

Lemma for_each_upcoming_dichotomy (today : date) (w : World) (l : list ref) :
  valid today = true ->
  (forall a b, a ∈ l -> birthday (heap w a) = Some b ->
     exists bd, strptime (value b) = Return bd) ->
  forall acc,
    ((forall a b, a ∈ l -> birthday (heap w a) = Some b ->
        exists bd, strptime (value b) = Return bd /\ replaceable today bd)
     /\ for_each (upcoming_body today) l acc w
        = (Return (acc ++ omap (fun a => expected_item today (heap w a)) l), w))
    \/ ((exists a b bd,
           a ∈ l /\ birthday (heap w a) = Some b
           /\ strptime (value b) = Return bd /\ ~ replaceable today bd)
        /\ exists msg,
             for_each (upcoming_body today) l acc w = (Raise (ValueError msg), w)
             /\ (msg = day_is_out_of_range_for_month
                 \/ msg = year_is_out_of_range (year today + 1))).
Proof.
  intros Htoday. induction l as [|x l IH]; intros Hp acc.
  { left. split; [intros a b Ha; by apply elem_of_nil in Ha|].
    simpl. unfold ret. by rewrite app_nil_r. }
  destruct (record_dichotomy today w x) as [Hx|(b & bd & Eb & Es & Hnot)].
  { intros b. apply Hp. left. }
  - destruct (IH (fun a b Ha => Hp a b (proj2 (elem_of_cons l a x) (or_intror Ha)))
                (acc ++ option_list (expected_item today (heap w x))))
      as [[Hl Hrun]|[(a & b & bd & Ha & Hrest) (msg & Hrun & Hmsg)]].
    + left. split.
      { intros a b Ha. apply elem_of_cons in Ha as [->|Ha]; [apply Hx|by apply Hl]. }
      simpl. unfold bind. rewrite (upcoming_body_expected today w x acc Hx), Hrun.
      destruct (expected_item today (heap w x)); simpl.
      * by rewrite <- app_assoc.
      * by rewrite app_nil_r.
    + right. split; [exists a, b, bd; split; [by right|exact Hrest]|].
      exists msg. split; [|exact Hmsg].
      simpl. unfold bind. by rewrite (upcoming_body_expected today w x acc Hx), Hrun.
  - right. split; [exists x, b, bd; split; [left|done]|].
    destruct (upcoming_body_not_replaceable today w x acc b bd Htoday Eb Es Hnot)
      as (msg & Hrun & Hmsg).
    exists msg. split; [|exact Hmsg]. simpl. unfold bind. by rewrite Hrun.
Qed.

(** X8.  On a book whose birthdays all parse, and for a valid current
    date, [get_upcoming_birthdays] has two outcomes, and leaves the store
    in both.  When the calendar has the dates built for every birthday, it
    returns the expected list.  Otherwise some birthday has a date the
    calendar has not (a 29 February in a common year, or a date after the
    year 9999), and it raises the [ValueError] of the construction of a
    date.  It raises no other exception. *)
Theorem get_upcoming_birthdays_outcomes (today : date) (w : World) :
  valid today = true ->
  birthdays_parse w ->
  ((forall a b, a ∈ dict_values (data w) -> birthday (heap w a) = Some b ->
      exists bd, strptime (value b) = Return bd /\ replaceable today bd)
   /\ AddressBook_get_upcoming_birthdays today w
      = (Return (expected_upcoming today w), w))
  \/ ((exists a b bd,
         a ∈ dict_values (data w) /\ birthday (heap w a) = Some b
         /\ strptime (value b) = Return bd /\ ~ replaceable today bd)
      /\ exists msg,
           AddressBook_get_upcoming_birthdays today w
           = (Raise (ValueError msg), w)
           /\ (msg = day_is_out_of_range_for_month
               \/ msg = year_is_out_of_range (year today + 1))).
Proof.
  intros Htoday Hp.
  unfold AddressBook_get_upcoming_birthdays, bind, get_data.
  exact (for_each_upcoming_dichotomy today w (dict_values (data w)) Htoday Hp []).
Qed.

(** A book in which no record has a birthday has no upcoming birthday:
    the call returns the empty list, whatever the date. *)
Lemma get_upcoming_birthdays_no_birthday (today : date) (w : World) :
  (forall a, a ∈ dict_values (data w) -> birthday (heap w a) = None) ->
  AddressBook_get_upcoming_birthdays today w = (Return [], w).
Proof.
  intros Hnone.
  unfold AddressBook_get_upcoming_birthdays, bind, get_data.
  rewrite for_each_upcoming_expected.
  2: { intros a b Ha Hb. rewrite (Hnone a Ha) in Hb. discriminate. }
  simpl. f_equal. f_equal.
  induction (dict_values (data w)) as [|a l IH]; [reflexivity|].
  simpl. unfold expected_item at 1, stored_birthday.
  rewrite (Hnone a) by left.
  apply IH. intros x Hx. apply Hnone. by right.
Qed.

Lemma weekday_range (d : date) : 0 <= weekday d <= 6.
Proof. unfold weekday. Z.div_mod_to_equations. lia. Qed.

Lemma congratulation_date_weekday (occ : date) :
  valid occ = true ->
  valid (congratulation_date occ) = true
  /\ 0 <= weekday (congratulation_date occ) <= 4
  /\ toordinal occ <= toordinal (congratulation_date occ) <= toordinal occ + 2.
Proof.
  intros Hv. pose proof (weekday_range occ) as Hr.
  destruct (decide (5 <= weekday occ)) as [Hw|Hw].
  - destruct (congratulation_date_monday occ Hv Hw) as [H0 Hord].
    split; [|lia].
    unfold congratulation_date.
    destruct (Z.eqb_spec (weekday occ) 5) as [E5|N5].
    + pose proof (saturday_has_monday occ Hv E5) as Hs.
      pose proof (toordinal_next_day occ Hv) as E1.
      apply valid_next_day; [apply valid_next_day; [done|lia]|lia].
    + destruct (Z.eqb_spec (weekday occ) 6) as [E6|N6]; [|lia].
      pose proof (sunday_has_monday occ Hv E6) as Hs.
      apply valid_next_day; [done|lia].
  - unfold congratulation_date.
    destruct (Z.eqb_spec (weekday occ) 5) as [E5|N5]; [lia|].
    destruct (Z.eqb_spec (weekday occ) 6) as [E6|N6]; [lia|].
    split; [exact Hv|]. lia.
Qed.

(** X9.  When the calendar has the dates built for every birthday of the
    book, each item [get_upcoming_birthdays] returns carries the name of a
    record of the book and, in the form DD.MM.YYYY, a date of the calendar
    that is a day from Monday to Friday, not before today and at most nine
    days after it. *)
Theorem upcoming_items_on_weekdays (today : date) (w : World) :
  (forall a b, a ∈ dict_values (data w) -> birthday (heap w a) = Some b ->
     exists bd, strptime (value b) = Return bd /\ replaceable today bd) ->
  exists upcoming,
    AddressBook_get_upcoming_birthdays today w = (Return upcoming, w)
    /\ forall item, item ∈ upcoming ->
         exists a c,
           a ∈ dict_values (data w)
           /\ item = mkItem (value (name (heap w a))) (strftime_dmY c)
           /\ valid c = true
           /\ 0 <= weekday c <= 4
           /\ 0 <= sub_days c today <= 9.
Proof.
  intros H. exists (expected_upcoming today w). split.
  { unfold AddressBook_get_upcoming_birthdays, bind, get_data.
    by rewrite (for_each_upcoming_expected today w _ H). }
  intros item Hitem. unfold expected_upcoming in Hitem.
  apply list_elem_of_omap in Hitem as (a & Ha & Hexp).
  unfold expected_item, stored_birthday in Hexp.
  destruct (birthday (heap w a)) as [b|] eqn:Eb; [|discriminate].
  destruct (H a b Ha Eb) as (bd & Es & _ & Hocc).
  rewrite Es in Hexp.
  destruct (in_window today (occurrence today bd)) eqn:Hwin; [|discriminate].
  injection Hexp as <-.
  destruct (congratulation_date_weekday _ Hocc) as (Hv & Hwd & Hord).
  exists a, (congratulation_date (occurrence today bd)).
  split; [exact Ha|]. split; [reflexivity|]. split; [exact Hv|].
  split; [exact Hwd|].
  unfold in_window in Hwin. apply andb_true_iff in Hwin as [H0 H7].
  apply Z.leb_le in H0, H7. unfold sub_days in *. lia.
Qed.

(** ** [AddressBook.find] and [AddressBook.delete] *)

Lemma dict_get_None {V : Type} (k : pystr) (d : list (pystr * V)) :
  dict_get k d = None <-> k ∉ dict_keys d.
Proof.
  unfold dict_keys. induction d as [|[k' v] d IH]; simpl.
  - split; [intros _ H; by apply elem_of_nil in H|done].
  - rewrite not_elem_of_cons. destruct (decide (k' = k)) as [->|Hne].
    + split; [discriminate|intros [? _]; done].
    + rewrite IH. split; [intros ?; split; [congruence|done]|intros [_ ?]; done].
Qed.

Lemma dict_get_Some_NoDup {V : Type} (k : pystr) (v : V) (d : list (pystr * V)) :
  NoDup (dict_keys d) -> (k, v) ∈ d -> dict_get k d = Some v.
Proof.
  unfold dict_keys. induction d as [|[k' v'] d IH]; simpl; intros Hnd Hin.
  - by apply elem_of_nil in Hin.
  - apply NoDup_cons in Hnd as [Hk' Hnd].
    apply elem_of_cons in Hin as [[= -> ->]|Hin].
    + by destruct (decide (k' = k')).
    + destruct (decide (k' = k)) as [->|Hne]; [|by apply IH].
      exfalso. apply Hk'. apply list_elem_of_fmap. by exists (k, v).
Qed.

Lemma dict_get_delitem_ne {V : Type} (k k0 : pystr) (d : list (pystr * V)) :
  k <> k0 -> dict_get k (dict_delitem k0 d) = dict_get k d.
Proof.
  intros Hne. induction d as [|[k' v'] d IH]; simpl; [reflexivity|].
  destruct (decide (k' = k0)) as [->|Hne']; simpl.
  - destruct (decide (k0 = k)); [congruence|reflexivity].
  - destruct (decide (k' = k)); [reflexivity|exact IH].
Qed.

Lemma filter_all {A : Type} (P : A -> Prop) `{!forall x, Decision (P x)}
  (l : list A) :
  (forall x, x ∈ l -> P x) -> filter P l = l.
Proof.
  induction l as [|x l IH]; intros Hall; [reflexivity|].
  rewrite filter_cons_True by (apply Hall; left).
  f_equal. apply IH. intros y Hy. apply Hall. by right.
Qed.

Lemma dict_keys_delitem {V : Type} (k : pystr) (d : list (pystr * V)) :
  NoDup (dict_keys d) ->
  dict_keys (dict_delitem k d) = filter (fun k' => k' <> k) (dict_keys d).
Proof.
  unfold dict_keys. induction d as [|[k' v'] d IH]; simpl; intros Hnd;
    [reflexivity|].
  apply NoDup_cons in Hnd as [Hk' Hnd].
  destruct (decide (k' = k)) as [->|Hne].
  - rewrite filter_cons_False by (intros H; by apply H).
    symmetry. apply filter_all. intros x Hx ->. by apply Hk'.
  - rewrite filter_cons_True by exact Hne.
    simpl. f_equal. by apply IH.
Qed.

Lemma dict_delitem_setitem {V : Type} (k : pystr) (v : V) (d : list (pystr * V)) :
  k ∉ dict_keys d -> dict_delitem k (dict_setitem k v d) = d.
Proof.
  unfold dict_keys. induction d as [|[k' v'] d IH]; simpl; intros Hk.
  - by destruct (decide (k = k)).
  - apply not_elem_of_cons in Hk as [Hne Hk].
    destruct (decide (k' = k)) as [->|_]; [done|]. simpl.
    destruct (decide (k' = k)) as [->|_]; [done|]. f_equal. by apply IH.
Qed.

(** X10.  [find(name)] never raises and leaves the store.  In a store a
    program reaches it returns no record exactly when the name is not a key
    of the book, and a record it returns is an existing object, stored
    under that name, whose name is the name asked for. *)
Theorem find_returns_named_record (w : World) (n : pystr) :
  reachable w ->
  exists r,
    AddressBook_find n w = (Return r, w)
    /\ (r = None <-> n ∉ dict_keys (data w))
    /\ forall a, r = Some a <->
         ((n, a) ∈ data w /\ value (name (heap w a)) = n /\ (a < next w)%nat).
Proof.
  intros Hw. destruct (reachable_inv w Hw) as (Hk & Hlt & Hnd).
  exists (dict_get n (data w)). split; [reflexivity|].
  split; [apply dict_get_None|].
  intros a. split.
  - intros Ha. apply dict_get_elem_of in Ha.
    split; [exact Ha|]. split; [by apply Hk|by eapply Hlt].
  - intros (Ha & _ & _). by apply dict_get_Some_NoDup.
Qed.

Lemma delete_run_absent (w : World) (n : pystr) :
  n ∉ dict_keys (data w) ->
  AddressBook_delete n w = (Raise (ValueError (Record_not_found n)), w).
Proof.
  intros H. apply dict_get_None in H.
  unfold AddressBook_delete, bind, get_data. by rewrite H.
Qed.

Lemma delete_run_present (w : World) (n : pystr) :
  n ∈ dict_keys (data w) ->
  AddressBook_delete n w
  = (Return tt, mkWorld (heap w) (next w) (dict_delitem n (data w))).
Proof.
  intros H. unfold AddressBook_delete, bind, get_data.
  destruct (dict_get n (data w)) eqn:E; [reflexivity|].
  by apply dict_get_None in E.
Qed.

(** X11.  [delete(name)] for a name that is not a key raises "Record name
    not found" and leaves the store.  For a key it returns; afterwards
    [find(name)] gives no record, the other names give the records they
    gave, the remaining keys keep their order, and no record changed. *)
Theorem delete_removes_key (w : World) (n : pystr) :
  NoDup (dict_keys (data w)) ->
  (n ∉ dict_keys (data w) ->
   AddressBook_delete n w = (Raise (ValueError (Record_not_found n)), w))
  /\ (n ∈ dict_keys (data w) ->
      exists w',
        AddressBook_delete n w = (Return tt, w')
        /\ heap w' = heap w /\ next w' = next w
        /\ AddressBook_find n w' = (Return None, w')
        /\ (forall k, k <> n -> dict_get k (data w') = dict_get k (data w))
        /\ dict_keys (data w') = filter (fun k => k <> n) (dict_keys (data w))).
Proof.
  intros Hnd. split; [apply delete_run_absent|].
  intros Hin. eexists. split; [by apply delete_run_present|]. simpl.
  split; [reflexivity|]. split; [reflexivity|].
  assert (Hkeys : dict_keys (dict_delitem n (data w))
                  = filter (fun k => k <> n) (dict_keys (data w)))
    by (by apply dict_keys_delitem).
  split.
  { unfold AddressBook_find, bind, get_data, ret; simpl.
    replace (dict_get n (dict_delitem n (data w))) with (@None ref);
      [reflexivity|].
    symmetry. apply dict_get_None. rewrite Hkeys.
    intros Hn. apply list_elem_of_filter in Hn as [Hn _]. by apply Hn. }
  split; [intros k Hk; by apply dict_get_delitem_ne|exact Hkeys].
Qed.

(** X12.  Storing a record under a name the book does not have and
    deleting that name gives back the store that was there. *)
Theorem add_record_then_delete (w : World) (record : ref) :
  value (name (heap w record)) ∉ dict_keys (data w) ->
  exists w1,
    AddressBook_add_record record w = (Return tt, w1)
    /\ AddressBook_delete (value (name (heap w record))) w1 = (Return tt, w).
Proof.
  intros Hn. eexists. split; [apply add_record_run|].
  rewrite delete_run_present.
  2: { simpl. rewrite dict_keys_setitem. case_decide; [done|].
       apply elem_of_app. right. left. }
  simpl. rewrite dict_delitem_setitem by exact Hn. by destruct w.
Qed.

(** ** The text of a date is parsed back *)

Lemma day_cases (d : Z) :
  1 <= d <= 31 ->
  d = 1 \/ d = 2 \/ d = 3 \/ d = 4 \/ d = 5 \/ d = 6 \/ d = 7 \/ d = 8 \/ d = 9 \/ d = 10 \/
  d = 11 \/ d = 12 \/ d = 13 \/ d = 14 \/ d = 15 \/ d = 16 \/ d = 17 \/ d = 18 \/ d = 19 \/ d = 20 \/
  d = 21 \/ d = 22 \/ d = 23 \/ d = 24 \/ d = 25 \/ d = 26 \/ d = 27 \/ d = 28 \/ d = 29 \/ d = 30 \/ d = 31.
Proof. lia. Qed.

Ltac each_day Hd :=
  apply day_cases in Hd;
  repeat (destruct Hd as [Hd|Hd]); subst.

Lemma decimal_cp_digit (n : Z) : decimal_cp (digit n) = Some (n mod 10).
Proof.
  unfold decimal_cp, digit.
  assert (H : 0 <= n mod 10 < 10) by (apply Z.mod_pos_bound; lia).
  replace (48 + Z.to_N (n mod 10) <? 256)%N with true
    by (symmetry; apply N.ltb_lt; lia).
  replace ((48 <=? 48 + Z.to_N (n mod 10)) && (48 + Z.to_N (n mod 10) <=? 57))%N
    with true
    by (symmetry; apply andb_true_iff; split; apply N.leb_le; lia).
  f_equal. lia.
Qed.

Lemma re_d_digit (n : Z) : re_d (digit n) = true.
Proof. unfold re_d. by rewrite decimal_cp_digit. Qed.

Lemma isspace_cp_digit (n : Z) : isspace_cp (digit n) = false.
Proof.
  unfold digit.
  assert (H : 0 <= n mod 10 < 10) by (apply Z.mod_pos_bound; lia).
  assert (Hc : n mod 10 = 0 \/ n mod 10 = 1 \/ n mod 10 = 2 \/ n mod 10 = 3
               \/ n mod 10 = 4 \/ n mod 10 = 5 \/ n mod 10 = 6 \/ n mod 10 = 7
               \/ n mod 10 = 8 \/ n mod 10 = 9) by lia.
  repeat (destruct Hc as [Hc|Hc]); rewrite Hc; reflexivity.
Qed.

Lemma strip_digits (s : pystr) :
  Forall (fun c => isspace_cp c = false) s -> strip s = s.
Proof.
  intros H. unfold strip. rewrite lstrip_id.
  - apply rstrip_id. intros c Hc.
    apply (proj1 (Forall_forall _ _) H). by eapply last_Some_elem_of.
  - intros c Hc.
    apply (proj1 (Forall_forall _ _) H). by eapply head_Some_elem_of.
Qed.

Lemma int_pad2 (n : Z) : 0 <= n < 100 -> int (pad2 n) = Some n.
Proof.
  intros Hn. unfold int, pad2.
  rewrite strip_digits by (repeat constructor; apply isspace_cp_digit).
  cbn [int_digits]. rewrite !decimal_cp_digit. f_equal.
  Z.div_mod_to_equations. lia.
Qed.

Lemma int_pad4 (n : Z) : 0 <= n < 10000 -> int (pad4 n) = Some n.
Proof.
  intros Hn. unfold int, pad4.
  rewrite strip_digits by (repeat constructor; apply isspace_cp_digit).
  cbn [int_digits]. rewrite !decimal_cp_digit. f_equal.
  Z.div_mod_to_equations. lia.
Qed.

(** The expression of the day takes the two digits first. *)
Lemma re_day_pad2 (d : Z) (rest : pystr) :
  1 <= d <= 31 ->
  exists tl, re_day (pad2 d ++ rest) = (pad2 d, rest) :: tl.
Proof. intros Hd. each_day Hd; eexists; reflexivity. Qed.

Lemma re_month_pad2 (m : Z) (rest : pystr) :
  1 <= m <= 12 ->
  exists tl, re_month (pad2 m ++ rest) = (pad2 m, rest) :: tl.
Proof. intros Hm. each_month Hm; eexists; reflexivity. Qed.

Lemma re_year_pad4 (y : Z) : re_year (pad4 y) = [(pad4 y, [])].
Proof.
  unfold re_year, pad4, seq, one. simpl.
  repeat (rewrite re_d_digit; simpl). reflexivity.
Qed.

Lemma strptime_match_first (s d r1 x1 r2 m r3 x2 r4 y rest : pystr)
  (tl1 tl2 tl3 tl4 tl5 : list (pystr * pystr)) :
  re_day s = (d, r1) :: tl1 ->
  re_dot r1 = (x1, r2) :: tl2 ->
  re_month r2 = (m, r3) :: tl3 ->
  re_dot r3 = (x2, r4) :: tl4 ->
  re_year r4 = (y, rest) :: tl5 ->
  strptime_match s = Some (d, m, y, rest).
Proof.
  intros H1 H2 H3 H4 H5. unfold strptime_match.
  rewrite H1. cbn [flat_map fst snd].
  rewrite H2. cbn [flat_map fst snd].
  rewrite H3. cbn [flat_map fst snd].
  rewrite H4. cbn [flat_map fst snd].
  rewrite H5. reflexivity.
Qed.

Lemma strptime_match_strftime (d : date) :
  1 <= month d <= 12 -> 1 <= day d <= 31 ->
  strptime_match (strftime_dmY d)
  = Some (pad2 (day d), pad2 (month d), pad4 (year d), []).
Proof.
  intros Hm Hd. unfold strftime_dmY.
  destruct (re_day_pad2 (day d) ([46%N] ++ pad2 (month d) ++ [46%N] ++ pad4 (year d)) Hd)
    as [tl1 E1].
  destruct (re_month_pad2 (month d) ([46%N] ++ pad4 (year d)) Hm) as [tl2 E2].
  eapply strptime_match_first;
    [exact E1|reflexivity|exact E2|reflexivity|apply re_year_pad4].
Qed.


(** ** The words of a line: [str.split] and [parse_input] *)

Lemma join_cons (sep x y : pystr) (l : list pystr) :
  join sep (x :: y :: l) = x ++ sep ++ join sep (y :: l).
Proof. reflexivity. Qed.

Lemma rev_not_nil {A : Type} (l : list A) : l <> [] -> rev l <> [].
Proof.
  destruct l as [|x l]; [congruence|]. intros _. simpl.
  destruct (rev l); discriminate.
Qed.

Lemma split_from_acc (cur s : pystr) :
  cur <> [] -> split_from cur s <> [].
Proof.
  revert cur. induction s as [|c s IH]; intros cur Hcur; simpl.
  - destruct cur; [congruence|discriminate].
  - destruct (isspace_cp c).
    + destruct cur; [congruence|discriminate].
    + apply IH. discriminate.
Qed.

Lemma split_from_word (w cur s : pystr) :
  Forall (fun c => isspace_cp c = false) w ->
  split_from cur (w ++ s) = split_from (rev w ++ cur) s.
Proof.
  intros Hw. revert cur. induction Hw as [|c w Hc _ IH]; intros cur; [reflexivity|].
  simpl. rewrite Hc, IH, <- app_assoc. reflexivity.
Qed.

Lemma split_from_words (s cur : pystr) :
  Forall (fun c => isspace_cp c = false) cur ->
  Forall word (split_from cur s).
Proof.
  assert (Hrev : forall l : pystr,
            l <> [] -> Forall (fun c => isspace_cp c = false) l ->
            word (rev l)).
  { intros l Hne Hl. split; [by apply rev_not_nil|].
    rewrite rev_reverse. by apply Forall_reverse. }
  intros Hcur0. revert cur Hcur0. induction s as [|c s IH]; intros cur Hcur; simpl.
  - destruct cur as [|x cur']; [constructor|].
    constructor; [|constructor]. by apply Hrev.
  - destruct (isspace_cp c) eqn:Hc.
    + destruct cur as [|x cur']; [apply IH; constructor|].
      constructor; [by apply Hrev|apply IH; constructor].
    + apply IH. by constructor.
Qed.

Lemma split_from_concat (s cur : pystr) :
  concat (split_from cur s)
  = rev cur ++ filter (fun c => isspace_cp c = false) s.
Proof.
  revert cur. induction s as [|c s IH]; intros cur.
  - simpl. destruct cur; [reflexivity|]. simpl. by rewrite !app_nil_r.
  - cbn [split_from]. unfold pystr. rewrite filter_cons. destruct (isspace_cp c) eqn:Hc.
    + rewrite decide_False by congruence.
      destruct cur as [|x cur'].
      * rewrite IH. reflexivity.
      * cbn [concat]. rewrite IH. reflexivity.
    + rewrite decide_True by reflexivity.
      rewrite IH. simpl. by rewrite <- app_assoc.
Qed.

Lemma split_nil (s : pystr) :
  split s = [] <-> Forall (fun c => isspace_cp c = true) s.
Proof.
  unfold split. induction s as [|c s IH]; simpl.
  - split; [constructor|reflexivity].
  - destruct (isspace_cp c) eqn:Hc.
    + rewrite IH. split; [by constructor|]. by intros [_ H]%Forall_cons.
    + split.
      * intros H. by apply split_from_acc in H.
      * intros [H _]%Forall_cons. congruence.
Qed.

Lemma split_join (ws : list pystr) :
  Forall word ws -> split (join (py " ") ws) = ws.
Proof.
  unfold split. induction 1 as [|w ws [Hne Hw] Hws IH]; [reflexivity|].
  assert (Hrev : rev w <> []) by by apply rev_not_nil.
  destruct ws as [|w2 ws].
  - cbn [join]. rewrite <- (app_nil_r w) at 1.
    rewrite split_from_word by exact Hw. rewrite app_nil_r. simpl.
    destruct (rev w) eqn:E; [congruence|]. rewrite <- E, rev_involutive.
    reflexivity.
  - rewrite join_cons, split_from_word by exact Hw. rewrite app_nil_r.
    change (py " " ++ join (py " ") (w2 :: ws))
      with (32%N :: join (py " ") (w2 :: ws)).
    cbn [split_from]. change (isspace_cp 32) with true. cbv iota.
    rewrite IH. destruct (rev w) eqn:E; [congruence|].
    rewrite <- E, rev_involutive. reflexivity.
Qed.

Lemma word_strip (s : pystr) : word s -> strip s = s.
Proof. intros [_ H]. by apply strip_digits. Qed.


(** X15.  A line made of words with one space between them is parsed into
    these words: the first one, in lower case, is the command, the others
    are the arguments. *)
Theorem parse_input_words (cmd : pystr) (args : list pystr) :
  Forall word (cmd :: args) ->
  parse_input (join (py " ") (cmd :: args)) = Value (Some (lower cmd), args).
Proof.
  intros Hw. pose proof (split_join _ Hw) as Hs.
  unfold parse_input. rewrite Hs.
  rewrite word_strip by (eapply Forall_inv; exact Hw).
  destruct (join (py " ") (cmd :: args)) eqn:E; [|reflexivity].
  discriminate Hs.
Qed.

(** ** The handler of [input_error] *)

Lemma contains_unfold (p s : pystr) :
  contains p s
  = startswith p s || match s with [] => false | _ :: s' => contains p s' end.
Proof. destruct s; reflexivity. Qed.

Lemma startswith_app (p r : pystr) : startswith p (p ++ r) = true.
Proof. induction p as [|a p IH]; [reflexivity|]. simpl. by rewrite N.eqb_refl. Qed.

Lemma startswith_prefix (p s : pystr) :
  startswith p s = true -> exists r, s = p ++ r.
Proof.
  revert s. induction p as [|a p IH]; intros s H; [by exists s|].
  destruct s as [|b s]; [discriminate|]. simpl in H.
  apply andb_true_iff in H as [Hab H]. apply N.eqb_eq in Hab as ->.
  destruct (IH s H) as [r ->]. by exists r.
Qed.

Lemma contains_infix (p s : pystr) :
  contains p s = true <-> exists l r, s = l ++ p ++ r.
Proof.
  split.
  - induction s as [|b s IH]; rewrite contains_unfold; intros H.
    + rewrite orb_false_r in H. apply startswith_prefix in H as [r ->].
      by exists [], r.
    + apply orb_true_iff in H as [H|H].
      * apply startswith_prefix in H as [r ->]. by exists [], r.
      * destruct (IH H) as (l & r & ->). by exists (b :: l), r.
  - intros (l & r & ->). induction l as [|b l IH]; rewrite contains_unfold.
    + simpl. by rewrite startswith_app.
    + simpl. rewrite IH. apply orb_true_r.
Qed.

Lemma spaces_app (s t : pystr) : spaces (s ++ t) = (spaces s + spaces t)%nat.
Proof. unfold spaces, pystr. by rewrite filter_app, length_app. Qed.

Lemma spaces_none (s : pystr) : 32%N ∉ s -> spaces s = 0%nat.
Proof.
  intros H. unfold spaces, pystr. induction s as [|c s IH]; [reflexivity|].
  rewrite not_elem_of_cons in H. destruct H as [Hc Hs].
  rewrite filter_cons, decide_False by congruence. by apply IH.
Qed.

Lemma ValueError_reply_few_spaces (text : pystr) :
  (spaces text < 4)%nat -> ValueError_reply text = text.
Proof.
  intros H. unfold ValueError_reply.
  destruct (contains _ text) eqn:E; [|reflexivity].
  apply contains_infix in E as (l & r & ->).
  rewrite !spaces_app in H.
  change (spaces (py "not enough values to unpack")) with 4%nat in H. lia.
Qed.

Lemma ValueError_reply_phrase (text : pystr) :
  contains unpack_phrase text = true ->
  ValueError_reply text = py "Not enough arguments provided.".
Proof. intros H. unfold ValueError_reply. fold unpack_phrase. by rewrite H. Qed.

Lemma ValueError_reply_unpack (expected got : nat) :
  ValueError_reply (unpack_text expected got)
  = py "Not enough arguments provided.".
Proof.
  apply ValueError_reply_phrase, contains_infix.
  exists [], (py " (expected at least " ++ str_nat expected
              ++ py ", got " ++ str_nat got ++ py ")").
  reflexivity.
Qed.

(** X16.  What the handler makes of a [ValueError].  The error of an
    unpacking with too few values is reported as missing arguments.  An
    error of the classes is reported by its own text when its argument
    has no space, as is every argument that comes from [parse_input].
    But an error that quotes an argument containing the phrase of the
    unpacking error is reported as missing arguments too. *)
Theorem input_error_reports (m : message) (expected got : nat) (v : pystr) :
  ValueError_reply (unpack_text expected got)
  = py "Not enough arguments provided."
  /\ (own_message m -> ValueError_reply (message_text m) = message_text m)
  /\ (contains unpack_phrase v = true ->
      Forall (fun q => ValueError_reply (message_text q)
                       = py "Not enough arguments provided.")
             [Phone_already_exists v; Phone_not_found v]).
Proof.
  split; [apply ValueError_reply_unpack|]. split.
  - destruct m; cbn [own_message message_text]; intros H;
      try contradiction; try reflexivity;
      apply ValueError_reply_few_spaces;
      rewrite !spaces_app, (spaces_none _ H); vm_compute; lia.
  - intros H. apply contains_infix in H as (l & r & ->).
    repeat constructor; apply ValueError_reply_phrase, contains_infix; simpl.
    + exists (py "Phone " ++ l), (r ++ py " already exists").
      by rewrite <- !app_assoc.
    + exists (py "Phone " ++ l), (r ++ py " not found").
      by rewrite <- !app_assoc.
Qed.

(** ** The commands *)

Lemma input_error_Value (func : C pystr) (w w' : World) (text : pystr) :
  func w = (Value text, w') -> input_error func w = (Value text, w').
Proof. intros H. unfold input_error. by rewrite H. Qed.

Lemma input_error_ValueError (func : C pystr) (w w' : World) (m : message) :
  func w = (Error (Core (ValueError m)), w') ->
  input_error func w = (Value (ValueError_reply (message_text m)), w').
Proof. intros H. unfold input_error. by rewrite H. Qed.

Lemma input_error_Unpack (func : C pystr) (w w' : World) (expected got : nat) :
  func w = (Error (Unpack expected got), w') ->
  input_error func w = (Value (py "Not enough arguments provided."), w').
Proof.
  intros H. unfold input_error. by rewrite H, ValueError_reply_unpack.
Qed.

Lemma input_error_IndexError (func : C pystr) (w w' : World) :
  func w = (Error IndexError, w') ->
  input_error func w = (Value (py "Not enough arguments provided."), w').
Proof. intros H. unfold input_error. by rewrite H. Qed.

Lemma input_error_AttributeError (func : C pystr) (w w' : World) :
  func w = (Error AttributeError, w') ->
  input_error func w = (Value (py "Contact not found."), w').
Proof. intros H. unfold input_error. by rewrite H. Qed.

Lemma cbind_find {B : Type} (n : pystr) (k : option ref -> C B) (w : World) :
  cbind (core (AddressBook_find n)) k w = k (dict_get n (data w)) w.
Proof. reflexivity. Qed.

Lemma cbind_core_Return {A B : Type} (m : M A) (k : A -> C B)
  (w w' : World) (a : A) :
  m w = (Return a, w') -> cbind (core m) k w = k a w'.
Proof. intros H. unfold cbind, core. by rewrite H. Qed.

Lemma cbind_core_Raise {A B : Type} (m : M A) (k : A -> C B)
  (w w' : World) (e : exn) :
  m w = (Raise e, w') -> cbind (core m) k w = (Error (Core e), w').
Proof. intros H. unfold cbind, core. by rewrite H. Qed.

(** X17.  A command called with fewer arguments than it unpacks or reads
    ([add] and [add-birthday]: two, [change]: three, [phone] and
    [show-birthday]: one) replies "Not enough arguments provided." and
    leaves the store. *)
Theorem commands_not_enough_arguments (args : list pystr) (w : World) :
  ((length args < 2)%nat ->
   add_contact args w = (Value (py "Not enough arguments provided."), w)
   /\ add_birthday args w = (Value (py "Not enough arguments provided."), w))
  /\ ((length args < 3)%nat ->
      change_contact args w = (Value (py "Not enough arguments provided."), w))
  /\ ((length args < 1)%nat ->
      show_phone args w = (Value (py "Not enough arguments provided."), w)
      /\ show_birthday args w = (Value (py "Not enough arguments provided."), w)).
Proof.
  split; [|split]; intros H.
  - split; destruct args as [|a [|b args]]; simpl in H; try lia;
      by eapply input_error_Unpack.
  - destruct args as [|a [|b [|c args]]]; simpl in H; try lia;
      by eapply input_error_Unpack.
  - split; destruct args as [|a args]; simpl in H; try lia;
      by eapply input_error_IndexError.
Qed.

(** X18.  [change], [phone], [add-birthday] and [show-birthday] with a name
    that is not a key of the book reply "Contact not found." and leave the
    store. *)
Theorem commands_contact_not_found (n a b : pystr) (rest : list pystr)
  (w : World) :
  n ∉ dict_keys (data w) ->
  change_contact (n :: a :: b :: rest) w = (Value (py "Contact not found."), w)
  /\ show_phone (n :: rest) w = (Value (py "Contact not found."), w)
  /\ add_birthday (n :: a :: rest) w = (Value (py "Contact not found."), w)
  /\ show_birthday (n :: rest) w = (Value (py "Contact not found."), w).
Proof.
  intros H. apply dict_get_None in H.
  repeat split; apply input_error_AttributeError.
  - unfold change_contact_func. by rewrite cbind_find, H.
  - unfold show_phone_func. by rewrite cbind_find, H.
  - unfold add_birthday_func. by rewrite cbind_find, H.
  - unfold show_birthday_func. by rewrite cbind_find, H.
Qed.

(** *** [add] *)

Lemma Record_init_run (n : pystr) (w : World) :
  strip n <> [] ->
  Record_init n w
  = (Return (next w),
     mkWorld (heap_update (next w) (mkRecord (mkField (strip n)) [] None) (heap w))
             (S (next w)) (data w)).
Proof.
  intros H. unfold Record_init, bind. by rewrite (Name_run_stripped _ _ H).
Qed.

Lemma heap_update_eq (self : ref) (r : RecordObj) (h : ref -> RecordObj) :
  heap_update self r h self = r.
Proof. unfold heap_update. by rewrite decide_True. Qed.

Lemma heap_update_ne (self a : ref) (r : RecordObj) (h : ref -> RecordObj) :
  a <> self -> heap_update self r h a = h a.
Proof. intros H. unfold heap_update. by rewrite decide_False. Qed.

Lemma validate_phone_not_empty (v : pystr) : _validate_phone v = true -> v <> [].
Proof. by intros H ->. Qed.

Lemma join_not_empty (sep x : pystr) (l : list pystr) :
  x <> [] -> join sep (x :: l) <> [].
Proof.
  intros H. destruct l as [|y l]; [exact H|]. rewrite join_cons.
  destruct x; [congruence|discriminate].
Qed.

(** The store after [Record(n)], [add_record] and, when the phone is
    valid, [add_phone]. *)
Lemma add_contact_new_run (n phone : pystr) (rest : list pystr) (w : World) :
  n ∉ dict_keys (data w) -> strip n <> [] ->
  exists w2,
    heap w2 = heap_update (next w) (mkRecord (mkField (strip n)) [] None) (heap w)
    /\ next w2 = S (next w)
    /\ data w2 = dict_setitem (strip n) (next w) (data w)
    /\ add_contact_func (n :: phone :: rest) w
       = if _validate_phone phone
         then (Value (py "Contact added."),
               with_phones w2 (next w) [mkField phone])
         else (Error (Core (ValueError Phone_number_must_contain_exactly_10_digits)),
               w2).
Proof.
  intros Hn Hs. apply dict_get_None in Hn.
  eexists (mkWorld _ _ _). split; [reflexivity|]. split; [reflexivity|].
  split; [reflexivity|].
  unfold add_contact_func. rewrite cbind_find, Hn.
  rewrite (cbind_core_Return _ _ _ _ _ (Record_init_run n w Hs)).
  rewrite (cbind_core_Return _ _ _ _ _ (add_record_run _ _)).
  cbn [heap next data]. rewrite heap_update_eq. cbn [name value].
  set (w2 := mkWorld _ _ _).
  assert (Hp : phone ∉ phone_values (heap w2 (next w))).
  { unfold w2. cbn [heap]. rewrite heap_update_eq. apply not_elem_of_nil. }
  destruct (_validate_phone phone) eqn:Hv.
  - rewrite (cbind_core_Return _ _ _ _ _ (add_phone_run_new _ _ _ Hp Hv)).
    unfold w2 at 2. cbn [heap]. by rewrite heap_update_eq.
  - by rewrite (cbind_core_Raise _ _ _ _ _ (add_phone_run_invalid _ _ _ Hp Hv)).
Qed.

(** X19.  [add] with a name that is not in the book (and not blank) and a
    valid phone replies "Contact added.": the book then gives, for the
    stripped name, a new record with that name, that one phone and no
    birthday; the other names give the records they gave, the existing
    records are as they were, and [phone] for that name shows the phone. *)
Theorem add_contact_new_name (n phone : pystr) (rest : list pystr) (w : World) :
  n ∉ dict_keys (data w) -> strip n <> [] -> _validate_phone phone = true ->
  exists w',
    add_contact (n :: phone :: rest) w = (Value (py "Contact added."), w')
    /\ dict_get (strip n) (data w') = Some (next w)
    /\ heap w' (next w) = mkRecord (mkField (strip n)) [mkField phone] None
    /\ (forall k, k <> strip n -> dict_get k (data w') = dict_get k (data w))
    /\ (forall a, (a < next w)%nat -> heap w' a = heap w a)
    /\ show_phone [strip n] w' = (Value phone, w').
Proof.
  intros Hn Hs Hv.
  destruct (add_contact_new_run n phone rest w Hn Hs) as (w2 & Hh & Hnx & Hd & Hrun).
  rewrite Hv in Hrun.
  exists (with_phones w2 (next w) [mkField phone]).
  destruct (with_phones_frame w2 (next w) [mkField phone])
    as (Hp & Hnm & Hb & Hf & _ & Hd').
  assert (Hget : dict_get (strip n)
                   (data (with_phones w2 (next w) [mkField phone]))
                 = Some (next w)).
  { rewrite Hd', Hd. apply dict_get_setitem_eq. }
  assert (Hrec : heap (with_phones w2 (next w) [mkField phone]) (next w)
                 = mkRecord (mkField (strip n)) [mkField phone] None).
  { apply RecordObj_eq.
    - by rewrite Hnm, Hh, heap_update_eq.
    - exact Hp.
    - by rewrite Hb, Hh, heap_update_eq. }
  split; [by apply input_error_Value|]. split; [exact Hget|].
  split; [exact Hrec|]. split.
  { intros k Hk. rewrite Hd', Hd. by apply dict_get_setitem_ne. }
  split.
  { intros a Ha. rewrite Hf by lia. rewrite Hh. apply heap_update_ne. lia. }
  apply input_error_Value. unfold show_phone_func.
  rewrite cbind_find, Hget. unfold on_found, cbind, core, getattr, cret.
  rewrite Hrec. cbn [phones fmap list_fmap value join].
  pose proof (validate_phone_not_empty _ Hv). by destruct phone.
Qed.

(** X20.  [add] with a name that is not in the book and a phone that fails
    the validation replies with the text of the validation error, but the
    contact has been created: the book then has a record of that name,
    without phone, and [phone] for that name finds it. *)
Theorem add_contact_invalid_phone_keeps_contact (n phone : pystr)
  (rest : list pystr) (w : World) :
  n ∉ dict_keys (data w) -> strip n <> [] -> _validate_phone phone = false ->
  exists w',
    add_contact (n :: phone :: rest) w
    = (Value (py "Phone number must contain exactly 10 digits"), w')
    /\ dict_get (strip n) (data w') = Some (next w)
    /\ heap w' (next w) = mkRecord (mkField (strip n)) [] None
    /\ strip n ∈ dict_keys (data w')
    /\ show_phone [strip n] w' = (Value (py "No phones available."), w').
Proof.
  intros Hn Hs Hv.
  destruct (add_contact_new_run n phone rest w Hn Hs) as (w2 & Hh & Hnx & Hd & Hrun).
  rewrite Hv in Hrun. exists w2.
  assert (Hget : dict_get (strip n) (data w2) = Some (next w)).
  { rewrite Hd. apply dict_get_setitem_eq. }
  assert (Hrec : heap w2 (next w) = mkRecord (mkField (strip n)) [] None).
  { by rewrite Hh, heap_update_eq. }
  split.
  { unfold add_contact. by rewrite (input_error_ValueError _ _ _ _ Hrun). }
  split; [exact Hget|]. split; [exact Hrec|]. split.
  { apply dec_stable. intros Hk. apply dict_get_None in Hk. congruence. }
  apply input_error_Value. unfold show_phone_func.
  rewrite cbind_find, Hget. unfold on_found, cbind, core, getattr, cret.
  by rewrite Hrec.
Qed.

Lemma add_phone_run_existing (w : World) (self : ref) (v : pystr) :
  v ∈ phone_values (heap w self) ->
  Record_add_phone self v w = (Raise (ValueError (Phone_already_exists v)), w).
Proof.
  intros H. apply list_find_value_Some in H as [x Hx].
  unfold Record_add_phone, bind. by rewrite find_phone_run, Hx.
Qed.

(** X21.  [add] with a name of the book adds the phone to the record the
    book has for it.  A phone the record has is refused with "Phone ...
    already exists", a phone that fails the validation with its error
    text, and the store is as it was; otherwise the reply is "Contact
    updated.", the phone is the last of the record, and nothing else
    changes. *)
Theorem add_contact_existing_name (n phone : pystr) (rest : list pystr)
  (r : ref) (w : World) :
  dict_get n (data w) = Some r ->
  (phone ∈ phone_values (heap w r) ->
   add_contact (n :: phone :: rest) w
   = (Value (ValueError_reply (py "Phone " ++ phone ++ py " already exists")), w))
  /\ ((phone ∉ phone_values (heap w r)) -> _validate_phone phone = false ->
      add_contact (n :: phone :: rest) w
      = (Value (py "Phone number must contain exactly 10 digits"), w))
  /\ ((phone ∉ phone_values (heap w r)) -> _validate_phone phone = true ->
      exists w',
        add_contact (n :: phone :: rest) w = (Value (py "Contact updated."), w')
        /\ phones (heap w' r) = phones (heap w r) ++ [mkField phone]
        /\ name (heap w' r) = name (heap w r)
        /\ birthday (heap w' r) = birthday (heap w r)
        /\ (forall a, a <> r -> heap w' a = heap w a)
        /\ next w' = next w
        /\ data w' = data w).
Proof.
  intros Hr.
  assert (Hf : forall k : option ref -> C pystr,
            cbind (core (AddressBook_find n)) k w = k (Some r) w).
  { intros k. by rewrite cbind_find, Hr. }
  split; [|split].
  - intros Hp. unfold add_contact.
    rewrite (input_error_ValueError _ w w (Phone_already_exists phone)); [reflexivity|].
    unfold add_contact_func. rewrite Hf.
    by rewrite (cbind_core_Raise _ _ _ _ _ (add_phone_run_existing _ _ _ Hp)).
  - intros Hp Hv. unfold add_contact.
    rewrite (input_error_ValueError _ w w Phone_number_must_contain_exactly_10_digits); [reflexivity|].
    unfold add_contact_func. rewrite Hf.
    by rewrite (cbind_core_Raise _ _ _ _ _ (add_phone_run_invalid _ _ _ Hp Hv)).
  - intros Hp Hv. eexists. split.
    { apply input_error_Value. unfold add_contact_func. rewrite Hf.
      by rewrite (cbind_core_Return _ _ _ _ _ (add_phone_run_new _ _ _ Hp Hv)). }
    apply with_phones_frame.
Qed.

(** *** [change] *)

Lemma edit_phone_run_absent (w : World) (self : ref) (old new : pystr) :
  old ∉ phone_values (heap w self) ->
  Record_edit_phone self old new w = (Raise (ValueError (Phone_not_found old)), w).
Proof.
  intros H. apply list_find_value_None in H.
  unfold Record_edit_phone, bind. by rewrite find_phone_run, H.
Qed.

Lemma edit_phone_run_invalid (w : World) (self : ref) (old new : pystr) :
  old ∈ phone_values (heap w self) -> _validate_phone new = false ->
  Record_edit_phone self old new w
  = (Raise (ValueError Phone_number_must_contain_exactly_10_digits), w).
Proof.
  intros H Hv. apply list_find_value_Some in H as [[i p] Hx].
  unfold Record_edit_phone, bind. rewrite find_phone_run, Hx.
  unfold Phone. by rewrite Hv.
Qed.

Lemma edit_phone_run_at (w : World) (self : ref) (old new : pystr) (i : nat) :
  phone_values (heap w self) !! i = Some old ->
  (forall j, (j < i)%nat -> phone_values (heap w self) !! j <> Some old) ->
  _validate_phone new = true ->
  Record_edit_phone self old new w
  = (Return tt, with_phones w self (<[i := mkField new]> (phones (heap w self)))).
Proof.
  intros Hi Hfirst Hv.
  destruct (list_find_value_first _ _ _ Hi Hfirst) as (p & Hfind & Hp).
  unfold Record_edit_phone, bind. rewrite find_phone_run, Hfind.
  unfold Phone. by rewrite Hv.
Qed.

(** X22.  [change] with a name of the book edits the record the book has
    for it.  When the record has no phone of the old value the reply is
    "Phone ... not found"; when it has one but the new phone fails the
    validation, the text of the validation error; in both the store is as
    it was.  Otherwise the reply is "Contact updated." and the first phone
    of the old value is replaced, in its place, by the new one. *)
Theorem change_contact_existing_name (n old new : pystr) (rest : list pystr)
  (r : ref) (w : World) :
  dict_get n (data w) = Some r ->
  ((old ∉ phone_values (heap w r)) ->
   change_contact (n :: old :: new :: rest) w
   = (Value (ValueError_reply (py "Phone " ++ old ++ py " not found")), w))
  /\ (old ∈ phone_values (heap w r) -> _validate_phone new = false ->
      change_contact (n :: old :: new :: rest) w
      = (Value (py "Phone number must contain exactly 10 digits"), w))
  /\ (forall i : nat,
        phone_values (heap w r) !! i = Some old ->
        (forall j, (j < i)%nat -> phone_values (heap w r) !! j <> Some old) ->
        _validate_phone new = true ->
        exists w',
          change_contact (n :: old :: new :: rest) w
          = (Value (py "Contact updated."), w')
          /\ phones (heap w' r) = <[i := mkField new]> (phones (heap w r))
          /\ name (heap w' r) = name (heap w r)
          /\ birthday (heap w' r) = birthday (heap w r)
          /\ (forall a, a <> r -> heap w' a = heap w a)
          /\ next w' = next w
          /\ data w' = data w).
Proof.
  intros Hr. split; [|split].
  - intros Hp. unfold change_contact.
    rewrite (input_error_ValueError _ w w (Phone_not_found old)); [reflexivity|].
    unfold change_contact_func. rewrite cbind_find, Hr. unfold on_found.
    by rewrite (cbind_core_Raise _ _ _ _ _ (edit_phone_run_absent _ _ _ _ Hp)).
  - intros Hp Hv. unfold change_contact.
    rewrite (input_error_ValueError _ w w Phone_number_must_contain_exactly_10_digits); [reflexivity|].
    unfold change_contact_func. rewrite cbind_find, Hr. unfold on_found.
    by rewrite (cbind_core_Raise _ _ _ _ _ (edit_phone_run_invalid _ _ _ _ Hp Hv)).
  - intros i Hi Hfirst Hv. eexists. split.
    { apply input_error_Value. unfold change_contact_func.
      rewrite cbind_find, Hr. unfold on_found.
      by rewrite (cbind_core_Return _ _ _ _ _
                    (edit_phone_run_at _ _ _ _ _ Hi Hfirst Hv)). }
    apply with_phones_frame.
Qed.

(** *** [phone] *)

(** X23.  [phone] with a name of the book, for a record whose phones
    passed the validation, replies "No phones available." when the record
    has no phone and otherwise the values of its phones, in their order,
    with "; " between them; it leaves the store. *)
Theorem show_phone_lists_phones (n : pystr) (rest : list pystr) (r : ref)
  (w : World) :
  dict_get n (data w) = Some r ->
  Forall (fun p => _validate_phone (value p) = true) (phones (heap w r)) ->
  show_phone (n :: rest) w
  = (Value (match phones (heap w r) with
            | [] => py "No phones available."
            | _ => join (py "; ") (phone_values (heap w r))
            end), w).
Proof.
  intros Hr Hv. apply input_error_Value. unfold show_phone_func.
  rewrite cbind_find, Hr. unfold on_found, cbind, core, getattr, cret.
  unfold phone_values. destruct (phones (heap w r)) as [|p ps]; [reflexivity|].
  apply Forall_inv in Hv. apply validate_phone_not_empty in Hv.
  rewrite fmap_cons.
  pose proof (join_not_empty (py "; ") (value p) (value <$> ps) Hv) as Hj.
  by destruct (join (py "; ") (value p :: (value <$> ps))).
Qed.

(** *** [add-birthday] and [show-birthday] *)

Lemma add_birthday_run_parsed (w : World) (self : ref) (s : pystr)
  (d : datetime.date) :
  strptime s = Return d ->
  Record_add_birthday self s w
  = (Return tt,
     mkWorld (heap_update self
                (mkRecord (name (heap w self)) (phones (heap w self))
                          (Some (mkField s))) (heap w))
             (next w) (data w)).
Proof.
  intros Hs.
  unfold Record_add_birthday, Birthday, bind, try_except_ValueError, lift.
  by rewrite Hs.
Qed.

Lemma add_birthday_run_unparsed (w : World) (self : ref) (s : pystr) (e : exn) :
  strptime s = Raise e ->
  Record_add_birthday self s w = (Raise (ValueError Invalid_date_format), w).
Proof.
  intros Hs.
  unfold Record_add_birthday, Birthday, bind, try_except_ValueError, lift.
  rewrite Hs. by destruct (strptime_raises_ValueError _ _ Hs) as [msg ->].
Qed.

Lemma show_birthday_run (n : pystr) (rest : list pystr) (r : ref) (w : World) :
  dict_get n (data w) = Some r ->
  show_birthday (n :: rest) w
  = (Value (match birthday (heap w r) with
            | None => py "No birthday set for '" ++ n ++ py "'."
            | Some b => n ++ py "'s birthday: " ++ value b
            end), w).
Proof.
  intros Hr. apply input_error_Value. unfold show_birthday_func.
  rewrite cbind_find, Hr. unfold on_found, cbind, core, getattr, cret.
  by destruct (birthday (heap w r)).
Qed.

(** X24.  [add-birthday] with a name of the book and a text [strptime]
    parses replies "Birthday added."; [show-birthday] for that name then
    shows the text as it was given, and the book and the names and phones
    of the records are as they were.  A text [strptime] does not parse is
    refused with "Invalid date format. Use DD.MM.YYYY", and the store is
    as it was.  For a record without birthday [show-birthday] says that
    none is set. *)
Theorem add_birthday_then_show_birthday (n s : pystr) (rest rest' : list pystr)
  (r : ref) (w : World) :
  dict_get n (data w) = Some r ->
  (forall d, strptime s = Return d ->
     exists w',
       add_birthday (n :: s :: rest) w = (Value (py "Birthday added."), w')
       /\ show_birthday (n :: rest') w'
          = (Value (n ++ py "'s birthday: " ++ s), w')
       /\ data w' = data w
       /\ (forall a, name (heap w' a) = name (heap w a)
                     /\ phones (heap w' a) = phones (heap w a)))
  /\ (forall e, strptime s = Raise e ->
        add_birthday (n :: s :: rest) w
        = (Value (py "Invalid date format. Use DD.MM.YYYY"), w))
  /\ (birthday (heap w r) = None ->
      show_birthday (n :: rest') w
      = (Value (py "No birthday set for '" ++ n ++ py "'."), w)).
Proof.
  intros Hr. split; [|split].
  - intros d Hs. eexists. split.
    { apply input_error_Value. unfold add_birthday_func.
      rewrite cbind_find, Hr. unfold on_found.
      by rewrite (cbind_core_Return _ _ _ _ _ (add_birthday_run_parsed _ _ _ _ Hs)). }
    split.
    { rewrite (show_birthday_run n rest' r) by exact Hr.
      cbn [heap]. by rewrite heap_update_eq. }
    split; [reflexivity|].
    intros a. cbn [heap]. destruct (decide (a = r)) as [->|Ha].
    + by rewrite heap_update_eq.
    + by rewrite heap_update_ne.
  - intros e Hs. unfold add_birthday.
    rewrite (input_error_ValueError _ w w Invalid_date_format); [reflexivity|].
    unfold add_birthday_func. rewrite cbind_find, Hr. unfold on_found.
    by rewrite (cbind_core_Raise _ _ _ _ _ (add_birthday_run_unparsed _ _ _ _ Hs)).
  - intros Hb. rewrite (show_birthday_run n rest' r) by exact Hr. by rewrite Hb.
Qed.

(** *** [all] and [birthdays] *)

Lemma Record_str_run (self : ref) (w : World) :
  Record_str self w = (Return (Record_text (heap w self)), w).
Proof.
  unfold Record_str, Record_text, bind, getattr, ret, phone_values.
  destruct (birthday (heap w self)); by rewrite <- ?app_assoc.
Qed.

Lemma for_each_Record_str (w : World) (l : list ref) (result : list pystr) :
  for_each (fun record result =>
              s <- Record_str record ;; ret (result ++ [s])) l result w
  = (Return (result ++ map (fun a => Record_text (heap w a)) l), w).
Proof.
  revert result. induction l as [|a l IH]; intros result.
  - simpl. unfold ret. by rewrite app_nil_r.
  - cbn [for_each]. unfold bind at 1. unfold bind at 1.
    rewrite Record_str_run. unfold ret at 1. rewrite IH.
    by rewrite <- app_assoc.
Qed.

Lemma show_all_run (w : World) :
  show_all w
  = (Value (match data w with
            | [] => py "Address book is empty"
            | _ => join nl (map (fun a => Record_text (heap w a))
                                (dict_values (data w)))
            end), w).
Proof.
  apply input_error_Value. unfold core, AddressBook_str, bind, get_data.
  destruct (data w) as [|kv d] eqn:E; [reflexivity|].
  by rewrite for_each_Record_str.
Qed.

(** X25.  [all] replies "Address book is empty" for an empty book and
    otherwise one line for each record of the book, in the order of the
    book: the name, the phones with "; " between them and, when the record
    has one, the birthday.  It leaves the store. *)
Theorem show_all_lines (w : World) :
  show_all w
  = (Value (match data w with
            | [] => py "Address book is empty"
            | _ => join nl (map (fun a => Record_text (heap w a))
                                (dict_values (data w)))
            end), w).
Proof. exact (show_all_run w). Qed.

Lemma birthdays_func_Return (today : date) (args : list pystr) (w : World)
  (upcoming : list upcoming_item) :
  AddressBook_get_upcoming_birthdays today w = (Return upcoming, w) ->
  birthdays today args w
  = (Value (match upcoming with
            | [] => py "No upcoming birthdays in the next 7 days."
            | _ => join nl (py "Upcoming birthdays:" :: map item_text upcoming)
            end), w).
Proof.
  intros H. apply input_error_Value. unfold birthdays_func.
  rewrite (cbind_core_Return _ _ _ _ _ H). by destruct upcoming.
Qed.

(** X26.  [birthdays], on a book whose birthdays all parse and for a valid
    current date, leaves the store and has two replies.  When the calendar
    has the dates built for every birthday: "No upcoming birthdays in the
    next 7 days." if no record is due, and otherwise the heading and one
    line "name: date" for each record that is due, in the order of the
    book.  Otherwise, for a birthday on 29 February in a common year or a
    date after the year 9999, what the handler makes of the text of the
    library's [ValueError]: nothing is listed, also not the records that
    are due. *)
Theorem birthdays_reply (today : date) (args : list pystr) (w : World) :
  valid today = true ->
  birthdays_parse w ->
  ((forall a b, a ∈ dict_values (data w) -> birthday (heap w a) = Some b ->
      exists bd, strptime (value b) = Return bd /\ replaceable today bd)
   /\ birthdays today args w
      = (Value (match expected_upcoming today w with
                | [] => py "No upcoming birthdays in the next 7 days."
                | _ => join nl (py "Upcoming birthdays:"
                                :: map item_text (expected_upcoming today w))
                end), w))
  \/ ((exists a b bd,
         a ∈ dict_values (data w) /\ birthday (heap w a) = Some b
         /\ strptime (value b) = Return bd /\ ~ replaceable today bd)
      /\ exists msg,
           birthdays today args w
           = (Value (ValueError_reply (library_text msg)), w)
           /\ (msg = day_is_out_of_range_for_month
               \/ msg = year_is_out_of_range (year today + 1))).
Proof.
  intros Htoday Hparse.
  destruct (for_each_upcoming_dichotomy today w (dict_values (data w))
              Htoday Hparse [])
    as [[Hall Hrun]|[Hbad (msg & Hrun & Hmsg)]].
  - left. split; [exact Hall|].
    assert (Hrun' : AddressBook_get_upcoming_birthdays today w
                    = (Return (expected_upcoming today w), w)) by exact Hrun.
    by apply birthdays_func_Return.
  - right. split; [exact Hbad|]. exists msg. split; [|exact Hmsg].
    assert (Hrun' : AddressBook_get_upcoming_birthdays today w
                    = (Raise (ValueError msg), w)) by exact Hrun.
    unfold birthdays. rewrite (input_error_ValueError _ w w msg).
    + by destruct Hmsg as [-> | ->].
    + unfold birthdays_func.
      by rewrite (cbind_core_Raise _ _ _ _ _ Hrun').
Qed.

(** ** No exception leaves a command *)

Lemma upcoming_body_ValueError (today : date) (w : World) (a : ref)
  (acc : list upcoming_item) :
  (exists acc', upcoming_body today a acc w = (Return acc', w))
  \/ (exists msg, upcoming_body today a acc w = (Raise (ValueError msg), w)).
Proof.
  unfold upcoming_body, bind, getattr.
  destruct (birthday (heap w a)) as [b|] eqn:Eb; [|left; by eexists].
  unfold lift. destruct (strptime (value b)) as [bd|e] eqn:Es.
  2: { destruct (strptime_raises_ValueError _ _ Es) as [msg ->].
       right. by exists msg. }
  pose proof (strptime_valid _ _ Es) as Hbd.
  apply valid_ymd_bounds in Hbd as (_ & Hm & _).
  unfold replace_year.
  destruct (new_outcome (year today) (month bd) (day bd) Hm)
    as [[-> Hv]|[[-> _]| ->]]; [|right; by eexists|right; by eexists].
  assert (Hv0 : valid (mkdate (year today) (month bd) (day bd)) = true)
    by exact Hv.
  cbv beta iota.
  destruct (lt _ today).
  2: { unfold ret at 1. cbv beta iota.
       window_tail (mkdate (year today) (month bd) (day bd)) Hv0. }
  destruct (new_outcome (year today + 1) (month bd) (day bd) Hm)
    as [[-> Hv']|[[-> _]| ->]]; cbv beta iota.
  - assert (Hv1 : valid (mkdate (year today + 1) (month bd) (day bd)) = true)
      by exact Hv'.
    window_tail (mkdate (year today + 1) (month bd) (day bd)) Hv1.
  - right. by eexists.
  - right. by eexists.
Qed.

Lemma get_upcoming_birthdays_ValueError (today : date) (w : World) :
  (exists upcoming,
     AddressBook_get_upcoming_birthdays today w = (Return upcoming, w))
  \/ (exists msg,
        AddressBook_get_upcoming_birthdays today w = (Raise (ValueError msg), w)).
Proof.
  unfold AddressBook_get_upcoming_birthdays, bind, get_data.
  generalize (@nil upcoming_item) as acc.
  induction (dict_values (data w)) as [|a l IH]; intros acc.
  - left. by eexists.
  - cbn [for_each]. unfold bind.
    destruct (upcoming_body_ValueError today w a acc) as [[acc' H]|[msg H]];
      rewrite H.
    + apply IH.
    + right. by eexists.
Qed.

Lemma Record_init_ValueError (n : pystr) (w w' : World) (e : exn) :
  Record_init n w = (Raise e, w') -> exists msg, e = ValueError msg.
Proof.
  unfold Record_init, bind, Name, raise, ret, alloc.
  destruct (_ || _); intros H; simplify_eq. by eexists.
Qed.

Lemma add_phone_ValueError (self : ref) (p : pystr) (w w' : World) (e : exn) :
  Record_add_phone self p w = (Raise e, w') -> exists msg, e = ValueError msg.
Proof.
  unfold Record_add_phone, bind. rewrite find_phone_run.
  destruct (list_find _ _); unfold raise, Phone, ret.
  - intros H; simplify_eq. by eexists.
  - destruct (negb _); intros H; cbv in H; simplify_eq. by eexists.
Qed.

Lemma edit_phone_ValueError (self : ref) (o p : pystr) (w w' : World) (e : exn) :
  Record_edit_phone self o p w = (Raise e, w') -> exists msg, e = ValueError msg.
Proof.
  unfold Record_edit_phone, bind. rewrite find_phone_run.
  destruct (list_find _ _) as [[i q]|]; unfold raise, Phone, ret.
  - destruct (negb _); intros H; cbv in H; simplify_eq. by eexists.
  - intros H; simplify_eq. by eexists.
Qed.

Lemma add_birthday_ValueError (self : ref) (s : pystr) (w w' : World) (e : exn) :
  Record_add_birthday self s w = (Raise e, w') -> exists msg, e = ValueError msg.
Proof.
  destruct (strptime s) as [d|e0] eqn:Es.
  - rewrite (add_birthday_run_parsed _ _ _ _ Es). intros H; simplify_eq.
  - rewrite (add_birthday_run_unparsed _ _ _ _ Es). intros H; simplify_eq.
    by eexists.
Qed.

Lemma input_error_replies (func : C pystr) (w : World) :
  (forall e w', func w = (Error (Core e), w') -> exists msg, e = ValueError msg) ->
  exists text w', input_error func w = (Value text, w').
Proof.
  intros H. unfold input_error.
  destruct (func w) as [[text|e] w'] eqn:E; [by eauto|].
  destruct e as [e| | | |]; try by eauto.
  destruct (H e w' eq_refl) as [msg ->]. by eauto.
Qed.

(** The exceptions of the classes a command lets through are those of the
    methods it calls. *)
Lemma cbind_core_Error {A B : Type} (m : M A) (k : A -> C B) (w w' : World)
  (e : exn) :
  cbind (core m) k w = (Error (Core e), w') ->
  (exists w1, m w = (Raise e, w1))
  \/ (exists a w1, m w = (Return a, w1) /\ k a w1 = (Error (Core e), w')).
Proof.
  unfold cbind, core. destruct (m w) as [[a|e0] w1].
  - intros H. right. by exists a, w1.
  - intros H. simplify_eq. left. by eexists.
Qed.

Lemma add_contact_func_ValueError (args : list pystr) (w w' : World) (e : exn) :
  add_contact_func args w = (Error (Core e), w') -> exists msg, e = ValueError msg.
Proof.
  destruct args as [|n [|p rest]]; try discriminate.
  unfold add_contact_func. rewrite cbind_find.
  destruct (dict_get n (data w)) as [r|].
  - intros [[w1 H]|(a & w1 & H & Hk)]%cbind_core_Error.
    + by eapply add_phone_ValueError.
    + discriminate.
  - intros [[w1 H]|(a & w1 & H & Hk)]%cbind_core_Error.
    { by eapply Record_init_ValueError. }
    apply cbind_core_Error in Hk as [[w2 Hk]|([] & w2 & _ & Hk)].
    { by rewrite add_record_run in Hk. }
    apply cbind_core_Error in Hk as [[w3 Hk]|(? & w3 & _ & Hk)].
    + by eapply add_phone_ValueError.
    + discriminate.
Qed.

Lemma change_contact_func_ValueError (args : list pystr) (w w' : World) (e : exn) :
  change_contact_func args w = (Error (Core e), w') ->
  exists msg, e = ValueError msg.
Proof.
  destruct args as [|n [|o [|p rest]]]; try discriminate.
  unfold change_contact_func. rewrite cbind_find.
  destruct (dict_get n (data w)) as [r|]; [|discriminate]. unfold on_found.
  intros [[w1 H]|(a & w1 & H & Hk)]%cbind_core_Error.
  - by eapply edit_phone_ValueError.
  - discriminate.
Qed.

Lemma add_birthday_func_ValueError (args : list pystr) (w w' : World) (e : exn) :
  add_birthday_func args w = (Error (Core e), w') ->
  exists msg, e = ValueError msg.
Proof.
  destruct args as [|n [|s rest]]; try discriminate.
  unfold add_birthday_func. rewrite cbind_find.
  destruct (dict_get n (data w)) as [r|]; [|discriminate]. unfold on_found.
  intros [[w1 H]|(a & w1 & H & Hk)]%cbind_core_Error.
  - by eapply add_birthday_ValueError.
  - discriminate.
Qed.

Lemma show_phone_func_state (args : list pystr) (w : World) :
  (show_phone_func args w).2 = w
  /\ forall e w', show_phone_func args w <> (Error (Core e), w').
Proof.
  destruct args as [|n rest]; [by split|].
  unfold show_phone_func. rewrite cbind_find.
  by destruct (dict_get n (data w)).
Qed.

Lemma show_birthday_func_state (args : list pystr) (w : World) :
  (show_birthday_func args w).2 = w
  /\ forall e w', show_birthday_func args w <> (Error (Core e), w').
Proof.
  destruct args as [|n rest]; [by split|].
  unfold show_birthday_func. rewrite cbind_find.
  by destruct (dict_get n (data w)).
Qed.

Lemma input_error_state (func : C pystr) (w : World) :
  (input_error func w).2 = (func w).2.
Proof.
  unfold input_error. destruct (func w) as [[text|e] w']; [reflexivity|].
  by destruct e as [[m|]| | | |].
Qed.

Lemma read_commands_state (today : date) (args : list pystr) (w : World) :
  (show_phone args w).2 = w /\ (show_all w).2 = w
  /\ (show_birthday args w).2 = w /\ (birthdays today args w).2 = w.
Proof.
  split; [|split; [|split]].
  - unfold show_phone. rewrite input_error_state. apply show_phone_func_state.
  - by rewrite show_all_run.
  - unfold show_birthday. rewrite input_error_state.
    apply show_birthday_func_state.
  - destruct (get_upcoming_birthdays_ValueError today w) as [[u H]|[msg H]].
    + by rewrite (birthdays_func_Return _ _ _ _ H).
    + unfold birthdays. rewrite input_error_state. unfold birthdays_func.
      by rewrite (cbind_core_Raise _ _ _ _ _ H).
Qed.

(** X27.  Every command replies with a text, whatever its arguments and
    the store: the handler catches each exception the command raises, and
    the date arithmetic of [birthdays] does not overflow.  [phone], [all],
    [show-birthday] and [birthdays] leave the store as it was. *)
Theorem commands_always_reply (today : date) (args : list pystr) (w : World) :
  Forall (fun command : C pystr => exists text w', command w = (Value text, w'))
    [add_contact args; change_contact args; show_phone args; show_all;
     add_birthday args; show_birthday args; birthdays today args]
  /\ Forall (fun command : C pystr => (command w).2 = w)
       [show_phone args; show_all; show_birthday args; birthdays today args].
Proof.
  split.
  - repeat apply Forall_cons_2; [..|apply Forall_nil_2].
    + apply input_error_replies. intros e w'. apply add_contact_func_ValueError.
    + apply input_error_replies. intros e w'. apply change_contact_func_ValueError.
    + apply input_error_replies. intros e w' H.
      by destruct (proj2 (show_phone_func_state args w) e w').
    + rewrite show_all_run. by eauto.
    + apply input_error_replies. intros e w'. apply add_birthday_func_ValueError.
    + apply input_error_replies. intros e w' H.
      by destruct (proj2 (show_birthday_func_state args w) e w').
    + destruct (get_upcoming_birthdays_ValueError today w) as [[u H]|[msg H]].
      * rewrite (birthdays_func_Return _ _ _ _ H). by eauto.
      * apply input_error_replies. intros e w'. unfold birthdays_func.
        rewrite (cbind_core_Raise _ _ _ _ _ H). intros ?; simplify_eq.
        by eexists.
  - destruct (read_commands_state today args w) as (H1 & H2 & H3 & H4).
    repeat apply Forall_cons_2; [..|apply Forall_nil_2]; assumption.
Qed.

(** ** The command loop *)

Lemma cbind_core_reachable {A B : Type} (m : M A) (k : A -> C B) (w : World) :
  reachable (m w).2 ->
  (forall a w1, m w = (Return a, w1) -> reachable w1 -> reachable (k a w1).2) ->
  reachable (cbind (core m) k w).2.
Proof.
  intros H1 H2. unfold cbind, core.
  destruct (m w) as [[a|e] w1] eqn:E; [by apply H2|exact H1].
Qed.

Lemma find_is_object (n : pystr) (r : ref) (w : World) :
  reachable w -> dict_get n (data w) = Some r -> (r < next w)%nat.
Proof.
  intros Hw Hr. destruct (reachable_inv w Hw) as (_ & Hlt & _).
  eapply Hlt, dict_get_elem_of, Hr.
Qed.

Lemma Record_init_Return (n : pystr) (w w1 : World) (a : ref) :
  Record_init n w = (Return a, w1) -> a = next w /\ next w1 = S (next w).
Proof.
  unfold Record_init, bind, Name, raise, ret, alloc.
  destruct (_ || _); intros H; by simplify_eq.
Qed.

Lemma add_contact_reachable (args : list pystr) (w : World) :
  reachable w -> reachable (add_contact args w).2.
Proof.
  intros Hw. unfold add_contact. rewrite input_error_state.
  destruct args as [|n [|p rest]]; try exact Hw.
  unfold add_contact_func. rewrite cbind_find.
  destruct (dict_get n (data w)) as [r|] eqn:Hr.
  - apply cbind_core_reachable; [|by intros].
    exact (reachable_call w (call_add_phone r p) Hw (find_is_object _ _ _ Hw Hr)).
  - apply cbind_core_reachable.
    { exact (reachable_call w (call_Record n) Hw I). }
    intros a w1 [-> Hnx]%Record_init_Return Hw1.
    assert (Ha : (next w < next w1)%nat) by lia.
    apply cbind_core_reachable.
    { exact (reachable_call w1 (call_add_record (next w)) Hw1 Ha). }
    intros [] w2 E2 Hw2. rewrite add_record_run in E2.
    assert (Ha2 : (next w < next w2)%nat) by (by simplify_eq).
    apply cbind_core_reachable; [|by intros].
    exact (reachable_call w2 (call_add_phone (next w) p) Hw2 Ha2).
Qed.

Lemma change_contact_reachable (args : list pystr) (w : World) :
  reachable w -> reachable (change_contact args w).2.
Proof.
  intros Hw. unfold change_contact. rewrite input_error_state.
  destruct args as [|n [|o [|p rest]]]; try exact Hw.
  unfold change_contact_func. rewrite cbind_find.
  destruct (dict_get n (data w)) as [r|] eqn:Hr; [|exact Hw]. unfold on_found.
  apply cbind_core_reachable; [|by intros].
  exact (reachable_call w (call_edit_phone r o p) Hw (find_is_object _ _ _ Hw Hr)).
Qed.

Lemma add_birthday_reachable (args : list pystr) (w : World) :
  reachable w -> reachable (add_birthday args w).2.
Proof.
  intros Hw. unfold add_birthday. rewrite input_error_state.
  destruct args as [|n [|s rest]]; try exact Hw.
  unfold add_birthday_func. rewrite cbind_find.
  destruct (dict_get n (data w)) as [r|] eqn:Hr; [|exact Hw]. unfold on_found.
  apply cbind_core_reachable; [|by intros].
  exact (reachable_call w (call_add_birthday r s) Hw (find_is_object _ _ _ Hw Hr)).
Qed.

Lemma printed_state (reply : C pystr) (w : World) :
  (printed reply w).2 = (reply w).2.
Proof. unfold printed. by destruct (reply w) as [[text|e] w']. Qed.

Ltac head_if :=
  lazymatch goal with
  | |- context [(if ?c then _ else _).2] => destruct c
  end.

Lemma main_body_reachable (today : date) (user_input : pystr) (w : World) :
  reachable w -> reachable (main_body today user_input w).2.
Proof.
  intros Hw. unfold main_body.
  destruct (parse_input user_input) as [[command args]|e]; [|exact Hw].
  destruct (read_commands_state today args w) as (H1 & H2 & H3 & H4).
  repeat (head_if; [first [exact Hw | rewrite printed_state]|]);
    try exact Hw.
  - by apply add_contact_reachable.
  - by apply change_contact_reachable.
  - by rewrite H1.
  - by rewrite H2.
  - by apply add_birthday_reachable.
  - by rewrite H3.
  - by rewrite H4.
Qed.

Lemma main_loop_state (inputs : list (date * pystr)) (w : World) :
  reachable w -> reachable (main_loop inputs w).2.
Proof.
  revert w. induction inputs as [|[today user_input] inputs IH]; intros w Hw;
    [exact Hw|].
  cbn [main_loop].
  pose proof (main_body_reachable today user_input w Hw) as Hb.
  destruct (main_body today user_input w) as [[out c] w'].
  destruct c; try exact Hb.
  specialize (IH w' Hb). by destruct (main_loop inputs w') as [[out' c'] w''].
Qed.

(** X28.  From a book the calls of the classes build (the empty book of a
    first start is one), the loop of [main] only reaches such books,
    whatever the lines typed: in the store it ends with, the keys of the
    book are the names of its records and are distinct, every record has
    a name that is not blank, phones that pass the validation and, if
    any, a birthday that [strptime] parses. *)
Theorem main_keeps_the_book_valid (book : World)
  (inputs : list (date * pystr)) :
  reachable book ->
  reachable (main book inputs).2
  /\ book_inv (main book inputs).2
  /\ objects_valid (main book inputs).2.
Proof.
  intros Hw.
  assert (H : reachable (main book inputs).2).
  { pose proof (main_loop_state inputs book Hw) as H. unfold main.
    by destruct (main_loop inputs book) as [[out c] w]. }
  split; [exact H|]. split; [by apply reachable_inv|].
  by apply reachable_objects_valid.
Qed.

(** *** What the loop writes *)

Lemma printed_events (reply : C pystr) (w : World) :
  match printed reply w with
  | (out, Break, _) => False
  | (out, _, _) => Forall (fun e => ~ is_save e) out
  end.
Proof.
  unfold printed. destruct (reply w) as [[text|e] w']; repeat constructor.
  by intros [].
Qed.

Ltac head_if_events :=
  lazymatch goal with
  | |- match (if ?c then _ else _) with _ => _ end => destruct c
  end.

Lemma main_body_events (today : date) (user_input : pystr) (w : World) :
  match main_body today user_input w with
  | (out, Break, w') => out = [save_data w'; print (py "Good bye!")]
  | (out, _, _) => Forall (fun e => ~ is_save e) out
  end.
Proof.
  assert (Hp : forall reply : C pystr,
            match printed reply w with
            | (out, Break, w') => out = [save_data w'; print (py "Good bye!")]
            | (out, _, _) => Forall (fun e => ~ is_save e) out
            end).
  { intros reply. pose proof (printed_events reply w) as H.
    by destruct (printed reply w) as [[out []] w']. }
  unfold main_body.
  destruct (parse_input user_input) as [[command args]|e]; [|constructor].
  repeat (head_if_events; [first [reflexivity | apply Hp
                                 | repeat constructor; by intros []]|]).
  repeat constructor. by intros [].
Qed.

Lemma main_loop_events (inputs : list (date * pystr)) (w : World) :
  match main_loop inputs w with
  | (out, Break, w') =>
      exists out0,
        out = out0 ++ [save_data w'; print (py "Good bye!")]
        /\ Forall (fun e => ~ is_save e) out0
  | (out, _, _) => Forall (fun e => ~ is_save e) out
  end.
Proof.
  revert w. induction inputs as [|[today user_input] inputs IH]; intros w;
    [constructor|].
  cbn [main_loop].
  pose proof (main_body_events today user_input w) as Hb.
  assert (Hin : ~ is_save (input (py "Enter a command: ") user_input))
    by (by intros []).
  destruct (main_body today user_input w) as [[out c] w'].
  destruct c.
  - specialize (IH w'). destruct (main_loop inputs w') as [[out' c'] w''].
    destruct c'.
    + constructor; [exact Hin|]. by apply Forall_app.
    + destruct IH as (out0 & -> & H0).
      exists (input (py "Enter a command: ") user_input :: out ++ out0). split.
      * cbn [app]. by rewrite <- app_assoc.
      * constructor; [exact Hin|]. by apply Forall_app.
    + constructor; [exact Hin|]. by apply Forall_app.
  - exists [input (py "Enter a command: ") user_input]. subst out.
    split; [reflexivity|]. by repeat constructor.
  - by constructor.
Qed.

(** X29.  [main] writes the file of the book only when it leaves the loop
    on [exit] or [close]: a run that ended so has saved once, the book it
    ended with, just before "Good bye!", its last line; a run that is
    still going, or that an exception ended, has saved nothing, so the
    changes made since the start are not in the file. *)
Theorem main_saves_on_exit_only (book : World) (inputs : list (date * pystr)) :
  match main book inputs with
  | (out, Break, w) =>
      exists out0,
        out = out0 ++ [save_data w; print (py "Good bye!")]
        /\ Forall (fun e => ~ is_save e) out0
  | (out, _, _) => Forall (fun e => ~ is_save e) out
  end.
Proof.
  unfold main. pose proof (main_loop_events inputs book) as H.
  assert (Hw : ~ is_save (print (py "Welcome to the assistant bot!")))
    by (by intros []).
  destruct (main_loop inputs book) as [[out c] w]. destruct c.
  - by constructor.
  - destruct H as (out0 & -> & H0).
    exists (print (py "Welcome to the assistant bot!") :: out0).
    split; [reflexivity|]. by constructor.
  - by constructor.
Qed.

Lemma is_command_other (command s : pystr) :
  command <> s -> is_command (Some command) s = false.
Proof.
  intros H. unfold is_command. apply bool_decide_eq_false_2. congruence.
Qed.

(** X30.  What the loop does with a line that names no command.  The empty
    line, and a line whose first word, in lower case, is none of the
    eleven commands, print "Invalid command." and leave the book.  A line
    that is not empty and made of white space only ends the program: the
    [ValueError] of [parse_input] is not caught, the lines after it are
    not read and the book is not saved. *)
Theorem main_without_command (today : date) (user_input : pystr)
  (inputs : list (date * pystr)) (w : World) :
  (user_input = [] ->
   main_body today user_input w = ([print (py "Invalid command.")], Next, w))
  /\ (forall command args,
        parse_input user_input = Value (Some command, args) ->
        command ∉ commands ->
        main_body today user_input w
        = ([print (py "Invalid command.")], Next, w))
  /\ (user_input <> [] ->
      Forall (fun c => isspace_cp c = true) user_input ->
      main_loop ((today, user_input) :: inputs) w
      = ([input (py "Enter a command: ") user_input], Uncaught (Unpack 1 0), w)).
Proof.
  split; [by intros ->|]. split.
  - intros command args Hp Hc. unfold main_body. rewrite Hp.
    unfold commands in Hc. rewrite !not_elem_of_cons in Hc.
    destruct Hc as (? & ? & ? & ? & ? & ? & ? & ? & ? & ? & ? & _).
    by rewrite !is_command_other.
  - intros Hne Hsp. apply split_nil in Hsp.
    cbn [main_loop]. unfold main_body, parse_input. rewrite Hsp.
    by destruct user_input.
Qed.

End AddressBook.

(** ** The properties on the stores of the examples *)

(** The model on the dates of the scenario of the specification. *)
Example weekday_10_march_2024 : datetime.weekday sunday_10_march_2024 = 6.
Proof. reflexivity. Qed.

Example weekday_16_march_2024 : datetime.weekday (datetime.mkdate 2024 3 16) = 5.
Proof. reflexivity. Qed.

Example congratulation_16_march_2024 :
  congratulation_date (datetime.mkdate 2024 3 16) = datetime.mkdate 2024 3 18.
Proof. reflexivity. Qed.

Example add_days_over_february :
  datetime.add_days (datetime.mkdate 2024 2 28) 2 = Return (datetime.mkdate 2024 3 1)
  /\ datetime.add_days (datetime.mkdate 2023 2 28) 2 = Return (datetime.mkdate 2023 3 2).
Proof. split; reflexivity. Qed.

Example strptime_one_digit_fields :
  strptime no_decimal (py "1.3.2024") = Return (datetime.mkdate 2024 3 1).
Proof. reflexivity. Qed.

Example strptime_31_february :
  strptime no_decimal (py "31.02.2024")
  = Raise (ValueError day_is_out_of_range_for_month).
Proof. reflexivity. Qed.

Example strptime_trailing_text :
  strptime no_decimal (py "01.03.20245") = Raise (ValueError unconverted_data_remains).
Proof. reflexivity. Qed.

Example Name_is_stripped :
  (Name (py " Ann ") scenario).1 = Return (mkField (py "Ann"))
  /\ (Name (py "   ") scenario).1 = Raise (ValueError Name_cannot_be_empty).
Proof. split; reflexivity. Qed.

(** Ten superscript twos make a [Phone], and are not ten of the digits [0]
    .. [9]: the claim C3, as the specification words it, fails. *)
Lemma Phone_superscripts_counterexample :
  Phone no_digit superscripts ann_two_phones
  = (Return (mkField superscripts), ann_two_phones)
  /\ ~ ten_decimal_digits superscripts.
Proof.
  split; [reflexivity|].
  intros [_ H]. apply Forall_cons in H as [H _]. vm_compute in H. discriminate.
Qed.

Lemma Phone_accepts_unicode_digits_witness :
  ten_decimal_digits (py "1234567890")
  /\ Phone no_digit (py "1234567890") ann_two_phones
     = (Return (mkField (py "1234567890")), ann_two_phones)
  /\ ~ ten_unicode_digits no_digit (py "12345")
  /\ Phone no_digit (py "12345") ann_two_phones
     = (Raise (ValueError Phone_number_must_contain_exactly_10_digits),
        ann_two_phones).
Proof.
  assert (H1 : ten_decimal_digits (py "1234567890")).
  { split; [reflexivity|]. repeat constructor. }
  assert (H2 : ~ ten_unicode_digits no_digit (py "12345")).
  { intros [H _]. vm_compute in H. discriminate. }
  split; [exact H1|]. split.
  - exact (proj2 (proj2 (Phone_accepts_unicode_digits
                           no_digit (py "1234567890") ann_two_phones)) H1).
  - split; [exact H2|].
    exact (proj1 (proj2 (Phone_accepts_unicode_digits
                           no_digit (py "12345") ann_two_phones)) H2).
Defined.

Lemma add_phone_existing_value_witness :
  py "1111111111" ∈ phone_values (heap ann_two_phones 0%nat)
  /\ Record_add_phone no_digit 0%nat (py "1111111111") ann_two_phones
     = (Raise (ValueError (Phone_already_exists (py "1111111111"))), ann_two_phones).
Proof.
  assert (H : py "1111111111" ∈ phone_values (heap ann_two_phones 0%nat))
    by (vm_compute; left).
  split; [exact H|].
  exact (add_phone_existing_value no_digit ann_two_phones 0%nat (py "1111111111") H).
Defined.

Lemma edit_phone_replaces_in_place_witness :
  ((py "3333333333" ∉ phone_values (heap ann_two_phones 0%nat))
   /\ Record_edit_phone no_digit 0%nat (py "3333333333") (py "4444444444")
        ann_two_phones
      = (Raise (ValueError (Phone_not_found (py "3333333333"))), ann_two_phones))
  /\ exists w',
       Record_edit_phone no_digit 0%nat (py "2222222222") (py "4444444444")
         ann_two_phones = (Return tt, w')
       /\ phone_values (heap w' 0%nat) = [py "1111111111"; py "4444444444"].
Proof.
  assert (H1 : py "3333333333" ∉ phone_values (heap ann_two_phones 0%nat)).
  { apply (bool_decide_unpack _). vm_compute. reflexivity. }
  split.
  - split; [exact H1|].
    exact (proj1 (edit_phone_replaces_in_place no_digit ann_two_phones 0%nat
                    (py "3333333333") (py "4444444444")) H1).
  - assert (Hi : phone_values (heap ann_two_phones 0%nat) !! 1%nat
                 = Some (py "2222222222")) by reflexivity.
    assert (Hfirst : forall j, (j < 1)%nat ->
              phone_values (heap ann_two_phones 0%nat) !! j
              <> Some (py "2222222222")).
    { intros j Hj. assert (j = 0%nat) as -> by lia. vm_compute. discriminate. }
    assert (Hnew : _validate_phone no_digit (py "4444444444") = true)
      by reflexivity.
    destruct (proj2 (edit_phone_replaces_in_place no_digit ann_two_phones 0%nat
                       (py "2222222222") (py "4444444444")) 1%nat Hi Hfirst Hnew)
      as (w' & Hrun & _).
    exists w'. split; [exact Hrun|].
    vm_compute in Hrun. injection Hrun as <-. reflexivity.
Defined.

Lemma add_birthday_unparsed_keeps_birthday_witness :
  (forall d, strptime no_decimal (py "31.02.2024") <> Return d)
  /\ Record_add_birthday no_decimal 0%nat (py "31.02.2024") ann_and_bob
     = (Raise (ValueError Invalid_date_format), ann_and_bob)
  /\ birthday (heap (Record_add_birthday no_decimal 0%nat (py "31.02.2024")
                       ann_and_bob).2 0%nat)
     = Some (mkField (py "12.03.2020")).
Proof.
  assert (H : forall d, strptime no_decimal (py "31.02.2024") <> Return d).
  { intros d Hd. vm_compute in Hd. discriminate. }
  split; [exact H|].
  destruct (add_birthday_unparsed_keeps_birthday no_decimal ann_and_bob 0%nat
              (py "31.02.2024") H) as [H1 H2].
  split; [exact H1|]. rewrite H2. reflexivity.
Defined.

Lemma reachable_keys_are_names_witness :
  reachable no_digit no_decimal (ann_added no_digit no_decimal)
  /\ (py "Ann", 0%nat) ∈ data (ann_added no_digit no_decimal)
  /\ value (name (heap (ann_added no_digit no_decimal) 0%nat)) = py "Ann".
Proof.
  assert (H1 : reachable no_digit no_decimal (ann_added no_digit no_decimal)).
  { unfold ann_added. apply reachable_call.
    - apply reachable_call; [apply reachable_start|exact I].
    - simpl. lia. }
  assert (H2 : (py "Ann", 0%nat) ∈ data (ann_added no_digit no_decimal))
    by (vm_compute; left).
  split; [exact H1|]. split; [exact H2|].
  exact (reachable_keys_are_names no_digit no_decimal
           (ann_added no_digit no_decimal) (py "Ann") 0%nat H1 H2).
Defined.

Lemma add_record_replaces_by_name_witness :
  exists w',
    AddressBook_add_record 1%nat
      two_anns = (Return tt, w')
    /\ data w' = [(py "Ann", 1%nat)].
Proof.
  destruct (add_record_replaces_by_name two_anns 1%nat)
    as (w' & Hrun & _).
  exists w'. split; [exact Hrun|].
  vm_compute in Hrun. injection Hrun as <-. reflexivity.
Defined.

Lemma get_upcoming_birthdays_keeps_store_witness :
  exists w',
    AddressBook_get_upcoming_birthdays no_decimal sunday_10_march_2024 scenario
    = (Return [mkItem (py "Ann") (py "12.03.2024");
               mkItem (py "Bob") (py "18.03.2024")], w')
    /\ w' = scenario.
Proof.
  eexists. split; [reflexivity|].
  refine (proj1 (get_upcoming_birthdays_keeps_store no_decimal
                   sunday_10_march_2024 scenario _ _ _)).
  reflexivity.
Defined.

Lemma scenario_replaceable (a : ref) (b : Field) :
  a ∈ dict_values (data scenario) -> birthday (heap scenario a) = Some b ->
  exists bd, strptime no_decimal (value b) = Return bd
             /\ replaceable sunday_10_march_2024 bd.
Proof.
  intros Ha Hb.
  assert (Hcases : a = 0%nat \/ a = 1%nat \/ a = 2%nat).
  { change (a ∈ [0; 1; 2]%nat) in Ha. rewrite !elem_of_cons in Ha.
    destruct Ha as [?|[?|[?|Ha]]]; auto. by apply elem_of_nil in Ha. }
  destruct Hcases as [-> | [-> | ->]]; injection Hb as <-;
    eexists; (split; [reflexivity|]); split; reflexivity.
Qed.

Lemma get_upcoming_birthdays_expected_witness :
  AddressBook_get_upcoming_birthdays no_decimal sunday_10_march_2024 scenario
  = (Return (expected_upcoming no_decimal sunday_10_march_2024 scenario), scenario)
  /\ expected_upcoming no_decimal sunday_10_march_2024 scenario
     = [mkItem (py "Ann") (py "12.03.2024"); mkItem (py "Bob") (py "18.03.2024")].
Proof.
  split; [|reflexivity].
  exact (get_upcoming_birthdays_expected no_decimal sunday_10_march_2024 scenario
           scenario_replaceable).
Defined.

(** With Bob's birthday on 29 February, the call of 10 March 2023 raises,
    though Ann's birthday, on Sunday 12 March, is in the window: the claim
    C1, made for every book, fails. *)
Lemma get_upcoming_birthdays_feb29_counterexample :
  AddressBook_get_upcoming_birthdays no_decimal friday_10_march_2023 ann_and_bob
  = (Raise (ValueError day_is_out_of_range_for_month), ann_and_bob)
  /\ expected_upcoming no_decimal friday_10_march_2023 ann_and_bob
     = [mkItem (py "Ann") (py "13.03.2023")].
Proof. split; reflexivity. Qed.

Lemma get_upcoming_birthdays_feb29_raises_witness :
  datetime.valid sunday_10_march_2024 = true
  /\ 1%nat ∈ dict_values (data ann_and_bob)
  /\ birthday (heap ann_and_bob 1%nat) = Some (mkField (py "29.02.2020"))
  /\ strptime no_decimal (py "29.02.2020") = Return (datetime.mkdate 2020 2 29)
  /\ feb29_year_not_leap sunday_10_march_2024
  /\ AddressBook_get_upcoming_birthdays no_decimal sunday_10_march_2024
       ann_and_bob
     = (Raise (ValueError day_is_out_of_range_for_month), ann_and_bob).
Proof.
  assert (H1 : datetime.valid sunday_10_march_2024 = true) by reflexivity.
  assert (H2 : 1%nat ∈ dict_values (data ann_and_bob)) by (vm_compute; right; left).
  assert (H3 : birthday (heap ann_and_bob 1%nat) = Some (mkField (py "29.02.2020")))
    by reflexivity.
  assert (H4 : strptime no_decimal (value (mkField (py "29.02.2020")))
               = Return (datetime.mkdate 2020 2 29)) by reflexivity.
  assert (H5 : feb29_year_not_leap sunday_10_march_2024) by (right; reflexivity).
  split; [exact H1|]. split; [exact H2|]. split; [exact H3|].
  split; [exact H4|]. split; [exact H5|].
  destruct (get_upcoming_birthdays_feb29_raises no_decimal sunday_10_march_2024
              ann_and_bob 1%nat (mkField (py "29.02.2020"))
              (datetime.mkdate 2020 2 29) H1 H2 H3 H4 eq_refl eq_refl H5)
    as (msg & Hrun & _).
  vm_compute in Hrun. injection Hrun as <-. reflexivity.
Defined.

(** ** The further properties on the stores of the examples *)

Lemma Name_is_stripped_value_witness :
  (strip (py "   ") = []
   /\ Name (py "   ") new_book = (Raise (ValueError Name_cannot_be_empty), new_book))
  /\ strip (py " Ann ") <> []
  /\ Name (py " Ann ") new_book = (Return (mkField (py "Ann")), new_book).
Proof.
  assert (H1 : strip (py "   ") = []) by reflexivity.
  assert (H2 : strip (py " Ann ") <> []) by discriminate.
  split; [split; [exact H1|]|split; [exact H2|]].
  - exact (proj1 (Name_is_stripped_value (py "   ") new_book) H1).
  - exact (proj1 (proj2 (Name_is_stripped_value (py " Ann ") new_book) H2)).
Defined.

Lemma Record_init_new_object_witness :
  strip (py " Ann ") <> []
  /\ exists w',
       Record_init (py " Ann ") new_book = (Return 0%nat, w')
       /\ heap w' 0%nat = mkRecord (mkField (py "Ann")) [] None
       /\ next w' = 1%nat.
Proof.
  assert (H : strip (py " Ann ") <> []) by discriminate.
  split; [exact H|].
  destruct (proj2 (Record_init_new_object (py " Ann ") new_book) H)
    as (w' & H1 & H2 & H3 & _).
  exists w'. split; [exact H1|]. split; [exact H2|exact H3].
Defined.

Lemma add_phone_appends_witness :
  (py "3333333333" ∉ phone_values (heap ann_two_phones 0%nat))
  /\ _validate_phone no_digit (py "3333333333") = true
  /\ exists w',
       Record_add_phone no_digit 0%nat (py "3333333333") ann_two_phones
       = (Return tt, w')
       /\ phones (heap w' 0%nat)
          = mkField <$> [py "1111111111"; py "2222222222"; py "3333333333"].
Proof.
  assert (H : py "3333333333" ∉ phone_values (heap ann_two_phones 0%nat)).
  { apply (bool_decide_unpack _). vm_compute. reflexivity. }
  assert (Hv : _validate_phone no_digit (py "3333333333") = true) by reflexivity.
  split; [exact H|]. split; [exact Hv|].
  destruct (proj2 (add_phone_appends no_digit ann_two_phones 0%nat
                     (py "3333333333") H) Hv) as (w' & H1 & H2 & _).
  exists w'. split; [exact H1|exact H2].
Defined.

Lemma remove_phone_takes_out_witness :
  ((py "3333333333" ∉ phone_values (heap ann_two_phones 0%nat))
   /\ Record_remove_phone 0%nat (py "3333333333") ann_two_phones
      = (Raise (ValueError (Phone_not_found (py "3333333333"))), ann_two_phones))
  /\ exists w',
       Record_remove_phone 0%nat (py "2222222222") ann_two_phones = (Return tt, w')
       /\ phones (heap w' 0%nat) = [mkField (py "1111111111")].
Proof.
  assert (H : py "3333333333" ∉ phone_values (heap ann_two_phones 0%nat)).
  { apply (bool_decide_unpack _). vm_compute. reflexivity. }
  split.
  - split; [exact H|].
    exact (proj1 (remove_phone_takes_out ann_two_phones 0%nat (py "3333333333")) H).
  - assert (Hi : phone_values (heap ann_two_phones 0%nat) !! 1%nat
                 = Some (py "2222222222")) by reflexivity.
    assert (Hfirst : forall j, (j < 1)%nat ->
              phone_values (heap ann_two_phones 0%nat) !! j
              <> Some (py "2222222222")).
    { intros j Hj. assert (j = 0%nat) as -> by lia. vm_compute. discriminate. }
    destruct (proj2 (remove_phone_takes_out ann_two_phones 0%nat
                       (py "2222222222")) 1%nat Hi Hfirst)
      as (w' & H1 & H2 & _).
    exists w'. split; [exact H1|exact H2].
Defined.

Lemma add_then_remove_phone_witness :
  (py "3333333333" ∉ phone_values (heap ann_two_phones 0%nat))
  /\ _validate_phone no_digit (py "3333333333") = true
  /\ exists w1 w2,
       Record_add_phone no_digit 0%nat (py "3333333333") ann_two_phones
       = (Return tt, w1)
       /\ Record_remove_phone 0%nat (py "3333333333") w1 = (Return tt, w2)
       /\ (forall a, heap w2 a = heap ann_two_phones a)
       /\ data w2 = data ann_two_phones.
Proof.
  assert (H : py "3333333333" ∉ phone_values (heap ann_two_phones 0%nat)).
  { apply (bool_decide_unpack _). vm_compute. reflexivity. }
  assert (Hv : _validate_phone no_digit (py "3333333333") = true) by reflexivity.
  split; [exact H|]. split; [exact Hv|].
  destruct (add_then_remove_phone no_digit ann_two_phones 0%nat
              (py "3333333333") H Hv) as (w1 & w2 & H1 & H2 & H3 & _ & H4).
  exists w1, w2. split; [exact H1|]. split; [exact H2|]. split; [exact H3|exact H4].
Defined.

Lemma add_birthday_stores_text_witness :
  strptime no_decimal (py "12.03.2020") = Return (datetime.mkdate 2020 3 12)
  /\ exists w',
       Record_add_birthday no_decimal 0%nat (py "12.03.2020") ann_two_phones
       = (Return tt, w')
       /\ birthday (heap w' 0%nat) = Some (mkField (py "12.03.2020"))
       /\ stored_birthday no_decimal (heap w' 0%nat)
          = Some (datetime.mkdate 2020 3 12).
Proof.
  assert (H : strptime no_decimal (py "12.03.2020")
              = Return (datetime.mkdate 2020 3 12)) by reflexivity.
  split; [exact H|].
  destruct (add_birthday_stores_text no_decimal ann_two_phones 0%nat
              (py "12.03.2020") (datetime.mkdate 2020 3 12) H)
    as (w' & H1 & H2 & H3 & _).
  exists w'. split; [exact H1|]. split; [exact H2|exact H3].
Defined.

Lemma ann_added_reachable :
  reachable no_digit no_decimal (ann_added no_digit no_decimal).
Proof.
  unfold ann_added. apply reachable_call.
  - apply reachable_call; [apply reachable_start|exact I].
  - simpl. lia.
Qed.

Lemma reachable_fields_valid_witness :
  reachable no_digit no_decimal (ann_added no_digit no_decimal)
  /\ (0 < next (ann_added no_digit no_decimal))%nat
  /\ value (name (heap (ann_added no_digit no_decimal) 0%nat)) = py "Ann"
  /\ fields_valid no_digit no_decimal (heap (ann_added no_digit no_decimal) 0%nat).
Proof.
  assert (H2 : (0 < next (ann_added no_digit no_decimal))%nat)
    by (vm_compute; lia).
  split; [exact ann_added_reachable|]. split; [exact H2|].
  split; [reflexivity|].
  exact (reachable_fields_valid no_digit no_decimal
           (ann_added no_digit no_decimal) 0%nat ann_added_reachable H2).
Defined.

Lemma scenario_birthdays_parse : birthdays_parse no_decimal scenario.
Proof.
  intros a b Ha Hb. destruct (scenario_replaceable a b Ha Hb) as (bd & H & _).
  by exists bd.
Qed.

Lemma get_upcoming_birthdays_outcomes_witness :
  datetime.valid sunday_10_march_2024 = true
  /\ birthdays_parse no_decimal scenario
  /\ AddressBook_get_upcoming_birthdays no_decimal sunday_10_march_2024 scenario
     = (Return [mkItem (py "Ann") (py "12.03.2024");
                mkItem (py "Bob") (py "18.03.2024")], scenario).
Proof.
  assert (H1 : datetime.valid sunday_10_march_2024 = true) by reflexivity.
  split; [exact H1|]. split; [exact scenario_birthdays_parse|].
  destruct (get_upcoming_birthdays_outcomes no_decimal sunday_10_march_2024
              scenario H1 scenario_birthdays_parse)
    as [[_ Hrun]|[_ (msg & Hrun & _)]].
  - exact Hrun.
  - vm_compute in Hrun. discriminate Hrun.
Defined.

Lemma upcoming_items_on_weekdays_witness :
  exists upcoming,
    AddressBook_get_upcoming_birthdays no_decimal sunday_10_march_2024 scenario
    = (Return upcoming, scenario)
    /\ forall item, item ∈ upcoming ->
         exists a c,
           a ∈ dict_values (data scenario)
           /\ item = mkItem (value (name (heap scenario a)))
                            (datetime.strftime_dmY c)
           /\ datetime.valid c = true
           /\ 0 <= datetime.weekday c <= 4
           /\ 0 <= datetime.sub_days c sunday_10_march_2024 <= 9.
Proof.
  exact (upcoming_items_on_weekdays no_decimal sunday_10_march_2024 scenario
           scenario_replaceable).
Defined.

Lemma find_returns_named_record_witness :
  reachable no_digit no_decimal (ann_added no_digit no_decimal)
  /\ AddressBook_find (py "Ann") (ann_added no_digit no_decimal)
     = (Return (Some 0%nat), ann_added no_digit no_decimal)
  /\ AddressBook_find (py "Bob") (ann_added no_digit no_decimal)
     = (Return None, ann_added no_digit no_decimal)
  /\ (py "Bob" ∉ dict_keys (data (ann_added no_digit no_decimal))).
Proof.
  split; [exact ann_added_reachable|].
  destruct (find_returns_named_record no_digit no_decimal
              (ann_added no_digit no_decimal) (py "Bob") ann_added_reachable)
    as (r & Hrun & Hnone & _).
  split; [reflexivity|].
  assert (E : r = None).
  { apply (f_equal fst) in Hrun. vm_compute in Hrun. by injection Hrun. }
  split; [by rewrite <- E|]. by apply Hnone.
Defined.

Lemma delete_removes_key_witness :
  NoDup (dict_keys (data ann_and_bob))
  /\ py "Bob" ∈ dict_keys (data ann_and_bob)
  /\ exists w',
       AddressBook_delete (py "Bob") ann_and_bob = (Return tt, w')
       /\ AddressBook_find (py "Bob") w' = (Return None, w')
       /\ dict_keys (data w') = [py "Ann"].
Proof.
  assert (H1 : NoDup (dict_keys (data ann_and_bob))).
  { apply (bool_decide_unpack _). vm_compute. reflexivity. }
  assert (H2 : py "Bob" ∈ dict_keys (data ann_and_bob)).
  { apply (bool_decide_unpack _). vm_compute. reflexivity. }
  split; [exact H1|]. split; [exact H2|].
  destruct (proj2 (delete_removes_key ann_and_bob (py "Bob") H1) H2)
    as (w' & Hrun & _ & _ & Hfind & _ & Hkeys).
  exists w'. split; [exact Hrun|]. split; [exact Hfind|].
  rewrite Hkeys. vm_compute. reflexivity.
Defined.

Lemma add_record_then_delete_witness :
  (value (name (heap (store [contact (py "Ann") [] None] []) 0%nat))
   ∉ dict_keys (data (store [contact (py "Ann") [] None] [])))
  /\ exists w1,
       AddressBook_add_record 0%nat (store [contact (py "Ann") [] None] [])
       = (Return tt, w1)
       /\ AddressBook_delete (py "Ann") w1
          = (Return tt, store [contact (py "Ann") [] None] []).
Proof.
  assert (H : value (name (heap (store [contact (py "Ann") [] None] []) 0%nat))
              ∉ dict_keys (data (store [contact (py "Ann") [] None] [])))
    by apply not_elem_of_nil.
  split; [exact H|].
  exact (add_record_then_delete (store [contact (py "Ann") [] None] []) 0%nat H).
Defined.



Lemma words_add_ann : Forall word [py "ADD"; py "Ann"; py "1234567890"].
Proof. repeat constructor; discriminate. Qed.

Lemma parse_input_words_witness :
  Forall word [py "ADD"; py "Ann"; py "1234567890"]
  /\ parse_input ascii_text (py "ADD Ann 1234567890")
     = Value (Some (py "add"), [py "Ann"; py "1234567890"]).
Proof.
  split; [exact words_add_ann|].
  exact (parse_input_words ascii_text (py "ADD") [py "Ann"; py "1234567890"]
           words_add_ann).
Defined.

Lemma input_error_reports_witness :
  (own_message (Phone_not_found (py "123"))
   /\ ValueError_reply (message_text example_text (Phone_not_found (py "123")))
      = py "Phone 123 not found")
  /\ contains unpack_phrase (py "not enough values to unpack") = true
  /\ ValueError_reply
       (message_text example_text
          (Phone_not_found (py "not enough values to unpack")))
     = py "Not enough arguments provided.".
Proof.
  assert (H1 : own_message (Phone_not_found (py "123"))).
  { apply (bool_decide_unpack _). vm_compute. reflexivity. }
  assert (H2 : contains unpack_phrase (py "not enough values to unpack") = true)
    by reflexivity.
  split; [split; [exact H1|]|split; [exact H2|]].
  - exact (proj1 (proj2 (input_error_reports example_text
                           (Phone_not_found (py "123")) 0 0 [])) H1).
  - pose proof (proj2 (proj2 (input_error_reports example_text
                                Name_cannot_be_empty 0 0
                                (py "not enough values to unpack"))) H2) as H.
    apply Forall_cons in H as [_ H]. apply Forall_inv in H. exact H.
Defined.

Lemma commands_not_enough_arguments_witness :
  (length [py "Ann"] < 2)%nat
  /\ add_contact no_digit example_text [py "Ann"] ann_two_phones
     = (Value (py "Not enough arguments provided."), ann_two_phones)
  /\ change_contact no_digit example_text [py "Ann"] ann_two_phones
     = (Value (py "Not enough arguments provided."), ann_two_phones)
  /\ show_phone example_text [] ann_two_phones
     = (Value (py "Not enough arguments provided."), ann_two_phones).
Proof.
  assert (H2 : (length [py "Ann"] < 2)%nat) by (simpl; lia).
  assert (H3 : (length [py "Ann"] < 3)%nat) by (simpl; lia).
  assert (H1 : (length (@nil pystr) < 1)%nat) by (simpl; lia).
  split; [exact H2|]. split; [|split].
  - exact (proj1 (proj1 (commands_not_enough_arguments no_digit no_decimal
                           example_text [py "Ann"] ann_two_phones) H2)).
  - exact (proj1 (proj2 (commands_not_enough_arguments no_digit no_decimal
                           example_text [py "Ann"] ann_two_phones)) H3).
  - exact (proj1 (proj2 (proj2 (commands_not_enough_arguments no_digit no_decimal
                                  example_text [] ann_two_phones)) H1)).
Defined.

Lemma commands_contact_not_found_witness :
  (py "Bob" ∉ dict_keys (data ann_two_phones))
  /\ change_contact no_digit example_text
       [py "Bob"; py "1111111111"; py "3333333333"] ann_two_phones
     = (Value (py "Contact not found."), ann_two_phones)
  /\ show_phone example_text [py "Bob"] ann_two_phones
     = (Value (py "Contact not found."), ann_two_phones).
Proof.
  assert (H : py "Bob" ∉ dict_keys (data ann_two_phones)).
  { apply (bool_decide_unpack _). vm_compute. reflexivity. }
  split; [exact H|].
  destruct (commands_contact_not_found no_digit no_decimal example_text
              (py "Bob") (py "1111111111") (py "3333333333") [] ann_two_phones H)
    as (H1 & H2 & _).
  split; [exact H1|exact H2].
Defined.

Lemma add_contact_new_name_witness :
  (py "Bob" ∉ dict_keys (data ann_two_phones))
  /\ strip (py "Bob") <> []
  /\ _validate_phone no_digit (py "1234567890") = true
  /\ exists w',
       add_contact no_digit example_text [py "Bob"; py "1234567890"] ann_two_phones
       = (Value (py "Contact added."), w')
       /\ dict_keys (data w') = [py "Ann"; py "Bob"]
       /\ show_phone example_text [py "Bob"] w' = (Value (py "1234567890"), w').
Proof.
  assert (H1 : py "Bob" ∉ dict_keys (data ann_two_phones)).
  { apply (bool_decide_unpack _). vm_compute. reflexivity. }
  assert (H2 : strip (py "Bob") <> []) by discriminate.
  assert (H3 : _validate_phone no_digit (py "1234567890") = true) by reflexivity.
  split; [exact H1|]. split; [exact H2|]. split; [exact H3|].
  destruct (add_contact_new_name no_digit example_text (py "Bob") (py "1234567890")
              [] ann_two_phones H1 H2 H3) as (w' & Hrun & _ & _ & _ & _ & Hshow).
  exists w'. split; [exact Hrun|]. split; [|exact Hshow].
  vm_compute in Hrun. injection Hrun as <-. reflexivity.
Defined.

Lemma add_contact_invalid_phone_keeps_contact_witness :
  (py "Bob" ∉ dict_keys (data ann_two_phones))
  /\ strip (py "Bob") <> []
  /\ _validate_phone no_digit (py "12345") = false
  /\ exists w',
       add_contact no_digit example_text [py "Bob"; py "12345"] ann_two_phones
       = (Value (py "Phone number must contain exactly 10 digits"), w')
       /\ dict_keys (data w') = [py "Ann"; py "Bob"]
       /\ show_phone example_text [py "Bob"] w'
          = (Value (py "No phones available."), w').
Proof.
  assert (H1 : py "Bob" ∉ dict_keys (data ann_two_phones)).
  { apply (bool_decide_unpack _). vm_compute. reflexivity. }
  assert (H2 : strip (py "Bob") <> []) by discriminate.
  assert (H3 : _validate_phone no_digit (py "12345") = false) by reflexivity.
  split; [exact H1|]. split; [exact H2|]. split; [exact H3|].
  destruct (add_contact_invalid_phone_keeps_contact no_digit example_text
              (py "Bob") (py "12345") [] ann_two_phones H1 H2 H3)
    as (w' & Hrun & _ & _ & _ & Hshow).
  exists w'. split; [exact Hrun|]. split; [|exact Hshow].
  vm_compute in Hrun. injection Hrun as <-. reflexivity.
Defined.

Lemma add_contact_existing_name_witness :
  dict_get (py "Ann") (data ann_two_phones) = Some 0%nat
  /\ (py "3333333333" ∉ phone_values (heap ann_two_phones 0%nat))
  /\ _validate_phone no_digit (py "3333333333") = true
  /\ (exists w',
        add_contact no_digit example_text [py "Ann"; py "3333333333"]
          ann_two_phones = (Value (py "Contact updated."), w')
        /\ phones (heap w' 0%nat)
           = mkField <$> [py "1111111111"; py "2222222222"; py "3333333333"])
  /\ py "1111111111" ∈ phone_values (heap ann_two_phones 0%nat)
  /\ add_contact no_digit example_text [py "Ann"; py "1111111111"] ann_two_phones
     = (Value (py "Phone 1111111111 already exists"), ann_two_phones).
Proof.
  assert (H1 : dict_get (py "Ann") (data ann_two_phones) = Some 0%nat)
    by reflexivity.
  assert (H2 : py "3333333333" ∉ phone_values (heap ann_two_phones 0%nat)).
  { apply (bool_decide_unpack _). vm_compute. reflexivity. }
  assert (H3 : _validate_phone no_digit (py "3333333333") = true) by reflexivity.
  assert (H4 : py "1111111111" ∈ phone_values (heap ann_two_phones 0%nat)).
  { apply (bool_decide_unpack _). vm_compute. reflexivity. }
  split; [exact H1|]. split; [exact H2|]. split; [exact H3|]. split.
  - destruct (proj2 (proj2 (add_contact_existing_name no_digit example_text
                              (py "Ann") (py "3333333333") [] 0%nat
                              ann_two_phones H1)) H2 H3)
      as (w' & Hrun & Hp & _).
    exists w'. split; [exact Hrun|exact Hp].
  - split; [exact H4|].
    exact (proj1 (add_contact_existing_name no_digit example_text
                    (py "Ann") (py "1111111111") [] 0%nat ann_two_phones H1) H4).
Defined.

Lemma change_contact_existing_name_witness :
  dict_get (py "Ann") (data ann_two_phones) = Some 0%nat
  /\ _validate_phone no_digit (py "4444444444") = true
  /\ (exists w',
        change_contact no_digit example_text
          [py "Ann"; py "2222222222"; py "4444444444"] ann_two_phones
        = (Value (py "Contact updated."), w')
        /\ phones (heap w' 0%nat)
           = mkField <$> [py "1111111111"; py "4444444444"])
  /\ (py "3333333333" ∉ phone_values (heap ann_two_phones 0%nat))
  /\ change_contact no_digit example_text
       [py "Ann"; py "3333333333"; py "4444444444"] ann_two_phones
     = (Value (py "Phone 3333333333 not found"), ann_two_phones).
Proof.
  assert (H1 : dict_get (py "Ann") (data ann_two_phones) = Some 0%nat)
    by reflexivity.
  assert (H2 : _validate_phone no_digit (py "4444444444") = true) by reflexivity.
  assert (H3 : py "3333333333" ∉ phone_values (heap ann_two_phones 0%nat)).
  { apply (bool_decide_unpack _). vm_compute. reflexivity. }
  assert (Hi : phone_values (heap ann_two_phones 0%nat) !! 1%nat
               = Some (py "2222222222")) by reflexivity.
  assert (Hfirst : forall j, (j < 1)%nat ->
            phone_values (heap ann_two_phones 0%nat) !! j
            <> Some (py "2222222222")).
  { intros j Hj. assert (j = 0%nat) as -> by lia. vm_compute. discriminate. }
  split; [exact H1|]. split; [exact H2|]. split.
  - destruct (proj2 (proj2 (change_contact_existing_name no_digit example_text
                              (py "Ann") (py "2222222222") (py "4444444444") []
                              0%nat ann_two_phones H1)) 1%nat Hi Hfirst H2)
      as (w' & Hrun & Hp & _).
    exists w'. split; [exact Hrun|exact Hp].
  - split; [exact H3|].
    exact (proj1 (change_contact_existing_name no_digit example_text
                    (py "Ann") (py "3333333333") (py "4444444444") []
                    0%nat ann_two_phones H1) H3).
Defined.

Lemma show_phone_lists_phones_witness :
  dict_get (py "Ann") (data ann_two_phones) = Some 0%nat
  /\ Forall (fun p => _validate_phone no_digit (value p) = true)
       (phones (heap ann_two_phones 0%nat))
  /\ show_phone example_text [py "Ann"] ann_two_phones
     = (Value (py "1111111111; 2222222222"), ann_two_phones).
Proof.
  assert (H1 : dict_get (py "Ann") (data ann_two_phones) = Some 0%nat)
    by reflexivity.
  assert (H2 : Forall (fun p => _validate_phone no_digit (value p) = true)
                 (phones (heap ann_two_phones 0%nat)))
    by (by repeat constructor).
  split; [exact H1|]. split; [exact H2|].
  exact (show_phone_lists_phones no_digit example_text (py "Ann") [] 0%nat
           ann_two_phones H1 H2).
Defined.

Lemma add_birthday_then_show_birthday_witness :
  dict_get (py "Ann") (data ann_two_phones) = Some 0%nat
  /\ strptime no_decimal (py "12.03.2020") = Return (datetime.mkdate 2020 3 12)
  /\ (exists w',
        add_birthday no_decimal example_text [py "Ann"; py "12.03.2020"]
          ann_two_phones = (Value (py "Birthday added."), w')
        /\ show_birthday example_text [py "Ann"] w'
           = (Value (py "Ann's birthday: 12.03.2020"), w'))
  /\ strptime no_decimal (py "12/03/2020")
     = Raise (ValueError time_data_does_not_match_format)
  /\ add_birthday no_decimal example_text [py "Ann"; py "12/03/2020"]
       ann_two_phones
     = (Value (py "Invalid date format. Use DD.MM.YYYY"), ann_two_phones)
  /\ birthday (heap ann_two_phones 0%nat) = None
  /\ show_birthday example_text [py "Ann"] ann_two_phones
     = (Value (py "No birthday set for 'Ann'."), ann_two_phones).
Proof.
  assert (H1 : dict_get (py "Ann") (data ann_two_phones) = Some 0%nat)
    by reflexivity.
  assert (H2 : strptime no_decimal (py "12.03.2020")
               = Return (datetime.mkdate 2020 3 12)) by reflexivity.
  assert (H3 : strptime no_decimal (py "12/03/2020")
               = Raise (ValueError time_data_does_not_match_format))
    by reflexivity.
  assert (H4 : birthday (heap ann_two_phones 0%nat) = None) by reflexivity.
  split; [exact H1|]. split; [exact H2|]. split.
  - destruct (proj1 (add_birthday_then_show_birthday no_decimal example_text
                       (py "Ann") (py "12.03.2020") [] [] 0%nat ann_two_phones H1)
                _ H2) as (w' & Hrun & Hshow & _).
    exists w'. split; [exact Hrun|exact Hshow].
  - split; [exact H3|]. split; [|split; [exact H4|]].
    + exact (proj1 (proj2 (add_birthday_then_show_birthday no_decimal example_text
                             (py "Ann") (py "12/03/2020") [] [] 0%nat
                             ann_two_phones H1)) _ H3).
    + exact (proj2 (proj2 (add_birthday_then_show_birthday no_decimal example_text
                             (py "Ann") (py "12/03/2020") [] [] 0%nat
                             ann_two_phones H1)) H4).
Defined.

Lemma birthdays_reply_witness :
  datetime.valid sunday_10_march_2024 = true
  /\ birthdays_parse no_decimal scenario
  /\ birthdays no_decimal example_text sunday_10_march_2024 [] scenario
     = (Value (py "Upcoming birthdays:" ++ nl ++ py "Ann: 12.03.2024" ++ nl
               ++ py "Bob: 18.03.2024"), scenario).
Proof.
  assert (H1 : datetime.valid sunday_10_march_2024 = true) by reflexivity.
  split; [exact H1|]. split; [exact scenario_birthdays_parse|].
  destruct (birthdays_reply no_decimal example_text sunday_10_march_2024 []
              scenario H1 scenario_birthdays_parse)
    as [[_ Hrun]|[(a & b & bd & Ha & Hb & Hs & Hbad) _]].
  - exact Hrun.
  - destruct (scenario_replaceable a b Ha Hb) as (bd' & Hs' & Hr).
    rewrite Hs in Hs'. injection Hs' as <-. contradiction.
Defined.

(** A first session: the program starts without a file, a contact is
    added and shown, and the program is left. *)
Lemma first_session_reachable : reachable no_digit no_decimal new_book.
Proof. apply reachable_start. Qed.

Example first_session :
  exists w,
    main no_digit no_decimal example_text ascii_text new_book
      [(sunday_10_march_2024, py "ADD Ann 1234567890");
       (sunday_10_march_2024, py "phone Ann");
       (sunday_10_march_2024, []);
       (sunday_10_march_2024, py "exit")]
    = ([print (py "Welcome to the assistant bot!");
        input (py "Enter a command: ") (py "ADD Ann 1234567890");
        print (py "Contact added.");
        input (py "Enter a command: ") (py "phone Ann");
        print (py "1234567890");
        input (py "Enter a command: ") [];
        print (py "Invalid command.");
        input (py "Enter a command: ") (py "exit");
        save_data w;
        print (py "Good bye!")],
       Break, w)
    /\ data w = [(py "Ann", 0%nat)]
    /\ heap w 0%nat = contact (py "Ann") [py "1234567890"] None.
Proof. eexists. split; [reflexivity|]. split; reflexivity. Qed.

Lemma main_keeps_the_book_valid_witness :
  reachable no_digit no_decimal new_book
  /\ book_inv
       (main no_digit no_decimal example_text ascii_text new_book
          [(sunday_10_march_2024, py "add Ann 1234567890");
           (sunday_10_march_2024, py "add-birthday Ann 12.03.2020")]).2
  /\ objects_valid no_digit no_decimal
       (main no_digit no_decimal example_text ascii_text new_book
          [(sunday_10_march_2024, py "add Ann 1234567890");
           (sunday_10_march_2024, py "add-birthday Ann 12.03.2020")]).2.
Proof.
  split; [exact first_session_reachable|].
  exact (proj2 (main_keeps_the_book_valid no_digit no_decimal example_text
                  ascii_text new_book
                  [(sunday_10_march_2024, py "add Ann 1234567890");
                   (sunday_10_march_2024, py "add-birthday Ann 12.03.2020")]
                  first_session_reachable)).
Defined.

Lemma main_without_command_witness :
  (py "  " <> []
   /\ Forall (fun c => isspace_cp c = true) (py "  ")
   /\ main_loop no_digit no_decimal example_text ascii_text
        [(sunday_10_march_2024, py "  "); (sunday_10_march_2024, py "exit")]
        ann_two_phones
      = ([input (py "Enter a command: ") (py "  ")], Uncaught (Unpack 1 0),
         ann_two_phones))
  /\ parse_input ascii_text (py "delete Ann") = Value (Some (py "delete"), [py "Ann"])
  /\ (py "delete" ∉ commands)
  /\ main_body no_digit no_decimal example_text ascii_text sunday_10_march_2024
       (py "delete Ann") ann_two_phones
     = ([print (py "Invalid command.")], Next, ann_two_phones).
Proof.
  assert (H1 : py "  " <> []) by discriminate.
  assert (H2 : Forall (fun c => isspace_cp c = true) (py "  "))
    by (by repeat constructor).
  assert (H3 : parse_input ascii_text (py "delete Ann")
               = Value (Some (py "delete"), [py "Ann"])) by reflexivity.
  assert (H4 : py "delete" ∉ commands).
  { apply (bool_decide_unpack _). vm_compute. reflexivity. }
  split; [split; [exact H1|split; [exact H2|]]|split; [exact H3|split; [exact H4|]]].
  - exact (proj2 (proj2 (main_without_command no_digit no_decimal example_text
                           ascii_text sunday_10_march_2024 (py "  ")
                           [(sunday_10_march_2024, py "exit")] ann_two_phones))
             H1 H2).
  - exact (proj1 (proj2 (main_without_command no_digit no_decimal example_text
                           ascii_text sunday_10_march_2024 (py "delete Ann")
                           [] ann_two_phones))
             (py "delete") [py "Ann"] H3 H4).
Defined.
